(** * math-quiz: attempt accounting, submission aggregation and the grading proxy

    A shallow embedding of the JavaScript sources
    - [services/firebaseService] ([useStudentSubmissions], [useStudentAttempts],
      [normalizeEmail], [parsedTeacherEmails], [useTeacherRole],
      [useTeacherSubmissions]),
    - [components/Student/StudentView] ([attemptsByQuiz], [getMaxAttempts],
      [getAttemptInfo], [buildFallbackEvaluations], [startQuiz], [submitQuiz],
      [handleAnswerChange], [startReviewHistory], [mergedClasses], the
      selection effect, the quiz list, [handleInsert]),
    - [services/aiService] ([gradeSubmission]),
    - [netlify/functions/gradeQuiz] ([handler], [truncate], [cleanJson], the
      loop over the model candidates),
    - [components/Teacher/TeacherDashboard] ([buildQuizPayload],
      [deleteSubmissionAttempt], [addTeacherEmail], [removeTeacherEmail]),
    followed by the properties of the specification that concern them and by
    further properties of the code. *)

From Stdlib Require Import ZArith QArith Qround Qabs Lqa Ascii String.
From stdpp Require Import gmap strings list sorting pretty.

Local Open Scope Z_scope.

(** ** JavaScript values *)

Module Js.

(** A JavaScript number: an IEEE double.  The finite ones are carried as the
    rational they denote; the sign of zero is not tracked (no operation below
    observes it). *)
Inductive num : Type :=
| NaN
| PInf
| NInf
| Fin (q : Q).

(** The scalar values a document field can hold. *)
Inductive val : Type :=
| Undefined
| Null
| Bool (b : bool)
| Num (n : num)
| Str (s : string).

Definition is_zero (q : Q) : bool := Z.eqb (Qnum q) 0.

(** ToBoolean. *)
Definition truthy (v : val) : bool :=
  match v with
  | Undefined | Null => false
  | Bool b => b
  | Num NaN => false
  | Num (Fin q) => negb (is_zero q)
  | Num _ => true
  | Str s => negb (String.eqb s EmptyString)
  end.

(** [a || b] and [a ?? b]. *)
Definition or_else (a b : val) : val := if truthy a then a else b.

Definition nullish (a b : val) : val :=
  match a with
  | Undefined | Null => b
  | _ => a
  end.

(** *** Rounding a rational to the nearest double (ties to even) *)

Definition pow2 (e : Z) : Q := Qpower 2 e.

(** For [a > 0], the exponent [e] with [2^e <= a < 2^(e+1)]. *)
Definition ilog2 (a : Q) : Z :=
  let e0 := Z.log2 (Qnum a) - Z.log2 (Zpos (Qden a)) in
  if Qle_bool (pow2 e0) a then e0 else e0 - 1.

Definition round_half_even (q : Q) : Z :=
  let f := Qfloor q in
  match Qcompare (q - inject_Z f) (1 # 2) with
  | Lt => f
  | Gt => f + 1
  | Eq => if Z.even f then f else f + 1
  end.

Definition to_double (q : Q) : num :=
  if is_zero q then Fin 0 else
  let a := Qabs q in
  let e := Z.max (ilog2 a) (-1022) in
  let ulp := pow2 (e - 52) in
  let r := Qred (inject_Z (round_half_even (a / ulp)) * ulp) in
  if Qle_bool (pow2 1024) r
  then (if 0 <? Qnum q then PInf else NInf)
  else Fin (if 0 <? Qnum q then r else Qred (- r)).

(** A numeric literal of the source text, e.g. [3.7]. *)
Definition lit (q : Q) : val := Num (to_double q).

(** *** StringToNumber *)

Definition is_space (c : ascii) : bool :=
  let n := nat_of_ascii c in
  ((9 <=? n) && (n <=? 13) || (n =? 32) || (n =? 160))%nat.

Fixpoint trim_left (s : list ascii) : list ascii :=
  match s with
  | c :: s' => if is_space c then trim_left s' else s
  | [] => []
  end.

Definition trim (s : list ascii) : list ascii :=
  rev (trim_left (rev (trim_left s))).

(** The value of [c] as a digit, when it is one in the given base. *)
Definition digit_of (base : Z) (c : ascii) : option Z :=
  let n := Z.of_nat (nat_of_ascii c) in
  let d := if (48 <=? n) && (n <=? 57) then n - 48
           else if (97 <=? n) && (n <=? 102) then n - 87
           else if (65 <=? n) && (n <=? 70) then n - 55
           else base in
  if d <? base then Some d else None.

(** Reads the longest prefix of digits: its value, its length, the rest. *)
Fixpoint read_digits (base : Z) (s : list ascii) (acc : Z) (n : nat)
  : Z * nat * list ascii :=
  match s with
  | c :: s' =>
      match digit_of base c with
      | Some d => read_digits base s' (acc * base + d) (S n)
      | None => (acc, n, s)
      end
  | [] => (acc, n, [])
  end.

Definition read_sign (s : list ascii) : bool * list ascii :=
  match s with
  | "+"%char :: s' => (false, s')
  | "-"%char :: s' => (true, s')
  | _ => (false, s)
  end.

Definition is_e (c : ascii) : bool :=
  Ascii.eqb c "e" || Ascii.eqb c "E".

(** The exponent part: [Some 0] when there is none and the text ends,
    [None] when what follows is not an exponent part. *)
Definition read_exponent (s : list ascii) : option Z :=
  match s with
  | [] => Some 0
  | c :: s' =>
      if is_e c then
        let '(neg, s1) := read_sign s' in
        match read_digits 10 s1 0 0 with
        | (_, O, _) => None
        | (e, _, []) => Some (if neg then - e else e)
        | _ => None
        end
      else None
  end.

(** StrUnsignedDecimalLiteral, as an exact rational. *)
Definition read_decimal (s : list ascii) : option Q :=
  let '(ip, ni, s1) := read_digits 10 s 0 0 in
  let '(fp, nf, s2) :=
    match s1 with
    | "."%char :: s1' => read_digits 10 s1' 0 0
    | _ => (0, O, s1)
    end in
  if (ni + nf =? 0)%nat then None else
  match read_exponent s2 with
  | Some e =>
      Some ((inject_Z ip + inject_Z fp / inject_Z (10 ^ Z.of_nat nf))
            * Qpower 10 e)%Q
  | None => None
  end.

Definition read_radix (base : Z) (s : list ascii) : num :=
  match read_digits base s 0 0 with
  | (_, O, _) => NaN
  | (v, _, []) => to_double (inject_Z v)
  | _ => NaN
  end.

Definition infinity_text : list ascii :=
  list_ascii_of_string "Infinity".

Definition has_radix_prefix (s : list ascii) : option (Z * list ascii) :=
  match s with
  | "0"%char :: c :: s' =>
      if Ascii.eqb c "x" || Ascii.eqb c "X" then Some (16, s')
      else if Ascii.eqb c "o" || Ascii.eqb c "O" then Some (8, s')
      else if Ascii.eqb c "b" || Ascii.eqb c "B" then Some (2, s')
      else None
  | _ => None
  end.

Definition StringToNumber (text : string) : num :=
  let s := trim (list_ascii_of_string text) in
  match s with
  | [] => Fin 0
  | _ =>
      match has_radix_prefix s with
      | Some (base, s') => read_radix base s'
      | None =>
          let '(neg, s1) := read_sign s in
          if bool_decide (s1 = infinity_text)
          then (if neg then NInf else PInf)
          else match read_decimal s1 with
               | Some q => to_double (if neg then - q else q)
               | None => NaN
               end
      end
  end.

(** [Number(v)]. *)
Definition Number (v : val) : num :=
  match v with
  | Undefined => NaN
  | Null => Fin 0
  | Bool b => Fin (if b then 1 else 0)
  | Num n => n
  | Str s => StringToNumber s
  end.

Definition isFinite (n : num) : bool :=
  match n with Fin _ => true | _ => false end.

(** [a > b] and [a >= b] on numbers; a comparison with [NaN] is false. *)
Definition gt (a b : num) : bool :=
  match a, b with
  | NaN, _ | _, NaN => false
  | PInf, PInf => false
  | PInf, _ => true
  | _, NInf => match a with NInf => false | _ => true end
  | NInf, _ => false
  | _, PInf => false
  | Fin x, Fin y => negb (Qle_bool x y)
  end.

Definition ge (a b : num) : bool :=
  match a, b with
  | NaN, _ | _, NaN => false
  | PInf, _ => true
  | _, NInf => true
  | NInf, _ => false
  | _, PInf => false
  | Fin x, Fin y => Qle_bool y x
  end.

(** [a - b] and [a + b].  A finite result is kept exact: what is read of it
    below is its sign, or its value where the operands are counts of attempts,
    and on those double arithmetic is exact. *)
Definition sub (a b : num) : num :=
  match a, b with
  | NaN, _ | _, NaN => NaN
  | PInf, PInf | NInf, NInf => NaN
  | PInf, _ | _, NInf => PInf
  | NInf, _ | _, PInf => NInf
  | Fin x, Fin y => Fin (x - y)
  end.

Definition add (a b : num) : num :=
  match a, b with
  | NaN, _ | _, NaN => NaN
  | PInf, NInf | NInf, PInf => NaN
  | PInf, _ | _, PInf => PInf
  | NInf, _ | _, NInf => NInf
  | Fin x, Fin y => Fin (x + y)
  end.

(** [a <= b]. *)
Definition le (a b : num) : bool := ge b a.

(** [Math.floor] and [Math.max]. *)
Definition floor (a : num) : num :=
  match a with
  | Fin q => Fin (inject_Z (Qfloor q))
  | _ => a
  end.

Definition max (a b : num) : num :=
  match a, b with
  | NaN, _ | _, NaN => NaN
  | _, _ => if ge a b then a else b
  end.

(** Two numbers with the same value (finite values are compared as
    rationals, not as fractions). *)
Definition same (a b : num) : Prop :=
  match a, b with
  | NaN, NaN | PInf, PInf | NInf, NInf => True
  | Fin x, Fin y => (x == y)%Q
  | _, _ => False
  end.

(** [a !== 0] on numbers. *)
Definition nonzero (a : num) : bool :=
  match a with
  | Fin q => negb (is_zero q)
  | _ => true
  end.

End Js.

Import Js.

(** ** Documents of the store *)

Record Evaluation : Type := {
  isCorrect : bool;
  feedback : string;
}.

Abbreviation Answers := (gmap string string).
Abbreviation Evaluations := (gmap string Evaluation).

(** A document of the [submissions] collection.  The hooks read the fields
    defensively ([data.attemptNumber || 0], [data.answers || {}], ...), so the
    fields they read are optional or untyped here. *)
Record Submission : Type := {
  quizId : option string;
  quizTitle : option string;
  classId : string;
  className : string;
  studentId : string;
  studentEmail : string;
  studentName : string;
  answers : option Answers;
  evaluations : option Evaluations;
  gradeStatus : option string;
  attemptNumber : val;
  maxAttemptsAtSubmission : val;
  attemptedAt : option string;
}.

Record Question : Type := {
  q_id : option string;
  q_text : option string;
  showFeedback : bool;
}.

Record Quiz : Type := {
  quiz_id : string;
  quiz_title : option string;
  quiz_classId : option string;
  quiz_className : option string;
  maxAttempts : val;
  prefillFromLastAttempt : bool;
  allowShuffle : bool;
  questions : option (list Question);
}.

(** [s || ''] on an optional string field, and [!s]. *)
Definition str_or_empty (s : option string) : string := default EmptyString s.

Definition str_truthy (s : option string) : bool :=
  match s with
  | Some s => negb (String.eqb s EmptyString)
  | None => false
  end.

(** The integer [n] as a JavaScript number. *)
Definition of_Z (n : Z) : num := Fin (inject_Z n).

(** [Number(data.attemptNumber || 0)], as the ledger and the history sort
    both read the attempt number of a document. *)
Definition attemptNum (data : Submission) : num :=
  Number (or_else (attemptNumber data) (Num (Fin 0))).

(** ** The attempt ledger: [useStudentSubmissions] *)

(** One entry of the summary.  [A] is the representation of the answers
    object: its contents where only the contents matter, its address where
    sharing matters. *)
Record Summary (A : Type) : Type := {
  count : nat;
  latestAttemptNumber : num;
  latestAnswers : A;
  latestEvaluations : Evaluations;
}.
Arguments count {A} _.
Arguments latestAttemptNumber {A} _.
Arguments latestAnswers {A} _.
Arguments latestEvaluations {A} _.

Module Ledger.

Definition fresh_entry : Summary Answers :=
  {| count := 0; latestAttemptNumber := Fin 0;
     latestAnswers := ∅; latestEvaluations := ∅ |}.

(** What one document does to the entry of its quiz: [count += 1], then the
    test [attemptNumber >= latestAttemptNumber]. *)
Definition record (entry : Summary Answers) (data : Submission)
  : Summary Answers :=
  let attemptNumber := attemptNum data in
  if ge attemptNumber (latestAttemptNumber entry) then
    {| count := S (count entry);
       latestAttemptNumber := attemptNumber;
       latestAnswers := default ∅ (answers data);
       latestEvaluations := default ∅ (evaluations data) |}
  else
    {| count := S (count entry);
       latestAttemptNumber := latestAttemptNumber entry;
       latestAnswers := latestAnswers entry;
       latestEvaluations := latestEvaluations entry |}.

(** The body of [snap.docs.forEach]. *)
Definition step (nextSummary : gmap string (Summary Answers))
    (data : Submission) : gmap string (Summary Answers) :=
  if negb (str_truthy (quizId data)) then nextSummary else
  let quizId := str_or_empty (quizId data) in
  <[quizId := record (default fresh_entry (nextSummary !! quizId)) data]>
    nextSummary.

(** The snapshot callback: the summary handed to [setSummaryByQuiz]. *)
Definition useStudentSubmissions (docs : list Submission)
  : gmap string (Summary Answers) :=
  foldl step ∅ docs.

(** The documents of a quiz, and how many of a sequence are of it. *)
Definition of_quiz (q : string) (data : Submission) : Prop :=
  quizId data = Some q.

#[global] Instance of_quiz_dec (q : string) (data : Submission) :
  Decision (of_quiz q data) := decide (quizId data = Some q).

Definition occurrences (q : string) (docs : list Submission) : nat :=
  length (filter (of_quiz q) docs).



(** The fold as one quiz sees it. *)
Definition step_of (q : string) (entry : option (Summary Answers))
    (data : Submission) : option (Summary Answers) :=
  if decide (of_quiz q data) then Some (record (default fresh_entry entry) data)
  else entry.

End Ledger.

(** ** Attempt history: [useStudentAttempts] and [attemptsByQuiz] *)

Module History.

(** [Array.prototype.sort(comparefn)].  The comparator's result is read as
    [SortCompare] reads it ([NaN] counts as [+0]); the order of the result is
    the one every conforming (stable) implementation produces when the
    comparator is consistent, here produced by insertion. *)
Section Sort.
Context {A : Type}.
Variable comparefn : A → A → num.

Fixpoint insert (x : A) (sorted : list A) : list A :=
  match sorted with
  | [] => [x]
  | y :: rest =>
      if gt (comparefn x y) (Fin 0) then y :: insert x rest
      else x :: y :: rest
  end.

Definition sort (items : list A) : list A := foldr insert [] items.
End Sort.

Section Attempts.
(** [new Date(text).getTime()] of the host, [NaN] for an invalid date. *)
Variable Date_parse : string → num.

(** [new Date(a.attemptedAt || 0).getTime()]. *)
Definition getTime (a : Submission) : num :=
  if str_truthy (attemptedAt a) then Date_parse (str_or_empty (attemptedAt a))
  else Fin 0.

(** The comparator shared by [useStudentAttempts] and [attemptsByQuiz]. *)
Definition compareAttempts (a b : Submission) : num :=
  let attemptDelta := sub (attemptNum b) (attemptNum a) in
  if nonzero attemptDelta then attemptDelta
  else sub (getTime b) (getTime a).

(** The snapshot callback of [useStudentAttempts] (the document id it adds to
    each record plays no part in the order). *)
Definition useStudentAttempts (docs : list Submission) : list Submission :=
  sort compareAttempts docs.

(** The body of [submissionHistory.forEach] in [attemptsByQuiz]. *)
Definition group_step (grouped : gmap string (list Submission))
    (attempt : Submission) : gmap string (list Submission) :=
  if negb (str_truthy (quizId attempt)) then grouped else
  let k := str_or_empty (quizId attempt) in
  <[k := default [] (grouped !! k) ++ [attempt]]> grouped.

Definition attemptsByQuiz (submissionHistory : list Submission)
  : gmap string (list Submission) :=
  sort compareAttempts <$> foldl group_step ∅ submissionHistory.



End Attempts.

End History.

(** ** The grading client: [gradeSubmission] *)

Module AiService.

(** What [fetch] and [response.json()] can come to. *)
Inductive Payload : Type :=
| NotJson
| JsonNull
| Json (evaluations : option Evaluations).

Inductive HttpReply : Type :=
| NoReply
| Reply (ok : bool) (payload : Payload).

(** The value of [gradingData]: [None] is [null]; of an object only the
    [evaluations] property is read. *)
Definition GradingData : Type := option (option Evaluations).

Definition grading_failed : string :=
  "Grading failed. Please try again or contact the instructor.".

(** Returns the grade object and the alerts raised on the way. *)
Definition gradeSubmission (reply : HttpReply) : GradingData * list string :=
  match reply with
  | Reply true (Json evaluations) => (Some evaluations, [])
  | Reply true JsonNull => (None, [])
  | _ => (None, [grading_failed])
  end.

End AiService.

(** ** The student view *)

Module StudentView.
Import AiService.

Definition loc : Type := positive.

Record User : Type := {
  uid : string;
  email : option string;
  displayName : option string;
}.

(** The component state that the attempt flow reads and writes.  The answers
    object and the summary's [latestAnswers] are addresses into [heap]. *)
Record View : Type := {
  submissionSummary : gmap string (Summary loc);
  selectedClassName : option string;
  view : string;
  activeQuiz : option Quiz;
  activeHistoryAttempt : option Submission;
  studentAnswers : loc;
  gradingResult : option Evaluations;
  isSubmitting : bool;
  viewingResult : bool;
  shuffledQuestions : list Question;
}.

Record World : Type := {
  ui : View;
  heap : gmap loc Answers;
  store : list Submission;
  alerts : list string;
}.

(** [{ ... }]: a new object. *)
Definition alloc (o : Answers) (h : gmap loc Answers) : loc * gmap loc Answers :=
  let l := fresh (dom h) in (l, <[l := o]> h).

Definition deref (h : gmap loc Answers) (l : loc) : Answers :=
  default ∅ (h !! l).

(** [Number(quiz?.maxAttempts ?? 1)], the number the coercion starts from. *)
Definition raw_of (quiz : option Quiz) : num :=
  Number (nullish (from_option maxAttempts Undefined quiz) (Num (Fin 1))).

Definition getMaxAttempts (quiz : option Quiz) : num :=
  let raw := raw_of quiz in
  if isFinite raw && gt raw (Fin 0) then floor raw else Fin 1.

Record AttemptInfo : Type := {
  info_maxAttempts : num;
  usedAttempts : num;
  remainingAttempts : num;
}.

Definition getAttemptInfo {A} (submissionSummary : gmap string (Summary A))
    (quiz : Quiz) : AttemptInfo :=
  let maxAttempts := getMaxAttempts (Some quiz) in
  let usedAttempts :=
    match submissionSummary !! quiz_id quiz with
    | Some entry => of_Z (Z.of_nat (count entry))
    | None => Fin 0
    end in
  let remainingAttempts := max (Fin 0) (sub maxAttempts usedAttempts) in
  {| info_maxAttempts := maxAttempts;
     usedAttempts := usedAttempts;
     remainingAttempts := remainingAttempts |}.

Definition fallback_feedback : string :=
  "AI grading is unavailable. Your answer was saved and needs teacher review.".

Definition buildFallbackEvaluations (quiz : option Quiz) : Evaluations :=
  foldl
    (λ (fallback : Evaluations) question,
       if negb (str_truthy (q_id question)) then fallback else
       <[str_or_empty (q_id question) :=
           {| isCorrect := false; feedback := fallback_feedback |}]> fallback)
    ∅
    (default [] (from_option questions None quiz)).

Definition fallback_evaluation : Evaluation :=
  {| isCorrect := false; feedback := fallback_feedback |}.

(** What an evaluation for every question would mean: every question of the
    quiz has the fallback evaluation under its id. *)
Definition covers_every_question (quiz : Quiz) (fallback : Evaluations) : Prop :=
  ∀ question, question ∈ default [] (questions quiz) →
    fallback !! default "undefined" (q_id question) = Some fallback_evaluation.

Definition alert (msg : string) (w : World) : World :=
  {| ui := ui w; heap := heap w; store := store w;
     alerts := alerts w ++ [msg] |}.

(** [startQuiz(quiz)]; [shuffle] is the outcome of the random sort. *)
Definition startQuiz (shuffle : list Question → list Question)
    (quiz : Quiz) (w : World) : World :=
  let v := ui w in
  let info := getAttemptInfo (submissionSummary v) quiz in
  if le (remainingAttempts info) (Fin 0) then
    alert "No attempts remaining for this quiz." w
  else
    let '(latestAnswers, h1) :=
      match submissionSummary v !! quiz_id quiz with
      | Some entry => (latestAnswers entry, heap w)
      | None => alloc ∅ (heap w)
      end in
    let '(initial, h2) :=
      if prefillFromLastAttempt quiz then (latestAnswers, h1)
      else alloc ∅ h1 in
    {| ui :=
         {| submissionSummary := submissionSummary v;
            selectedClassName := selectedClassName v;
            view := "quiz";
            activeQuiz := Some quiz;
            activeHistoryAttempt := None;
            studentAnswers := initial;
            gradingResult := None;
            isSubmitting := isSubmitting v;
            viewingResult := false;
            shuffledQuestions :=
              if allowShuffle quiz then shuffle (default [] (questions quiz))
              else default [] (questions quiz) |};
       heap := h2; store := store w; alerts := alerts w |}.

(** [handleAnswerChange(questionId, value)]: the new state is a new object,
    the spread of the previous one with one property set. *)
Definition handleAnswerChange (questionId value : string) (w : World) : World :=
  let v := ui w in
  let '(next, h) := alloc (<[questionId := value]> (deref (heap w) (studentAnswers v))) (heap w) in
  {| ui :=
       {| submissionSummary := submissionSummary v;
          selectedClassName := selectedClassName v;
          view := view v;
          activeQuiz := activeQuiz v;
          activeHistoryAttempt := activeHistoryAttempt v;
          studentAnswers := next;
          gradingResult := gradingResult v;
          isSubmitting := isSubmitting v;
          viewingResult := viewingResult v;
          shuffledQuestions := shuffledQuestions v |};
     heap := h; store := store w; alerts := alerts w |}.

(** A run of answer changes, in the order the student makes them. *)
Definition answerChanges (changes : list (string * string)) (w : World) : World :=
  foldl (λ w change, handleAnswerChange change.1 change.2 w) w changes.

(** What seeding by copy would mean: the answers object of the new attempt is
    another object than the snapshot, with the snapshot's contents. *)
Definition seeded_by_copy (before after : World) (entry : Summary loc) : Prop :=
  studentAnswers (ui after) ≠ latestAnswers entry
  ∧ deref (heap after) (studentAnswers (ui after))
    = deref (heap before) (latestAnswers entry).

(** What the environment answers during one [submitQuiz]: the reply to
    [window.confirm], the reply of the grading function, whether the store
    takes the write, and the clock. *)
Record SubmitEnv : Type := {
  confirmed : bool;
  reply : HttpReply;
  storeAccepts : bool;
  now : string;
}.

Definition is_blank (s : string) : bool :=
  bool_decide (trim (list_ascii_of_string s) = []).

Definition answeredCount (studentAnswers : Answers) : nat :=
  length (filter (λ kv, is_blank kv.2 = false) (map_to_list studentAnswers)).

(** The document handed to [addDoc]. *)
Definition submissionDoc (user : User) (v : View) (activeQuiz : Quiz)
    (info : AttemptInfo) (studentAnswers : Answers)
    (evaluations : Evaluations) (gradeStatus : string) (now : string)
  : Submission :=
  {| quizId := Some (quiz_id activeQuiz);
     quizTitle := quiz_title activeQuiz;
     classId := str_or_empty (quiz_classId activeQuiz);
     className :=
       if str_truthy (quiz_className activeQuiz)
       then str_or_empty (quiz_className activeQuiz)
       else str_or_empty (selectedClassName v);
     studentId := uid user;
     studentEmail := str_or_empty (email user);
     studentName :=
       if str_truthy (displayName user) then str_or_empty (displayName user)
       else str_or_empty (email user);
     answers := Some studentAnswers;
     evaluations := Some evaluations;
     gradeStatus := Some gradeStatus;
     attemptNumber := Num (add (usedAttempts info) (Fin 1));
     maxAttemptsAtSubmission := Num (info_maxAttempts info);
     attemptedAt := Some now |}.

Definition finish (v : View) (result : option Evaluations) (shown : bool)
    (screen : string) : View :=
  {| submissionSummary := submissionSummary v;
     selectedClassName := selectedClassName v;
     view := screen;
     activeQuiz := activeQuiz v;
     activeHistoryAttempt := activeHistoryAttempt v;
     studentAnswers := studentAnswers v;
     gradingResult := result;
     isSubmitting := false;
     viewingResult := shown;
     shuffledQuestions := shuffledQuestions v |}.

Definition submitQuiz (user : User) (env : SubmitEnv) (w : World) : World :=
  let v := ui w in
  match activeQuiz v with
  | None => w
  | Some activeQuiz =>
      if isSubmitting v then w else
      let info := getAttemptInfo (submissionSummary v) activeQuiz in
      if le (remainingAttempts info) (Fin 0) then
        alert "Attempt limit reached for this quiz." w
      else
        let studentAnswers := deref (heap w) (studentAnswers v) in
        if (answeredCount studentAnswers
              <? length (default [] (questions activeQuiz)))%nat
           && negb (confirmed env)
        then w
        else
          let '(gradingData, raised) := gradeSubmission (reply env) in
          let evaluations :=
            match gradingData with
            | Some (Some evaluations) => evaluations
            | _ => buildFallbackEvaluations (Some activeQuiz)
            end in
          let gradeStatus :=
            match gradingData with
            | Some (Some _) => "graded"
            | _ => "needs_teacher_review"
            end in
          let doc :=
            submissionDoc user v activeQuiz info studentAnswers evaluations
              gradeStatus (now env) in
          if storeAccepts env then
            {| ui := finish v (Some evaluations) true "results";
               heap := heap w;
               store := store w ++ [doc];
               alerts := alerts w ++ raised |}
          else
            {| ui := finish v (gradingResult v) false (view v);
               heap := heap w;
               store := store w;
               alerts :=
                 alerts w ++ raised
                   ++ ["Your answers could not be saved. Please retry."] |}
  end.

End StudentView.

(** ** The teacher's side: [buildQuizPayload] and the quiz editor *)

Module TeacherDashboard.

(** The [maxAttempts] field of the payload [buildQuizPayload] saves, the
    same coercion as [getMaxAttempts]. *)
Definition buildQuizPayload_maxAttempts (quiz : Quiz) : num :=
  let parsedAttempts := Number (nullish (maxAttempts quiz) (Num (Fin 1))) in
  if isFinite parsedAttempts && gt parsedAttempts (Fin 0)
  then floor parsedAttempts else Fin 1.

(** The [onChange] handler of the editor's Max Attempts input: the value put
    into [quiz.maxAttempts] for the text [e.target.value]. *)
Definition onMaxAttemptsChange (value : string) : num :=
  let parsed := Number (Str value) in
  if isFinite parsed && gt parsed (Fin 0) then floor parsed else Fin 1.

End TeacherDashboard.

(** ** The grading proxy: [netlify/functions/gradeQuiz] *)

Module GradeProxy.

Definition quote : string := String (ascii_of_nat 34) EmptyString.
Definition newline : string := String (ascii_of_nat 10) EmptyString.

(** [parts.join(separator)]. *)
Fixpoint join (separator : string) (parts : list string) : string :=
  match parts with
  | [] => EmptyString
  | [p] => p
  | p :: rest => p +:+ separator +:+ join separator rest
  end.

(** [truncate(value, max)]: [String(value || "")] cut to [max] characters,
    with the marker appended when something was cut. *)
Definition truncate (value : option string) (max : nat) : string :=
  let text := str_or_empty value in
  if (max <? String.length text)%nat
  then substring 0 max text +:+ "..."
  else text.

(** What capping [full] to [max] characters means for the text [short] that
    stands for it: [full] itself when it is short enough, and otherwise its
    first [max] characters followed by the three-character marker. *)
Definition capped (max : nat) (full short : string) : Prop :=
  if (max <? String.length full)%nat
  then short = substring 0 max full +:+ "..."
       ∧ String.length (substring 0 max full) = max
       ∧ String.prefix (substring 0 max full) full = true
       ∧ String.length short = (max + 3)%nat
  else short = full.

(** The fields of the request body that the handler destructures. *)
Record Request : Type := {
  req_quizTitle : option string;
  req_questions : option (list Question);
  req_studentAnswers : option Answers;
}.

(** [Array.isArray(questions) ? questions.slice(0, 20) : []]. *)
Definition safeQuestions (r : Request) : list Question :=
  match req_questions r with
  | Some questions => take 20 questions
  | None => []
  end.

(** [studentAnswers[id] || "No answer provided"]. *)
Definition answerOf (studentAnswers : Answers) (id : string) : string :=
  match studentAnswers !! id with
  | Some a => if String.eqb a EmptyString then "No answer provided" else a
  | None => "No answer provided"
  end.

(** The three interpolations of one question of the prompt: [q.id],
    [truncate(q.text, 1200)] and
    [truncate(studentAnswers[q.id] || "No answer provided", 1200)];
    [None] when [studentAnswers] is not an object (a TypeError). *)
Definition questionFields (r : Request) (q : Question)
  : option (string * string * string) :=
  match req_studentAnswers r with
  | None => None
  | Some studentAnswers =>
      let id := default "undefined" (q_id q) in
      Some (id, truncate (q_text q) 1200,
            truncate (Some (answerOf studentAnswers id)) 1200)
  end.

Definition questionBlock (fields : string * string * string) : string :=
  let '(id, text, answer) := fields in
  join newline
    [ EmptyString;
      "        [ID: " +:+ quote +:+ id +:+ quote +:+ "]";
      "        Question: " +:+ text;
      "        Student Answer: " +:+ answer;
      "      " ].

(** The template of the prompt around its interpolations. *)
Definition renderPrompt (title : string)
    (blocks : list (string * string * string)) : string :=
  join newline
    [ EmptyString;
      "      You are a math teacher grading a quiz.";
      "      Quiz Title: " +:+ title;
      EmptyString;
      "      Questions & Student Answers:";
      "      "
        +:+ join (newline +:+ "----------------" +:+ newline)
              (questionBlock <$> blocks);
      EmptyString;
      "      INSTRUCTIONS:";
      "      1. Check if the math is correct. Implicit multiplication and LaTeX variations are allowed.";
      "      2. If answer is blank/empty, it is incorrect.";
      "      3. Return ONLY valid JSON. The keys MUST match the Question IDs exactly.";
      "      ";
      "      Structure:";
      "      {";
      "        " +:+ quote +:+ "evaluations" +:+ quote +:+ ": {";
      "          " +:+ quote +:+ "QUESTION_ID" +:+ quote +:+ ": { "
        +:+ quote +:+ "isCorrect" +:+ quote +:+ ": boolean, "
        +:+ quote +:+ "feedback" +:+ quote +:+ ": "
        +:+ quote +:+ "Brief feedback string" +:+ quote +:+ " }";
      "        }";
      "      }";
      "    " ].

(** The prompt sent upstream; [None] when building it throws. *)
Definition buildPrompt (r : Request) : option string :=
  blocks ← mapM (questionFields r) (safeQuestions r);
  Some (renderPrompt (truncate (req_quizTitle r) 200) blocks).

(** *** The upstream call *)

Record ModelError : Type := {
  err_status : option Z;
  err_message : option string;
}.

Inductive ModelOutcome : Type :=
| Generated (text : string)
| Rejected (modelError : ModelError).

Fixpoint starts_with (prefix s : list ascii) : bool :=
  match prefix, s with
  | [], _ => true
  | p :: prefix', c :: s' => Ascii.eqb p c && starts_with prefix' s'
  | _ :: _, [] => false
  end.

(** [hay.includes(needle)]. *)
Fixpoint includes (needle hay : list ascii) : bool :=
  starts_with needle hay ||
  match hay with
  | [] => false
  | _ :: hay' => includes needle hay'
  end.

Definition lower (c : ascii) : ascii :=
  let n := nat_of_ascii c in
  if ((65 <=? n) && (n <=? 90))%nat then ascii_of_nat (n + 32) else c.

Definition isNotFound (e : ModelError) : bool :=
  let message := list_ascii_of_string (str_or_empty (err_message e)) in
  bool_decide (err_status e = Some 404)
  || includes (list_ascii_of_string "404") message
  || includes (list_ascii_of_string "not found") (lower <$> message).

(** What the [try] block can throw: the host's [SyntaxError] and [TypeError],
    whose message texts are the host's, a rejected model call, and the
    handler's own errors. *)
Inductive Thrown : Type :=
| SyntaxError
| TypeError
| Upstream (modelError : ModelError)
| Failure (message : string).

(** Code that returns a value or throws, with the sequencing of a [try]
    block: the first throw ends it. *)
Definition Try (A : Type) : Type := Thrown + A.

Definition throw {A} (error : Thrown) : Try A := inl error.

#[global] Instance Try_ret : MRet Try := λ A x, inr x.

#[global] Instance Try_bind : MBind Try := λ A B f m,
  match m with
  | inl error => inl error
  | inr x => f x
  end.

(** The value of an option, or the given throw when there is none. *)
Definition orThrow {A} (error : Thrown) (x : option A) : Try A :=
  match x with
  | Some x => mret x
  | None => throw error
  end.

(** [text.replace(/```json|```/g, '')]; [skip] characters are being dropped. *)
Fixpoint strip_fences (skip : nat) (s : list ascii) : list ascii :=
  match s with
  | [] => []
  | c :: s' =>
      match skip with
      | S k => strip_fences k s'
      | O =>
          if starts_with (list_ascii_of_string "```json") s then strip_fences 6 s'
          else if starts_with (list_ascii_of_string "```") s then strip_fences 2 s'
          else c :: strip_fences 0 s'
      end
  end.

Fixpoint indexOf (c : ascii) (s : list ascii) : option nat :=
  match s with
  | [] => None
  | d :: s' => if Ascii.eqb c d then Some O else S <$> indexOf c s'
  end.

Definition lastIndexOf (c : ascii) (s : list ascii) : option nat :=
  (λ i, length s - 1 - i)%nat <$> indexOf c (rev s).

(** [s.substring(from, to)], which swaps its arguments when [from > to]. *)
Definition substring_between (from to : nat) (s : list ascii) : list ascii :=
  let lo := Nat.min from to in
  let hi := Nat.max from to in
  take (hi - lo) (drop lo s).

Record Event : Type := {
  httpMethod : string;
  body : option string;
}.

Record Env : Type := {
  GEMINI_API_KEY : option string;
  GEMINI_MODEL : option string;
}.

Section Handler.
(** The values [JSON.parse] produces, and what the handler reads of them. *)
Context {J : Type}.
(** [JSON.parse(text)]; [None] when it throws its [SyntaxError]. *)
Variable JSON_parse : string → option J.
(** [const { quizTitle, questions, studentAnswers } = data]; [None] when
    [data] is [null] (a [TypeError]). *)
Variable destructure : J → option Request.
(** [parsedData && parsedData.evaluations], as a condition. *)
Variable has_evaluations : J → bool.
(** [model.generateContent(prompt)] under the timeout, for a model name. *)
Variable generateContent : string → string → ModelOutcome.

Inductive Body : Type :=
| Plain (text : string)
| ErrorObject (error : Thrown)
| Stringified (data : J).

Record Response : Type := {
  statusCode : Z;
  response_body : Body;
}.

Definition modelCandidates (env : Env) : list string :=
  let configuredModel :=
    if str_truthy (GEMINI_MODEL env) then str_or_empty (GEMINI_MODEL env)
    else "gemini-2.0-flash-lite" in
  if String.eqb configuredModel "gemini-2.0-flash" then [configuredModel]
  else [configuredModel; "gemini-2.0-flash"].

(** The [for] loop over the candidates: [text], [usedModel] and
    [lastError] as the loop leaves them, or what it throws. *)
Fixpoint tryModels (prompt : string) (candidates : list string)
    (lastError : option ModelError)
  : Try (string * string * option ModelError) :=
  match candidates with
  | [] => mret (EmptyString, EmptyString, lastError)
  | modelName :: rest =>
      match generateContent modelName prompt with
      | Generated text => mret (text, modelName, lastError)
      | Rejected modelError =>
          if isNotFound modelError
          then tryModels prompt rest (Some modelError)
          else throw (Upstream modelError)
      end
  end.

(** [cleanJson(text)]; the value [None] is its [null]. *)
Definition cleanJson (text : string) : Try (option J) :=
  let clean := strip_fences 0 (list_ascii_of_string text) in
  match indexOf "{" clean, lastIndexOf "}" clean with
  | Some firstOpen, Some lastClose =>
      data ← orThrow SyntaxError
               (JSON_parse
                  (string_of_list_ascii
                     (substring_between firstOpen (lastClose + 1) clean)));
      mret (Some data)
  | _, _ => mret None
  end.

Definition unexpected_shape (usedModel : string) : Thrown :=
  Failure ("Gemini returned non-JSON or unexpected JSON shape (model: "
           +:+ usedModel +:+ ").").

Definition all_failed (lastError : option ModelError) : Thrown :=
  Failure ("All model candidates failed. Last error: "
           +:+ (if str_truthy (lastError ≫= err_message)
                then str_or_empty (lastError ≫= err_message)
                else "Unknown Gemini error")).

(** The body of the handler's [try] block. *)
Definition grade (env : Env) (event : Event) : Try J :=
  data ← orThrow SyntaxError (JSON_parse (default "null" (body event)));
  prompt ← orThrow TypeError (destructure data ≫= buildPrompt);
  '(text, usedModel, lastError) ← tryModels prompt (modelCandidates env) None;
  if String.eqb text EmptyString then throw (all_failed lastError) else
  parsedData ← cleanJson text;
  match parsedData with
  | Some parsedData =>
      if has_evaluations parsedData then mret parsedData
      else throw (unexpected_shape usedModel)
  | None => throw (unexpected_shape usedModel)
  end.

Definition handler (env : Env) (event : Event) : Response :=
  if negb (str_truthy (GEMINI_API_KEY env)) then
    {| statusCode := 500;
       response_body := ErrorObject (Failure "Server Configuration Error") |}
  else if negb (String.eqb (httpMethod event) "POST") then
    {| statusCode := 405; response_body := Plain "Method Not Allowed" |}
  else
    match grade env event with
    | inr parsedData =>
        {| statusCode := 200; response_body := Stringified parsedData |}
    | inl error =>
        {| statusCode := 500; response_body := ErrorObject error |}
    end.
End Handler.

(** A client-error status. *)
Definition is_4xx (status : Z) : Prop := 400 <= status < 500.

End GradeProxy.

(** ** Sample documents *)

Module Samples.
Import AiService StudentView.

(** A quiz with one question and the given [maxAttempts] field. *)
Definition quiz_with (m : val) : Quiz :=
  {| quiz_id := "quiz-1";
     quiz_title := Some "Linear equations";
     quiz_classId := Some "class-1";
     quiz_className := Some "Algebra";
     maxAttempts := m;
     prefillFromLastAttempt := true;
     allowShuffle := false;
     questions :=
       Some [ {| q_id := Some "q1"; q_text := Some "Solve 2x + 5 = 15.";
                 showFeedback := true |} ] |}.

(** A quiz whose second question was stored without an id. *)
Definition quiz_with_unnamed_question : Quiz :=
  {| quiz_id := "quiz-3";
     quiz_title := Some "Fractions";
     quiz_classId := Some "class-1";
     quiz_className := Some "Algebra";
     maxAttempts := lit 1;
     prefillFromLastAttempt := false;
     allowShuffle := false;
     questions :=
       Some [ {| q_id := Some "q1"; q_text := Some "Add 1/2 and 1/3.";
                 showFeedback := true |};
              {| q_id := None; q_text := Some "Reduce 4/8.";
                 showFeedback := true |} ] |}.

Definition student : User :=
  {| uid := "student-1"; email := Some "student@example.org";
     displayName := Some "Student" |}.

(** The grading call times out, the student confirms, the store takes the
    write. *)
Definition grading_times_out : SubmitEnv :=
  {| confirmed := true; reply := NoReply; storeAccepts := true;
     now := "2024-03-02T10:00:00.000Z" |}.

(** The grading service answers with an evaluation. *)
Definition grading_succeeds : SubmitEnv :=
  {| confirmed := true;
     reply := Reply true
                (Json (Some {[ "q1" := {| isCorrect := true; feedback := "Correct." |} ]}));
     storeAccepts := true;
     now := "2024-03-02T10:00:00.000Z" |}.

(** The student view after one graded attempt at the sample quiz: the summary
    holds the snapshot of that attempt (the object at address 1), and the
    component still has its initial, empty answers object (at address 2). *)
Definition after_first_attempt : World :=
  {| ui :=
       {| submissionSummary :=
            {[ "quiz-1" :=
                 {| count := 1; latestAttemptNumber := of_Z 1;
                    latestAnswers := 1%positive; latestEvaluations := ∅ |} ]};
          selectedClassName := Some "Algebra";
          view := "list";
          activeQuiz := None;
          activeHistoryAttempt := None;
          studentAnswers := 2%positive;
          gradingResult := None;
          isSubmitting := false;
          viewingResult := false;
          shuffledQuestions := [] |};
     heap := {[ 1%positive := {[ "q1" := "x = 4" ]}; 2%positive := ∅ ]};
     store := [];
     alerts := [] |}.

(** The student view while the student takes [quiz] for the first time, with
    the given answers typed in. *)
Definition taking (quiz : Quiz) (typed : Answers) : World :=
  {| ui :=
       {| submissionSummary := ∅;
          selectedClassName := Some "Algebra";
          view := "quiz";
          activeQuiz := Some quiz;
          activeHistoryAttempt := None;
          studentAnswers := 1%positive;
          gradingResult := None;
          isSubmitting := false;
          viewingResult := false;
          shuffledQuestions := default [] (questions quiz) |};
     heap := {[ 1%positive := typed ]};
     store := [];
     alerts := [] |}.

(** *** The grading proxy: a request, its body, and a host *)

Definition quoted (s : string) : string :=
  GradeProxy.quote +:+ s +:+ GradeProxy.quote.

(** A question text of 2000 characters. *)
Definition long_text : string :=
  string_of_list_ascii (replicate 2000 "a"%char).

(** A request with a long title, 25 questions with the long text, and an
    answer to the first. *)
Definition long_request : GradeProxy.Request :=
  {| GradeProxy.req_quizTitle :=
       Some (string_of_list_ascii (replicate 250 "t"%char));
     GradeProxy.req_questions :=
       Some (replicate 25 {| q_id := Some "q1"; q_text := Some long_text;
                             showFeedback := true |});
     GradeProxy.req_studentAnswers := Some {[ "q1" := "x = 5" ]} |}.

Definition small_request : GradeProxy.Request :=
  {| GradeProxy.req_quizTitle := Some "Linear equations";
     GradeProxy.req_questions :=
       Some [ {| q_id := Some "q1"; q_text := Some "Solve 2x + 5 = 15.";
                 showFeedback := false |} ];
     GradeProxy.req_studentAnswers := Some {[ "q1" := "x = 5" ]} |}.

(** The JSON text of [small_request], and a body that is cut off. *)
Definition small_body : string :=
  "{" +:+ quoted "quizTitle" +:+ ":" +:+ quoted "Linear equations" +:+ ","
  +:+ quoted "questions" +:+ ":[{" +:+ quoted "id" +:+ ":" +:+ quoted "q1" +:+ ","
  +:+ quoted "text" +:+ ":" +:+ quoted "Solve 2x + 5 = 15." +:+ "}],"
  +:+ quoted "studentAnswers" +:+ ":{" +:+ quoted "q1" +:+ ":" +:+ quoted "x = 5"
  +:+ "}}".

Definition malformed_body : string :=
  "{" +:+ quoted "quizTitle" +:+ ":" +:+ quoted "Linear equations" +:+ ",".

(** The answer of the model to [small_request]. *)
Definition model_answer : string :=
  "{" +:+ quoted "evaluations" +:+ ":{" +:+ quoted "q1" +:+ ":{"
  +:+ quoted "isCorrect" +:+ ":true," +:+ quoted "feedback" +:+ ":"
  +:+ quoted "Correct." +:+ "}}}".

(** The values the host's [JSON.parse] gives for the texts above. *)
Inductive SampleJson : Type :=
| RequestJson (r : GradeProxy.Request)
| GradeJson (graded : Evaluations)
| NullJson.

(** [JSON.parse] on these texts; it throws on every text that is not JSON,
    of which [malformed_body] is one (the other texts are not used). *)
Definition host_parse (text : string) : option SampleJson :=
  if String.eqb text small_body then Some (RequestJson small_request)
  else if String.eqb text model_answer
       then Some (GradeJson {[ "q1" := {| isCorrect := true; feedback := "Correct." |} ]})
  else if String.eqb text "null" then Some NullJson
  else None.

Definition host_destructure (data : SampleJson) : option GradeProxy.Request :=
  match data with
  | RequestJson r => Some r
  | GradeJson _ =>
      Some {| GradeProxy.req_quizTitle := None;
              GradeProxy.req_questions := None;
              GradeProxy.req_studentAnswers := None |}
  | NullJson => None
  end.

Definition host_has_evaluations (data : SampleJson) : bool :=
  match data with
  | GradeJson _ => true
  | _ => false
  end.

Definition model_replies (modelName prompt : string) : GradeProxy.ModelOutcome :=
  GradeProxy.Generated model_answer.

Definition configured : GradeProxy.Env :=
  {| GradeProxy.GEMINI_API_KEY := Some "key"; GradeProxy.GEMINI_MODEL := None |}.

Definition unconfigured : GradeProxy.Env :=
  {| GradeProxy.GEMINI_API_KEY := None; GradeProxy.GEMINI_MODEL := None |}.

(** A submission document as the hooks read it: quiz id, attempt number,
    time and answers. *)
Definition attempt (q : option string) (n : val) (t : option string)
    (a : option Answers) : Submission :=
  {| quizId := q;
     quizTitle := None;
     classId := "class-1";
     className := "Algebra";
     studentId := "student-1";
     studentEmail := "student@example.org";
     studentName := "Student";
     answers := a;
     evaluations := None;
     gradeStatus := None;
     attemptNumber := n;
     maxAttemptsAtSubmission := lit 3;
     attemptedAt := t |}.

Definition first_try : Submission :=
  attempt (Some "quiz-1") (lit 1) (Some "2024-03-01T10:00:00.000Z")
    (Some {[ "q1" := "x = 4" ]}).

(** Two documents of the same quiz with the same attempt number; the one
    written later carries the earlier time. *)
Definition second_try_a : Submission :=
  attempt (Some "quiz-1") (lit 2) (Some "2024-03-02T10:00:00.000Z")
    (Some {[ "q1" := "x = 5" ]}).

Definition second_try_b : Submission :=
  attempt (Some "quiz-1") (lit 2) (Some "2024-03-02T09:00:00.000Z")
    (Some {[ "q1" := "x = 10" ]}).

(** Documents written before attempts were numbered. *)
Definition legacy_a : Submission :=
  attempt (Some "quiz-2") Undefined (Some "2023-09-01T10:00:00.000Z")
    (Some {[ "q1" := "7" ]}).

Definition legacy_b : Submission :=
  attempt (Some "quiz-2") (lit 0) None (Some {[ "q1" := "8" ]}).

(** The host's reading of the time stamps used in these documents, in
    milliseconds since the epoch. *)
Definition clock (text : string) : num :=
  if String.eqb text "2023-09-01T10:00:00.000Z" then of_Z 1693562400000
  else if String.eqb text "2024-03-01T10:00:00.000Z" then of_Z 1709287200000
  else if String.eqb text "2024-03-02T09:00:00.000Z" then of_Z 1709370000000
  else if String.eqb text "2024-03-02T10:00:00.000Z" then of_Z 1709373600000
  else NaN.

(** A third attempt whose clock ran behind: its time is before the first
    attempt's. *)
Definition third_try_early : Submission :=
  attempt (Some "quiz-1") (lit 3) (Some "2023-09-01T10:00:00.000Z")
    (Some {[ "q1" := "x = 5" ]}).

(** A document without a quiz id. *)
Definition orphan : Submission :=
  attempt None (lit 1) None (Some {[ "q1" := "?" ]}).

(** A snapshot of the student's documents, in the order of delivery. *)
Definition sample_docs : list Submission :=
  [first_try; third_try_early; orphan; second_try_b; second_try_a].

End Samples.

(** ** The student view and the store together *)

Module StudentFlow.
Import Ledger StudentView.

(** The summary of the view counts what [useStudentSubmissions] counts over
    the student's documents in the store, as it does once the snapshot of the
    store has been delivered. *)
Definition in_sync (w : World) : Prop :=
  ∀ q, count <$> (submissionSummary (ui w) !! q)
       = count <$> (useStudentSubmissions (store w) !! q).

(** The answers object after a run of changes, from the contents before. *)
Definition applyChanges (changes : list (string * string)) (start : Answers)
  : Answers :=
  foldl (λ a change, <[change.1 := change.2]> a) start changes.

(** The contents of the answers object of the view. *)
Definition current (w : World) : Answers :=
  deref (heap w) (studentAnswers (ui w)).

End StudentFlow.

(** ** The grading proxy and its upstream *)

Module ProxyFlow.
Import GradeProxy.

(** A candidate that the upstream reports as not found on this prompt. *)
Definition not_found (generateContent : string → string → ModelOutcome)
    (prompt modelName : string) : Prop :=
  ∃ e, generateContent modelName prompt = Rejected e ∧ isNotFound e = true.

End ProxyFlow.

(** ** Teacher access: [services/firebaseService] and the dashboard *)

Module TeacherAccess.
Import StudentView.

(** [c.toLowerCase()] on a code unit below 256: the letters A to Z, and the
    letters from 192 to 222 other than the multiplication sign at 215. *)
Definition toLowerCase (c : ascii) : ascii :=
  let n := nat_of_ascii c in
  if ((65 <=? n) && (n <=? 90)
      || (192 <=? n) && (n <=? 222) && negb (n =? 215))%nat
  then ascii_of_nat (n + 32) else c.

(** A text that does not begin with white space. *)
Definition starts_black (s : list ascii) : Prop :=
  match s with
  | c :: _ => is_space c = false
  | [] => True
  end.

(** [normalizeEmail(email)]: [String(email || '').trim().toLowerCase()]. *)
Definition normalizeEmail (email : option string) : string :=
  string_of_list_ascii
    (toLowerCase <$> trim (list_ascii_of_string (str_or_empty email))).

(** [s.split(sep)] for a separator of one character. *)
Fixpoint split (sep : ascii) (s : list ascii) : list (list ascii) :=
  match s with
  | [] => [[]]
  | c :: s' =>
      if Ascii.eqb c sep then [] :: split sep s'
      else match split sep s' with
           | piece :: pieces => (c :: piece) :: pieces
           | [] => [[c]]
           end
  end.

(** [Array.from(new Set(xs))]: the first occurrence of each value, in the
    order of insertion. *)
Definition dedupe (xs : list string) : list string :=
  foldl (λ seen x, if bool_decide (x ∈ seen) then seen else seen ++ [x]) [] xs.

(** The build-time variables the module reads. *)
Record Config : Type := {
  VITE_TEACHER_EMAIL : option string;
  VITE_TEACHER_EMAILS : option string;
}.

Definition PRIMARY_TEACHER_EMAIL (cfg : Config) : string :=
  normalizeEmail (Some (str_or_empty (VITE_TEACHER_EMAIL cfg))).

Definition parsedTeacherEmails (cfg : Config) : list string :=
  let rawTeacherList := str_or_empty (VITE_TEACHER_EMAILS cfg) in
  let splitEmails :=
    filter (λ e, e ≠ EmptyString)
      ((λ value, normalizeEmail (Some (string_of_list_ascii value)))
         <$> split "," (list_ascii_of_string rawTeacherList)) in
  let splitEmails :=
    if String.eqb (PRIMARY_TEACHER_EMAIL cfg) EmptyString then splitEmails
    else splitEmails ++ [PRIMARY_TEACHER_EMAIL cfg] in
  dedupe splitEmails.

(** [configuredTeacherEmailSet.has(e)]. *)
Definition configured_has (cfg : Config) (e : string) : bool :=
  bool_decide (e ∈ parsedTeacherEmails cfg).

(** The state of [useTeacherRole]: the last answer about the allowlist and
    the email it was given for. *)
Record AllowlistStatus : Type := {
  status_email : string;
  status_isTeacher : bool;
}.

Definition initialStatus : AllowlistStatus :=
  {| status_email := EmptyString; status_isTeacher := false |}.

Record Role : Type := {
  isTeacher : bool;
  isPrimaryTeacher : bool;
  loading : bool;
}.

(** [user?.uid || ''] *)
Definition userId_of (user : option User) : string :=
  match user with
  | Some u => uid u
  | None => EmptyString
  end.

Definition useTeacherRole (cfg : Config) (user : option User)
    (allowlistStatus : AllowlistStatus) : Role :=
  let userId := userId_of user in
  let normalizedEmail := normalizeEmail (user ≫= email) in
  let isPrimaryTeacher :=
    negb (String.eqb normalizedEmail EmptyString)
    && String.eqb normalizedEmail (PRIMARY_TEACHER_EMAIL cfg) in
  let isConfiguredTeacher := configured_has cfg normalizedEmail in
  let isAllowlistedTeacher :=
    String.eqb (status_email allowlistStatus) normalizedEmail
    && status_isTeacher allowlistStatus in
  {| isTeacher := isConfiguredTeacher || isAllowlistedTeacher;
     isPrimaryTeacher := isPrimaryTeacher;
     loading :=
       negb (String.eqb userId EmptyString)
       && negb (String.eqb normalizedEmail EmptyString)
       && negb isConfiguredTeacher
       && negb (String.eqb (status_email allowlistStatus) normalizedEmail) |}.

(** The documents of the [teacherEmails] collection, by document id. *)
Record TeacherDoc : Type := {
  doc_email : string;
  addedAt : string;
  addedBy : string;
}.

Abbreviation TeacherEmails := (gmap string TeacherDoc).

(** Whether the effect of [useTeacherRole] listens to the allowlist document
    of this user; [db] tells whether the database is there. *)
Definition subscribes (cfg : Config) (db : bool) (user : option User) : bool :=
  negb (String.eqb (userId_of user) EmptyString)
  && negb (String.eqb (normalizeEmail (user ≫= email)) EmptyString)
  && negb (configured_has cfg (normalizeEmail (user ≫= email)))
  && db.

(** What the listener is told: a snapshot of the document, or an error. *)
Inductive Delivery : Type :=
| Snapshot (exists_ : bool)
| ListenError.

(** The state after the listener of this user was told [d]; without a
    listener nothing is told. *)
Definition deliver (cfg : Config) (db : bool) (user : option User)
    (d : Delivery) (allowlistStatus : AllowlistStatus) : AllowlistStatus :=
  if subscribes cfg db user then
    {| status_email := normalizeEmail (user ≫= email);
       status_isTeacher :=
         match d with
         | Snapshot exists_ => exists_
         | ListenError => false
         end |}
  else allowlistStatus.

(** The snapshot of the allowlist document of this user in the collection. *)
Definition snapshotOf (teacherEmails : TeacherEmails) (user : option User)
  : Delivery :=
  Snapshot (bool_decide (is_Some (teacherEmails !! normalizeEmail (user ≫= email)))).

(** The state after a run of sign-ins and deliveries, from the first render. *)
Definition statusAfter (cfg : Config) (db : bool)
    (history : list (option User * Delivery)) : AllowlistStatus :=
  foldl (λ s step, deliver cfg db step.1 step.2 s) initialStatus history.

(** [addTeacherEmail] of the dashboard, on the text of the input field: the
    collection, the input field and the alerts afterwards. *)
Definition addTeacherEmail (user : User) (storeAccepts : bool) (now : string)
    (newTeacherEmail : string) (teacherEmails : TeacherEmails)
  : TeacherEmails * string * list string :=
  let normalized := normalizeEmail (Some newTeacherEmail) in
  if String.eqb normalized EmptyString
     || negb (GradeProxy.includes (list_ascii_of_string "@")
                (list_ascii_of_string normalized))
  then (teacherEmails, newTeacherEmail, ["Enter a valid teacher email address."])
  else if storeAccepts
  then (<[normalized := {| doc_email := normalized; addedAt := now;
                           addedBy := uid user |}]> teacherEmails,
        EmptyString, [])
  else (teacherEmails, newTeacherEmail, ["Failed to add teacher email."]).

(** [removeTeacherEmail(email)]: the collection and the alerts afterwards. *)
Definition removeTeacherEmail (confirmed storeAccepts : bool)
    (email : option string) (teacherEmails : TeacherEmails)
  : TeacherEmails * list string :=
  let normalized := normalizeEmail email in
  if negb confirmed then (teacherEmails, [])
  else if storeAccepts then (delete normalized teacherEmails, [])
  else (teacherEmails, ["Failed to remove teacher email."]).

End TeacherAccess.

(** ** The dashboard: attempts, the feed and the saved quiz *)

Module Dashboard.
Import Ledger History StudentView.

(** A document of the [submissions] collection under its id. *)
Abbreviation Row := (string * Submission)%type.






(** [map.set(key, value)] on a [Map], whose keys keep the order in which they
    were first set. *)
Fixpoint map_set {V} (key : string) (value : V) (m : list (string * V))
  : list (string * V) :=
  match m with
  | [] => [(key, value)]
  | (k, v) :: rest =>
      if String.eqb k key then (key, value) :: rest
      else (k, v) :: map_set key value rest
  end.

Section Feed.
Variable Date_parse : string → num.

(** The comparator of [emitMergedSubmissions]. *)
Definition byTime (a b : Row) : num :=
  let aTime := getTime Date_parse a.2 in
  let bTime := getTime Date_parse b.2 in
  sub bTime aTime.

Definition emitMergedSubmissions (submissionsByQuiz : list (string * list Row))
  : list Row :=
  sort byTime (concat (submissionsByQuiz.*2)).

(** The snapshot callback of the listener of one quiz: the map and the feed
    afterwards. *)
Definition onSubmissions (quizId : string) (rows : list Row)
    (submissionsByQuiz : list (string * list Row))
  : list (string * list Row) * list Row :=
  let next := map_set quizId rows submissionsByQuiz in
  (next, emitMergedSubmissions next).

(** A row whose time is a number. *)
Definition timed (a : Row) : Prop := isFinite (getTime Date_parse a.2) = true.

(** [a] is not older than [b]. *)
Definition newer (a b : Row) : Prop :=
  ge (getTime Date_parse a.2) (getTime Date_parse b.2) = true.
End Feed.

(** The quiz object of the editor: the fields of [Quiz] and those that only
    the dashboard reads. *)
Record Draft : Type := {
  draft_quiz : Quiz;
  description : option string;
  isLocked : bool;
  allowReview : val;
  teacherId : option string;
}.

(** The object [buildQuizPayload] returns. *)
Record Payload : Type := {
  p_title : string;
  p_description : string;
  p_isLocked : bool;
  p_maxAttempts : num;
  p_prefillFromLastAttempt : bool;
  p_questions : list Question;
  p_allowShuffle : bool;
  p_allowReview : bool;
  p_teacherId : string;
  p_teacherName : string;
  p_updatedAt : string;
}.

(** [a || b] on optional strings. *)
Definition or_str (a : option string) (b : string) : string :=
  if str_truthy a then str_or_empty a else b.

(** The id given to a question without one; [now] is what [Date.now()]
    returned. *)
Definition generatedId (now : Z) (index : nat) : string :=
  "q-" +:+ pretty now +:+ "-" +:+ pretty index.

(** [buildQuizPayload(quiz, user)]; [clock i] is what [Date.now()] returns
    while the question at index [i] is mapped, [now] the time of
    [new Date().toISOString()]. *)
Definition buildQuizPayload (clock : nat → Z) (now : string) (quiz : Draft)
    (user : User) : Payload :=
  let normalizedQuestions :=
    match questions (draft_quiz quiz) with
    | Some qs =>
        imap (λ index question,
                {| q_id := Some (or_str (q_id question)
                                   (generatedId (clock index) index));
                   q_text := Some (str_or_empty (q_text question));
                   showFeedback := showFeedback question |})
          qs
    | None => []
    end in
  {| p_title := or_str (quiz_title (draft_quiz quiz)) "Untitled Quiz";
     p_description := str_or_empty (description quiz);
     p_isLocked := isLocked quiz;
     p_maxAttempts :=
       TeacherDashboard.buildQuizPayload_maxAttempts (draft_quiz quiz);
     p_prefillFromLastAttempt := prefillFromLastAttempt (draft_quiz quiz);
     p_questions := normalizedQuestions;
     p_allowShuffle := allowShuffle (draft_quiz quiz);
     p_allowReview :=
       match allowReview quiz with
       | Bool false => false
       | _ => true
       end;
     p_teacherId := uid user;
     p_teacherName := or_str (displayName user) (str_or_empty (email user));
     p_updatedAt := now |}.

(** The stored quiz as the hooks hand it on: [{ id, ...data }]. *)
Definition stored (id : string) (p : Payload) : Draft :=
  {| draft_quiz :=
       {| quiz_id := id;
          quiz_title := Some (p_title p);
          quiz_classId := None;
          quiz_className := None;
          maxAttempts := Num (p_maxAttempts p);
          prefillFromLastAttempt := p_prefillFromLastAttempt p;
          allowShuffle := p_allowShuffle p;
          questions := Some (p_questions p) |};
     description := Some (p_description p);
     isLocked := p_isLocked p;
     allowReview := Bool (p_allowReview p);
     teacherId := Some (p_teacherId p) |}.

End Dashboard.

(** ** The student view: classes, the quiz list and the review *)

Module StudentPages.
Import History StudentView Dashboard.

(** A class as the hooks hand it on. *)
Record ClassRow : Type := {
  class_id : string;
  class_name : option string;
  isArchived : bool;
}.

(** The map holds every row under its own id, and no id twice. *)
Definition keyed (byId : list (string * ClassRow)) : Prop :=
  NoDup byId.*1 ∧ ∀ k v, (k, v) ∈ byId → class_id v = k.

Section Pages.
(** [a.localeCompare(b)] of the host. *)
Variable localeCompare : string → string → num.

Definition byName (a b : ClassRow) : num :=
  localeCompare (str_or_empty (class_name a)) (str_or_empty (class_name b)).

(** [rows.forEach((row) => byId.set(row.id, row))]. *)
Definition setAll (rows : list ClassRow) (byId : list (string * ClassRow))
  : list (string * ClassRow) :=
  foldl (λ byId row, map_set (class_id row) row byId) byId rows.

Definition mergedClasses (isTeacherPreview : bool)
    (enrolledClasses teacherOwnedClasses : list ClassRow) : list ClassRow :=
  let byId := setAll enrolledClasses [] in
  let byId := if isTeacherPreview then setAll teacherOwnedClasses byId
              else byId in
  sort byName (filter (λ row, isArchived row = false) byId.*2).

(** The effect that keeps the selection valid: the selected class id and the
    view after it ran. *)
Definition selectClass (mergedClasses : list ClassRow)
    (selectedClassId view : string) : string * string :=
  match mergedClasses with
  | [] => (EmptyString, "list")
  | first :: _ =>
      if String.eqb selectedClassId EmptyString
         || negb (existsb (λ row, String.eqb (class_id row) selectedClassId)
                    mergedClasses)
      then (class_id first, view)
      else (selectedClassId, view)
  end.

Definition byTitle (a b : Draft) : num :=
  localeCompare (str_or_empty (quiz_title (draft_quiz a)))
    (str_or_empty (quiz_title (draft_quiz b))).

(** The quizzes the list shows. *)
Definition quizzes (selectedClassId : string) (allClassQuizzes : list Draft)
  : list Draft :=
  let scoped :=
    if String.eqb selectedClassId EmptyString then []
    else filter (λ quiz, quiz_classId (draft_quiz quiz) = Some selectedClassId)
           allClassQuizzes in
  sort byTitle (filter (λ quiz, isLocked quiz = false) scoped).
End Pages.



End StudentPages.

(** ** The editors: the toolbar's [handleInsert] *)

Module Editor.
Import GradeProxy.

(** [handleInsert(startTag, endTag)] of the answer editor and of the question
    editor, on the [value], [selectionStart] and [selectionEnd] of the
    textarea: the new text and the range handed to [setSelectionRange]. *)
Definition handleInsert (startTag endTag : list ascii) (start end_ : nat)
    (text : list ascii) : list ascii * (nat * nat) :=
  let before := substring_between 0 start text in
  let selection := substring_between start end_ text in
  let after := drop end_ text in
  let shown :=
    match selection with
    | [] => list_ascii_of_string "text"
    | _ => selection
    end in
  (before ++ startTag ++ shown ++ endTag ++ after,
   ((start + length startTag)%nat,
    (end_ + length startTag
     + match selection with [] => 4 | _ => 0 end)%nat)).

End Editor.

(** ** The dashboard: saving a quiz *)

Module QuizEditor.
Import StudentView Dashboard.

(** A document of the [quizzes] collection: the payload, and the time of
    creation when the document was written with one. *)
Record StoredQuiz : Type := {
  saved_data : Payload;
  createdAt : option string;
}.

(** What [setDoc] comes to: the write, or an error with its [code] and
    [message]. *)
Inductive WriteOutcome : Type :=
| Written
| Refused (code message : option string).

Record Editor : Type := {
  ed_view : string;
  ed_activeQuiz : option Draft;
  isSaving : bool;
  quizStore : gmap string StoredQuiz;
  ed_alerts : list string;
}.

Definition saved_alert : string := "Quiz saved successfully!".

Definition denied_alert : string :=
  "Failed to save quiz: Firestore rules denied write access. Ensure your signed-in teacher account is allowed to write to the quizzes collection.".

Definition not_owner : string := "You can only edit quizzes you own.".

(** The [catch] and [finally] blocks of [saveQuiz] on an error with this
    [code] and [message]. *)
Definition caught (code message : option string) (e : Editor) : Editor :=
  let permissionDenied :=
    bool_decide (code = Some "permission-denied")
    || GradeProxy.includes
         (list_ascii_of_string "missing or insufficient permissions")
         (TeacherAccess.toLowerCase
            <$> list_ascii_of_string (str_or_empty message)) in
  {| ed_view := ed_view e;
     ed_activeQuiz := ed_activeQuiz e;
     isSaving := false;
     quizStore := quizStore e;
     ed_alerts :=
       ed_alerts e
       ++ [if permissionDenied then denied_alert
           else "Failed to save quiz: " +:+ or_str message "Unknown error"] |}.

(** [saveQuiz()]; [db] tells whether the database is there, [newId] is the
    id of the document reference the store creates for a new quiz, [now] and
    [created] are the times read for [updatedAt] and [createdAt]. *)
Definition saveQuiz (db : bool) (clock : nat → Z) (now created : string)
    (newId : string) (outcome : WriteOutcome) (user : User) (e : Editor)
  : Editor :=
  match ed_activeQuiz e with
  | None => e
  | Some activeQuiz =>
      if negb db then e else
      let quizData := buildQuizPayload clock now activeQuiz user in
      if String.eqb (ed_view e) "edit"
         && str_truthy (teacherId activeQuiz)
         && negb (String.eqb (str_or_empty (teacherId activeQuiz)) (uid user))
      then caught None (Some not_owner) e
      else
        match outcome with
        | Refused code message => caught code message e
        | Written =>
            {| ed_view := "list";
               ed_activeQuiz := None;
               isSaving := false;
               quizStore :=
                 if String.eqb (ed_view e) "new"
                 then <[newId := {| saved_data := quizData;
                                    createdAt := Some created |}]>
                        (quizStore e)
                 else <[quiz_id (draft_quiz activeQuiz) :=
                          {| saved_data := quizData; createdAt := None |}]>
                        (quizStore e);
               ed_alerts := ed_alerts e ++ [saved_alert] |}
        end
  end.

End QuizEditor.

(** ** Further sample data *)

Module Scenarios.
Import GradeProxy.

(** An upstream that does not know the lite model and answers on the other. *)
Definition lite_is_gone (modelName prompt : string) : ModelOutcome :=
  if String.eqb modelName "gemini-2.0-flash-lite"
  then Rejected {| err_status := Some 404; err_message := None |}
  else Generated Samples.model_answer.

(** What [Samples.model_answer] holds between its outer braces. *)
Definition answer_inside : list ascii :=
  removelast (tail (list_ascii_of_string Samples.model_answer)).



End Scenarios.

(** * Properties *)


(** ** Numbers *)

Section NumberFacts.

Lemma ge_Fin (x y : Q) : ge (Fin x) (Fin y) = true ↔ (y <= x)%Q.
Proof. apply Qle_bool_iff. Qed.

Lemma gt_Fin (x y : Q) : gt (Fin x) (Fin y) = true ↔ (y < x)%Q.
Proof.
  simpl. rewrite negb_true_iff, <- not_true_iff_false, Qle_bool_iff.
  split; [apply Qnot_le_lt | apply Qlt_not_le].
Qed.

Lemma gt_Fin_false (x y : Q) : gt (Fin x) (Fin y) = false ↔ (x <= y)%Q.
Proof. simpl. rewrite negb_false_iff. apply Qle_bool_iff. Qed.

Lemma ge_Fin_false (x y : Q) : ge (Fin x) (Fin y) = false ↔ (x < y)%Q.
Proof.
  simpl. rewrite <- not_true_iff_false, Qle_bool_iff.
  split; [apply Qnot_le_lt | apply Qlt_not_le].
Qed.

Lemma is_zero_spec (q : Q) : is_zero q = true ↔ (q == 0)%Q.
Proof.
  unfold is_zero, Qeq. simpl. rewrite Z.eqb_eq, Z.mul_1_r. reflexivity.
Qed.

Lemma sub_of_Z (a b : Z) : same (sub (of_Z a) (of_Z b)) (of_Z (a - b)).
Proof.
  unfold of_Z. cbn [sub same]. unfold Z.sub.
  rewrite inject_Z_plus, inject_Z_opp. reflexivity.
Qed.

Lemma add_of_Z (a b : Z) : same (add (of_Z a) (of_Z b)) (of_Z (a + b)).
Proof. unfold of_Z. cbn [add same]. rewrite inject_Z_plus. reflexivity. Qed.

(** [Math.floor] of a positive number is a natural number, and it is at
    least one exactly from one on. *)
Lemma floor_positive (q : Q) :
  (0 < q)%Q → 0 <= Qfloor q ∧ (1 <= Qfloor q ↔ (1 <= q)%Q).
Proof.
  intros Hq. split.
  - change 0 with (Qfloor 0). apply Qfloor_resp_le. by apply Qlt_le_weak.
  - split; intros H.
    + apply Qle_trans with (inject_Z (Qfloor q)); [| apply Qfloor_le].
      change 1%Q with (inject_Z 1). by rewrite <- Zle_Qle.
    + change 1 with (Qfloor 1). by apply Qfloor_resp_le.
Qed.

End NumberFacts.

(** ** Attempt policy: [getMaxAttempts] and [getAttemptInfo] *)

Section AttemptPolicy.
Import StudentView.

(** The coercion, case by case: the floor of a positive finite number, one
    for everything else. *)
Lemma getMaxAttempts_cases (quiz : option Quiz) :
  (∃ q, raw_of quiz = Fin q ∧ (0 < q)%Q
        ∧ getMaxAttempts quiz = of_Z (Qfloor q))
  ∨ ((∀ q, raw_of quiz = Fin q → (q <= 0)%Q) ∧ getMaxAttempts quiz = Fin 1).
Proof.
  unfold getMaxAttempts. fold (raw_of quiz).
  destruct (raw_of quiz) as [| | |q] eqn:Hraw; simpl;
    try (right; split; [intros ? [=] | reflexivity]).
  destruct (Qle_bool q 0) eqn:Hq; simpl.
  - right. split; [| reflexivity].
    intros q' [= <-]. by apply Qle_bool_iff.
  - left. exists q. split_and!; [done | | done].
    apply Qnot_le_lt. rewrite <- Qle_bool_iff. congruence.
Qed.

(** The coercion always yields a natural number. *)
Lemma getMaxAttempts_natural (quiz : option Quiz) :
  ∃ n : Z, 0 <= n ∧ getMaxAttempts quiz = of_Z n.
Proof.
  destruct (getMaxAttempts_cases quiz) as [(q & _ & Hq & ->) | [_ ->]].
  - exists (Qfloor q). split; [| done]. by apply floor_positive.
  - by exists 1.
Qed.

(** From one on, the coercion yields a positive integer, the floor. *)
Lemma getMaxAttempts_from_one (quiz : option Quiz) (q : Q) :
  raw_of quiz = Fin q → (1 <= q)%Q →
  getMaxAttempts quiz = of_Z (Qfloor q) ∧ 1 <= Qfloor q.
Proof.
  intros Hraw Hq.
  assert (0 < q)%Q as Hpos by (eapply Qlt_le_trans; [| exact Hq]; done).
  split; [| by apply floor_positive].
  destruct (getMaxAttempts_cases quiz) as [(q' & Hraw' & _ & ->) | [Hle _]].
  - congruence.
  - specialize (Hle q Hraw). by apply Qle_not_lt in Hle.
Qed.

(** The coercion yields zero exactly for the numbers strictly between zero
    and one. *)
Lemma getMaxAttempts_zero_iff (quiz : option Quiz) :
  same (getMaxAttempts quiz) (Fin 0)
  ↔ ∃ q, raw_of quiz = Fin q ∧ (0 < q)%Q ∧ (q < 1)%Q.
Proof.
  destruct (getMaxAttempts_cases quiz) as [(q & Hraw & Hq & ->) | [Hle ->]].
  - destruct (floor_positive q Hq) as [Hfloor Hone].
    unfold of_Z. cbn [same]. change 0%Q with (inject_Z 0).
    rewrite inject_Z_injective. split.
    + intros Hzero. exists q. split_and!; [done | done |].
      apply Qnot_le_lt. intros H. apply Hone in H. lia.
    + intros (q' & Hraw' & _ & Hlt). assert (q' = q) as -> by congruence.
      destruct (decide (Qfloor q = 0)) as [|Hne]; [done |].
      assert (1 <= Qfloor q) as H by lia.
      apply Hone in H. by apply Qle_not_lt in H.
  - split; [done |]. intros (q & Hraw & Hq & _).
    specialize (Hle q Hraw). by apply Qle_not_lt in Hle.
Qed.

(** Both copies of the coercion agree. *)
Lemma buildQuizPayload_maxAttempts_eq (quiz : Quiz) :
  TeacherDashboard.buildQuizPayload_maxAttempts quiz
  = getMaxAttempts (Some quiz).
Proof. reflexivity. Qed.


End AttemptPolicy.

Section AttemptPolicyExamples.
Import StudentView Samples.

(** The inputs [0], [-3], ["abc"], [null] and [undefined] (and a quiz that is
    not there) all come to one attempt; [3.7] comes to three. *)
Lemma getMaxAttempts_listed_inputs :
  getMaxAttempts (Some (quiz_with (lit 0))) = Fin 1
  ∧ getMaxAttempts (Some (quiz_with (lit (-3)))) = Fin 1
  ∧ getMaxAttempts (Some (quiz_with (Str "abc"))) = Fin 1
  ∧ getMaxAttempts (Some (quiz_with Null)) = Fin 1
  ∧ getMaxAttempts (Some (quiz_with Undefined)) = Fin 1
  ∧ getMaxAttempts None = Fin 1
  ∧ getMaxAttempts (Some (quiz_with (lit (37 # 10)))) = of_Z 3.
Proof. split_and!; vm_compute; reflexivity. Qed.

(** C4: at [maxAttempts: 0.5] the coercion yields zero, which is not a
    positive integer: a number strictly between zero and one passes the
    [raw > 0] test and is floored to zero.  The quiz then has no attempt to
    start with.  The copies of the coercion in [buildQuizPayload] and in the
    editor (for the text [0.5] typed into the input) yield zero as well. *)
Theorem getMaxAttempts_half_is_zero :
  getMaxAttempts (Some (quiz_with (lit (1 # 2)))) = of_Z 0
  ∧ remainingAttempts
      (getAttemptInfo (∅ : gmap string (Summary Answers))
         (quiz_with (lit (1 # 2)))) = Fin 0
  ∧ TeacherDashboard.buildQuizPayload_maxAttempts (quiz_with (lit (1 # 2)))
    = of_Z 0
  ∧ TeacherDashboard.onMaxAttemptsChange "0.5" = of_Z 0.
Proof. split_and!; vm_compute; reflexivity. Qed.

(** A quiz with [maxAttempts: 2] and one submission so far: one attempt
    remains. *)
Lemma getAttemptInfo_example :
  let info :=
    getAttemptInfo (submissionSummary (ui after_first_attempt))
      (quiz_with (lit 2)) in
  info_maxAttempts info = of_Z 2 ∧ usedAttempts info = of_Z 1
  ∧ same (remainingAttempts info) (of_Z 1).
Proof. by vm_compute. Qed.

End AttemptPolicyExamples.

(** ** The attempt ledger *)

Section LedgerFacts.
Import Ledger.

Lemma str_truthy_Some (s : string) :
  str_truthy (Some s) = true ↔ s ≠ EmptyString.
Proof.
  simpl. rewrite negb_true_iff. split.
  - intros H ->. by rewrite String.eqb_refl in H.
  - intros H. by apply String.eqb_neq.
Qed.

(** One step of the fold, seen from the quiz [q]. *)
Lemma step_lookup (q : string) (S : gmap string (Summary Answers))
    (data : Submission) :
  q ≠ EmptyString → step S data !! q = step_of q (S !! q) data.
Proof.
  intros Hq. unfold step, step_of.
  destruct (decide (of_quiz q data)) as [Hd|Hd]; unfold of_quiz in Hd.
  - rewrite Hd, (proj2 (str_truthy_Some q) Hq). simpl.
    by rewrite lookup_insert_eq.
  - destruct (str_truthy (quizId data)) eqn:Ht; simpl; [| done].
    rewrite lookup_insert_ne; [done |].
    destruct (quizId data); simpl in *; congruence.
Qed.


Lemma summary_lookup_from (q : string) (docs : list Submission)
    (S : gmap string (Summary Answers)) :
  q ≠ EmptyString → foldl step S docs !! q = foldl (step_of q) (S !! q) docs.
Proof.
  intros Hq. revert S.
  induction docs as [|data docs IH]; intros S; simpl; [done |].
  by rewrite IH, step_lookup.
Qed.

Lemma summary_lookup (q : string) (docs : list Submission) :
  q ≠ EmptyString →
  useStudentSubmissions docs !! q = foldl (step_of q) None docs.
Proof.
  intros Hq. unfold useStudentSubmissions.
  by rewrite summary_lookup_from, lookup_empty.
Qed.


Lemma occurrences_cons (q : string) (data : Submission)
    (docs : list Submission) :
  occurrences q (data :: docs)
  = ((if decide (of_quiz q data) then 1 else 0) + occurrences q docs)%nat.
Proof.
  unfold occurrences. rewrite filter_cons. by destruct (decide _).
Qed.

Lemma occurrences_app (q : string) (l1 l2 : list Submission) :
  occurrences q (l1 ++ l2) = (occurrences q l1 + occurrences q l2)%nat.
Proof. unfold occurrences. by rewrite filter_app, length_app. Qed.

Lemma count_record (entry : Summary Answers) (data : Submission) :
  count (record entry data) = S (count entry).
Proof. unfold record. by destruct (ge _ _). Qed.

(** The entry of a quiz counts its documents, and exists as soon as there
    is one. *)
Lemma fold_count (q : string) (docs : list Submission)
    (entry : option (Summary Answers)) :
  from_option count 0%nat (foldl (step_of q) entry docs)
  = (from_option count 0%nat entry + occurrences q docs)%nat
  ∧ (foldl (step_of q) entry docs = None
     ↔ entry = None ∧ occurrences q docs = 0%nat).
Proof.
  revert entry. induction docs as [|data docs IH]; intros entry; simpl.
  - unfold occurrences. simpl. split; [lia | tauto].
  - rewrite occurrences_cons. unfold step_of at 2 4.
    destruct (IH (if decide (of_quiz q data)
                  then Some (record (default fresh_entry entry) data)
                  else entry)) as [IH1 IH2].
    destruct (decide (of_quiz q data)) as [Hd|Hd].
    + rewrite IH1, IH2. simpl. rewrite count_record.
      split; [destruct entry; simpl; lia |].
      split; [intros [[=] _] | intros [_ [=]]].
    + rewrite IH1, IH2. split; [lia | tauto].
Qed.

End LedgerFacts.

Section LedgerCounts.
Import Ledger.




End LedgerCounts.

Section LedgerLatest.
Import Ledger.






End LedgerLatest.

Section LedgerTieBreak.
Import Ledger.





End LedgerTieBreak.

Section LedgerTieBreakWitness.
Import Ledger Samples.


End LedgerTieBreakWitness.

Section LedgerLegacy.
Import Ledger.





End LedgerLegacy.

Section LedgerLegacyWitness.
Import Ledger Samples.


(** The two legacy documents are both counted, and the later one supplies the
    snapshot. *)
Lemma legacy_summary_example :
  useStudentSubmissions [legacy_a; orphan; legacy_b] !! "quiz-2"
  = Some {| count := 2; latestAttemptNumber := Fin 0;
            latestAnswers := {[ "q1" := "8" ]}; latestEvaluations := ∅ |}.
Proof. vm_compute. reflexivity. Qed.

End LedgerLegacyWitness.

(** ** Attempt history *)

Section SortFacts.
Import History.
Context {A : Type}.
Variable comparefn : A → A → num.
(** The documents the comparator is consistent on, and the order it then
    decides. *)
Variable ok : A → Prop.
Variable R : A → A → Prop.
Hypothesis keep : ∀ x y, ok x → ok y → gt (comparefn x y) (Fin 0) = false → R x y.
Hypothesis swap : ∀ x y, ok x → ok y → gt (comparefn x y) (Fin 0) = true → R y x.
Hypothesis trans : ∀ x y z, ok x → ok y → ok z → R x y → R y z → R x z.

Lemma insert_perm (x : A) (sorted : list A) :
  insert comparefn x sorted ≡ₚ x :: sorted.
Proof.
  induction sorted as [|y rest IH]; simpl; [done |].
  destruct (gt _ _); [| done].
  rewrite IH. apply Permutation_swap.
Qed.

Lemma sort_perm (items : list A) : sort comparefn items ≡ₚ items.
Proof.
  induction items as [|x items IH]; simpl; [done |].
  by rewrite insert_perm, IH.
Qed.

Lemma insert_sorted (x : A) (sorted : list A) :
  ok x → Forall ok sorted → StronglySorted R sorted →
  StronglySorted R (insert comparefn x sorted).
Proof.
  intros Hx Hok Hsorted.
  induction sorted as [|y rest IH]; simpl.
  - repeat constructor.
  - apply Forall_cons in Hok as [Hy Hrest].
    apply StronglySorted_inv in Hsorted as [Hsorted Hall].
    destruct (gt (comparefn x y) (Fin 0)) eqn:Hcmp.
    + constructor; [by apply IH |].
      rewrite insert_perm. constructor; [by apply swap | done].
    + constructor; [by constructor |].
      assert (R x y) as Hxy by by apply keep.
      constructor; [done |].
      rewrite Forall_forall in Hall, Hrest |- *.
      intros z Hz. apply (trans x y z); auto.
Qed.

Lemma sort_sorted (items : list A) :
  Forall ok items → StronglySorted R (sort comparefn items).
Proof.
  induction items as [|x items IH]; intros Hok; simpl; [constructor |].
  apply Forall_cons in Hok as [Hx Hok].
  apply insert_sorted; [done | | by apply IH].
  by rewrite sort_perm.
Qed.

End SortFacts.

Section AttemptOrder.
Import History.
Variable Date_parse : string → num.








End AttemptOrder.

Section Grouping.
Import History.






End Grouping.

Section HistoryOrder.
Import History.
Variable Date_parse : string → num.




End HistoryOrder.

Section HistoryOrderWitness.
Import History Samples.


(** The third attempt stands first although its time is the earliest; the two
    second attempts follow, the later time first. *)
Lemma attemptsByQuiz_example :
  attemptsByQuiz clock (useStudentAttempts clock sample_docs) !! "quiz-1"
  = Some [third_try_early; second_try_a; second_try_b; first_try].
Proof. vm_compute. reflexivity. Qed.

(** Attempt two stands before attempt one despite its earlier time. *)
Lemma attemptsByQuiz_clock_skew :
  let one := attempt (Some "quiz-1") (lit 1) (Some "2024-03-01T10:00:00.000Z") None in
  let two := attempt (Some "quiz-1") (lit 2) (Some "2023-09-01T10:00:00.000Z") None in
  attemptsByQuiz clock [one; two] !! "quiz-1" = Some [two; one].
Proof. vm_compute. reflexivity. Qed.

End HistoryOrderWitness.
(** ** Retake prefill: sharing and mutation of the answers object *)

Section Prefill.
Import StudentView.

Lemma alloc_fresh (o : Answers) (h : gmap loc Answers) :
  h !! (alloc o h).1 = None ∧ (alloc o h).2 !! (alloc o h).1 = Some o.
Proof.
  unfold alloc. simpl. split.
  - apply not_elem_of_dom, is_fresh.
  - apply lookup_insert_eq.
Qed.

(** A new object leaves every object there is as it is. *)
Lemma alloc_preserves (o : Answers) (h : gmap loc Answers) (l : loc)
    (old : Answers) :
  h !! l = Some old → (alloc o h).2 !! l = Some old.
Proof.
  intros Hl. unfold alloc. simpl. rewrite lookup_insert_ne; [done |].
  intros <-. pose proof (is_fresh (dom h)) as Hfresh.
  apply not_elem_of_dom in Hfresh. congruence.
Qed.

(** An answer change builds a new object: the previous one with one answer
    set.  It changes no object and not the summary. *)
Lemma handleAnswerChange_spec (questionId value : string) (w : World) :
  let w' := handleAnswerChange questionId value w in
  deref (heap w') (studentAnswers (ui w'))
  = <[questionId := value]> (deref (heap w) (studentAnswers (ui w)))
  ∧ heap w !! studentAnswers (ui w') = None
  ∧ (∀ l old, heap w !! l = Some old → heap w' !! l = Some old)
  ∧ submissionSummary (ui w') = submissionSummary (ui w)
  ∧ store w' = store w.
Proof.
  unfold handleAnswerChange.
  set (o := <[questionId := value]> (deref (heap w) (studentAnswers (ui w)))).
  destruct (alloc_fresh o (heap w)) as [Hnone Hsome].
  pose proof (alloc_preserves o (heap w)) as Hkeep.
  destruct (alloc o (heap w)) as [next h]. simpl in *.
  split_and!; try done. unfold deref. by rewrite Hsome.
Qed.

Lemma answerChanges_preserve (changes : list (string * string)) (w : World) :
  let w' := answerChanges changes w in
  (∀ l old, heap w !! l = Some old → heap w' !! l = Some old)
  ∧ submissionSummary (ui w') = submissionSummary (ui w)
  ∧ store w' = store w.
Proof.
  unfold answerChanges. revert w.
  induction changes as [|[questionId value] changes IH]; intros w; simpl.
  - done.
  - destruct (IH (handleAnswerChange questionId value w)) as (Hheap & Hsum & Hstore).
    destruct (handleAnswerChange_spec questionId value w) as (_ & _ & Hheap' & Hsum' & Hstore').
    split_and!.
    + intros l old Hl. by apply Hheap, Hheap'.
    + by rewrite Hsum.
    + by rewrite Hstore.
Qed.

End Prefill.

Section PrefillClaim.
Import StudentView Samples.

(** C7, as stated, fails: with [prefillFromLastAttempt] set, the answers
    object of the new attempt is the snapshot object of the summary itself, not
    a copy of it. *)
Lemma prefill_is_not_a_copy :
  ∃ entry,
    submissionSummary (ui after_first_attempt) !! "quiz-1" = Some entry
    ∧ prefillFromLastAttempt (quiz_with (lit 2)) = true
    ∧ view (ui (startQuiz id (quiz_with (lit 2)) after_first_attempt)) = "quiz"
    ∧ ¬ seeded_by_copy after_first_attempt
          (startQuiz id (quiz_with (lit 2)) after_first_attempt) entry.
Proof.
  eexists. split; [by vm_compute |]. split; [done |]. split; [by vm_compute |].
  intros [Hdistinct _]. apply Hdistinct. by vm_compute.
Qed.

(** C7, amended: when an attempt starts with [prefillFromLastAttempt] set, the
    initial answers object is the summary's [latestAnswers] object itself (a
    new empty object when the quiz has no entry); without the flag it is a new
    empty object.  Every answer change of the attempt builds a new object, so
    no object that existed before, the snapshot among them, is ever altered,
    nor is the summary. *)
Theorem prefill_shares_snapshot_unaltered (shuffle : list Question → list Question)
    (quiz : Quiz) (w : World) (changes : list (string * string)) :
  le (remainingAttempts (getAttemptInfo (submissionSummary (ui w)) quiz)) (Fin 0)
  = false →
  let started := startQuiz shuffle quiz w in
  let w' := answerChanges changes started in
  (prefillFromLastAttempt quiz = true →
   ∀ entry, submissionSummary (ui w) !! quiz_id quiz = Some entry →
            studentAnswers (ui started) = latestAnswers entry
            ∧ heap started = heap w)
  ∧ (prefillFromLastAttempt quiz = false
     ∨ submissionSummary (ui w) !! quiz_id quiz = None →
     heap w !! studentAnswers (ui started) = None
     ∧ deref (heap started) (studentAnswers (ui started)) = ∅)
  ∧ (∀ l old, heap w !! l = Some old → heap w' !! l = Some old)
  ∧ submissionSummary (ui w') = submissionSummary (ui w).
Proof.
  intros Hremaining started w'.
  assert (started
          = let '(latestAnswers, h1) :=
              match submissionSummary (ui w) !! quiz_id quiz with
              | Some entry => (latestAnswers entry, heap w)
              | None => alloc ∅ (heap w)
              end in
            let '(initial, h2) :=
              if prefillFromLastAttempt quiz then (latestAnswers, h1)
              else alloc ∅ h1 in
            {| ui :=
                 {| submissionSummary := submissionSummary (ui w);
                    selectedClassName := selectedClassName (ui w);
                    view := "quiz";
                    activeQuiz := Some quiz;
                    activeHistoryAttempt := None;
                    studentAnswers := initial;
                    gradingResult := None;
                    isSubmitting := isSubmitting (ui w);
                    viewingResult := false;
                    shuffledQuestions :=
                      if allowShuffle quiz
                      then shuffle (default [] (questions quiz))
                      else default [] (questions quiz) |};
               heap := h2; store := store w; alerts := alerts w |}) as Hstarted.
  { subst started. unfold startQuiz. by rewrite Hremaining. }
  assert (match submissionSummary (ui w) !! quiz_id quiz with
          | Some entry =>
              if prefillFromLastAttempt quiz
              then studentAnswers (ui started) = latestAnswers entry
                   ∧ heap started = heap w
              else heap w !! studentAnswers (ui started) = None
                   ∧ deref (heap started) (studentAnswers (ui started)) = ∅
          | None =>
              heap w !! studentAnswers (ui started) = None
              ∧ deref (heap started) (studentAnswers (ui started)) = ∅
          end
          ∧ (∀ l old, heap w !! l = Some old → heap started !! l = Some old)
          ∧ submissionSummary (ui started) = submissionSummary (ui w))
    as (Hseed & Hkeep & Hsummary).
  { rewrite Hstarted. clear Hstarted.
    destruct (submissionSummary (ui w) !! quiz_id quiz) as [entry|].
    - destruct (prefillFromLastAttempt quiz).
      + done.
      + destruct (alloc_fresh ∅ (heap w)) as [Hnone Hsome].
        pose proof (alloc_preserves ∅ (heap w)) as Hkeep.
        destruct (alloc ∅ (heap w)) as [l h]. simpl in *.
        split_and!; try done. unfold deref. by rewrite Hsome.
    - destruct (alloc_fresh ∅ (heap w)) as [Hnone Hsome].
      pose proof (alloc_preserves ∅ (heap w)) as Hkeep.
      destruct (alloc ∅ (heap w)) as [l h]. simpl in Hnone, Hsome, Hkeep.
      destruct (prefillFromLastAttempt quiz).
      + simpl. split_and!; try done. unfold deref. by rewrite Hsome.
      + destruct (alloc_fresh ∅ h) as [Hnone' Hsome'].
        pose proof (alloc_preserves ∅ h) as Hkeep'.
        destruct (alloc ∅ h) as [l' h']. simpl in *.
        split_and!; try done.
        * destruct (heap w !! l') eqn:Hl'; [| done].
          apply Hkeep in Hl'. congruence.
        * unfold deref. by rewrite Hsome'.
        * intros l0 old Hl0. by apply Hkeep', Hkeep. }
  destruct (answerChanges_preserve changes started) as (Hkeep' & Hsummary' & _).
  split_and!.
  - intros Hprefill entry Hentry. by rewrite Hentry, Hprefill in Hseed.
  - intros [Hprefill | Hnone].
    + rewrite Hprefill in Hseed.
      by destruct (submissionSummary (ui w) !! quiz_id quiz).
    + by rewrite Hnone in Hseed.
  - intros l old Hl. by apply Hkeep', Hkeep.
  - subst w'. by rewrite Hsummary'.
Qed.

Lemma prefill_shares_snapshot_unaltered_witness :
  let w := after_first_attempt in
  let quiz := quiz_with (lit 2) in
  let started := startQuiz id quiz w in
  let w' := answerChanges [("q1", "x = 5")] started in
  (prefillFromLastAttempt quiz = true →
   ∀ entry, submissionSummary (ui w) !! quiz_id quiz = Some entry →
            studentAnswers (ui started) = latestAnswers entry
            ∧ heap started = heap w)
  ∧ (prefillFromLastAttempt quiz = false
     ∨ submissionSummary (ui w) !! quiz_id quiz = None →
     heap w !! studentAnswers (ui started) = None
     ∧ deref (heap started) (studentAnswers (ui started)) = ∅)
  ∧ (∀ l old, heap w !! l = Some old → heap w' !! l = Some old)
  ∧ submissionSummary (ui w') = submissionSummary (ui w).
Proof.
  apply (prefill_shares_snapshot_unaltered id (quiz_with (lit 2))
           after_first_attempt [("q1", "x = 5")]).
  vm_compute. reflexivity.
Defined.

(** After the student changes an answer of the prefilled attempt, the
    snapshot still reads as before and the attempt has the new answer. *)
Lemma prefill_then_change_example :
  let w' := answerChanges [("q1", "x = 5")]
              (startQuiz id (quiz_with (lit 2)) after_first_attempt) in
  heap w' !! 1%positive = Some {[ "q1" := "x = 4" ]}
  ∧ deref (heap w') (studentAnswers (ui w')) = {[ "q1" := "x = 5" ]}.
Proof. by vm_compute. Qed.

End PrefillClaim.

(** ** Fallback grading *)

Section Fallback.
Import AiService StudentView.

(** The fold of [buildFallbackEvaluations] from any map: the ids of the
    questions get the fallback evaluation, the other keys keep what they had. *)
Lemma fallback_fold_lookup (qs : list Question) (start : Evaluations)
    (key : string) :
  foldl
    (λ (fallback : Evaluations) question,
       if negb (str_truthy (q_id question)) then fallback else
       <[str_or_empty (q_id question) := fallback_evaluation]> fallback)
    start qs !! key
  = if decide (key ≠ EmptyString ∧ Exists (λ question, q_id question = Some key) qs)
    then Some fallback_evaluation
    else start !! key.
Proof.
  revert start. induction qs as [|question qs IH]; intros start; simpl.
  - rewrite decide_False; [done |]. intros [_ H]. by apply Exists_nil in H.
  - rewrite IH. clear IH.
    destruct (decide (key ≠ EmptyString
                      ∧ Exists (λ question, q_id question = Some key) qs))
      as [[Hkey Hqs] | Hno].
    + rewrite decide_True; [done |]. split; [done |]. by apply Exists_cons_tl.
    + destruct (q_id question) as [id|] eqn:Hid; simpl.
      * destruct (String.eqb_spec id EmptyString) as [-> | Hne]; simpl.
        -- rewrite decide_False; [done |]. intros [Hkey H].
           apply Exists_cons in H as [H | H]; [congruence | by apply Hno].
        -- destruct (decide (id = key)) as [-> | Hik].
           ++ rewrite lookup_insert_eq, decide_True; [done |].
              split; [done |]. by apply Exists_cons_hd.
           ++ rewrite lookup_insert_ne by done.
              rewrite decide_False; [done |]. intros [Hkey H].
              apply Exists_cons in H as [H | H]; [congruence | by apply Hno].
      * rewrite decide_False; [done |]. intros [Hkey H].
        apply Exists_cons in H as [H | H]; [congruence | by apply Hno].
Qed.

(** The fallback evaluations: exactly the non-empty ids of the questions, each
    marked incorrect with the teacher-review feedback. *)
Lemma buildFallbackEvaluations_lookup (quiz : Quiz) (key : string) :
  buildFallbackEvaluations (Some quiz) !! key
  = if decide (key ≠ EmptyString
               ∧ Exists (λ question, q_id question = Some key)
                   (default [] (questions quiz)))
    then Some fallback_evaluation
    else None.
Proof.
  unfold buildFallbackEvaluations. simpl.
  change (λ (fallback : Evaluations) question,
            if negb (str_truthy (q_id question)) then fallback
            else <[str_or_empty (q_id question) :=
                     {| isCorrect := false; feedback := fallback_feedback |}]>
                   fallback)
    with (λ (fallback : Evaluations) question,
            if negb (str_truthy (q_id question)) then fallback
            else <[str_or_empty (q_id question) := fallback_evaluation]> fallback).
  by rewrite fallback_fold_lookup, lookup_empty.
Qed.

(** The grade object carries evaluations only for an accepted JSON reply that
    has them. *)
Lemma gradeSubmission_evaluations (reply : HttpReply) (evaluations : Evaluations) :
  (gradeSubmission reply).1 = Some (Some evaluations)
  ↔ reply = Reply true (Json (Some evaluations)).
Proof.
  destruct reply as [|[] [| |[e|]]]; simpl; split; intros H; congruence.
Qed.

End Fallback.

Section FallbackClaim.
Import AiService StudentView Samples.

(** C1, as stated, fails: when grading fails for a quiz one of whose questions
    has no id, the stored evaluations have no evaluation for that question. *)
Lemma fallback_skips_unnamed_question :
  let quiz := quiz_with_unnamed_question in
  let w := taking quiz {[ "q1" := "5/6" ]} in
  ∃ doc fallback,
    store (submitQuiz student grading_times_out w) = [doc]
    ∧ gradeStatus doc = Some "needs_teacher_review"
    ∧ evaluations doc = Some fallback
    ∧ length (default [] (questions quiz)) = 2%nat
    ∧ size fallback = 1%nat
    ∧ ¬ covers_every_question quiz fallback.
Proof.
  eexists _, _. split; [by vm_compute |]. split; [done |]. split; [done |].
  split; [done |]. split; [by vm_compute |].
  intros Hall.
  assert ({| q_id := None; q_text := Some "Reduce 4/8."; showFeedback := true |}
          ∈ default [] (questions quiz_with_unnamed_question)) as Hin.
  { simpl. apply elem_of_cons. right. apply elem_of_cons. by left. }
  specialize (Hall _ Hin). vm_compute in Hall. discriminate.
Qed.

(** C1, amended: when the grading call returns no evaluations, the flow
    synthesizes the evaluation [isCorrect = false] with the teacher-review
    feedback for every question of the quiz that has a non-empty id, and only
    for those; it sets [gradeStatus] to [needs_teacher_review] and, the store
    taking the write, appends the submission with the student's answers to the
    store.  When the grading call returns evaluations, they are stored with
    [gradeStatus = graded]. *)
Theorem submission_survives_grading_failure (user : User) (env : SubmitEnv)
    (w : World) (quiz : Quiz) :
  activeQuiz (ui w) = Some quiz →
  isSubmitting (ui w) = false →
  le (remainingAttempts (getAttemptInfo (submissionSummary (ui w)) quiz)) (Fin 0)
  = false →
  (answeredCount (deref (heap w) (studentAnswers (ui w)))
     <? length (default [] (questions quiz)))%nat = false
  ∨ confirmed env = true →
  storeAccepts env = true →
  ∃ doc,
    store (submitQuiz user env w) = store w ++ [doc]
    ∧ quizId doc = Some (quiz_id quiz)
    ∧ answers doc = Some (deref (heap w) (studentAnswers (ui w)))
    ∧ match (gradeSubmission (reply env)).1 with
      | Some (Some graded) =>
          gradeStatus doc = Some "graded" ∧ evaluations doc = Some graded
      | _ =>
          gradeStatus doc = Some "needs_teacher_review"
          ∧ ∃ fallback,
              evaluations doc = Some fallback
              ∧ (∀ question id,
                   question ∈ default [] (questions quiz) →
                   q_id question = Some id → id ≠ EmptyString →
                   fallback !! id = Some fallback_evaluation)
              ∧ (∀ key evaluation,
                   fallback !! key = Some evaluation →
                   evaluation = fallback_evaluation
                   ∧ ∃ question, question ∈ default [] (questions quiz)
                                 ∧ q_id question = Some key)
      end.
Proof.
  intros Hactive Hidle Hremaining Hanswered Hstore.
  assert ((answeredCount (deref (heap w) (studentAnswers (ui w)))
             <? length (default [] (questions quiz)))%nat
          && negb (confirmed env) = false) as Hgo.
  { destruct Hanswered as [-> | ->]; [done | by rewrite andb_false_r]. }
  unfold submitQuiz. rewrite Hactive, Hidle, Hremaining, Hgo, Hstore.
  destruct (gradeSubmission (reply env)) as [gradingData raised]. simpl.
  eexists. split; [reflexivity |]. split; [done |]. split; [done |].
  assert (∃ fallback,
            Some (buildFallbackEvaluations (Some quiz)) = Some fallback
            ∧ (∀ question id,
                 question ∈ default [] (questions quiz) →
                 q_id question = Some id → id ≠ EmptyString →
                 fallback !! id = Some fallback_evaluation)
            ∧ (∀ key evaluation,
                 fallback !! key = Some evaluation →
                 evaluation = fallback_evaluation
                 ∧ ∃ question, question ∈ default [] (questions quiz)
                               ∧ q_id question = Some key)) as Hfallback.
  { eexists. split; [reflexivity |]. split.
    - intros question id Hin Hid Hne.
      rewrite buildFallbackEvaluations_lookup, decide_True; [done |].
      split; [done |]. apply Exists_exists. eauto.
    - intros key evaluation. rewrite buildFallbackEvaluations_lookup.
      destruct (decide _) as [[_ Hex] |]; [| done].
      intros [= <-]. split; [done |]. by apply Exists_exists in Hex. }
  destruct gradingData as [[graded|]|]; simpl; [done | |]; by split.
Qed.

Lemma submission_survives_grading_failure_witness :
  let quiz := quiz_with_unnamed_question in
  let w := taking quiz {[ "q1" := "5/6" ]} in
  ∃ doc,
    store (submitQuiz student grading_times_out w) = store w ++ [doc]
    ∧ quizId doc = Some (quiz_id quiz)
    ∧ answers doc = Some (deref (heap w) (studentAnswers (ui w)))
    ∧ match (gradeSubmission (reply grading_times_out)).1 with
      | Some (Some graded) =>
          gradeStatus doc = Some "graded" ∧ evaluations doc = Some graded
      | _ =>
          gradeStatus doc = Some "needs_teacher_review"
          ∧ ∃ fallback,
              evaluations doc = Some fallback
              ∧ (∀ question id,
                   question ∈ default [] (questions quiz) →
                   q_id question = Some id → id ≠ EmptyString →
                   fallback !! id = Some fallback_evaluation)
              ∧ (∀ key evaluation,
                   fallback !! key = Some evaluation →
                   evaluation = fallback_evaluation
                   ∧ ∃ question, question ∈ default [] (questions quiz)
                                 ∧ q_id question = Some key)
      end.
Proof.
  apply (submission_survives_grading_failure student grading_times_out
           (taking quiz_with_unnamed_question {[ "q1" := "5/6" ]})
           quiz_with_unnamed_question).
  - reflexivity.
  - reflexivity.
  - vm_compute. reflexivity.
  - right. reflexivity.
  - reflexivity.
Defined.

(** With a reply of the grading service, the submission is stored as graded,
    with the service's evaluations and attempt number one. *)
Lemma graded_submission_example :
  let w := taking (quiz_with (lit 2)) {[ "q1" := "x = 5" ]} in
  ∃ doc,
    store (submitQuiz student grading_succeeds w) = [doc]
    ∧ gradeStatus doc = Some "graded"
    ∧ evaluations doc
      = Some {[ "q1" := {| isCorrect := true; feedback := "Correct." |} ]}
    ∧ same (attemptNum doc) (of_Z 1).
Proof. eexists. split; [by vm_compute |]. by vm_compute. Qed.

(** The retake of the sample quiz: started with the prefilled answers, one
    answer changed, submitted; the new document is attempt number two and
    carries the changed answer. *)
Lemma retake_example :
  let started := startQuiz id (quiz_with (lit 2)) after_first_attempt in
  let changed := handleAnswerChange "q1" "x = 5" started in
  ∃ doc,
    store (submitQuiz student grading_succeeds changed) = [doc]
    ∧ same (attemptNum doc) (of_Z 2)
    ∧ answers doc = Some {[ "q1" := "x = 5" ]}
    ∧ gradeStatus doc = Some "graded".
Proof. eexists. split; [by vm_compute |]. by vm_compute. Qed.

End FallbackClaim.

(** ** The grading proxy *)

Section Truncation.
Import GradeProxy.

Lemma length_append (s1 s2 : string) :
  String.length (s1 +:+ s2) = (String.length s1 + String.length s2)%nat.
Proof. induction s1 as [|c s1 IH]; simpl; [done | by rewrite IH]. Qed.

Lemma length_substring_0 (n : nat) (s : string) :
  String.length (substring 0 n s) = Nat.min n (String.length s).
Proof.
  revert s. induction n as [|n IH]; intros [|c s]; simpl; try done.
  by rewrite IH.
Qed.

Lemma prefix_substring_0 (n : nat) (s : string) :
  String.prefix (substring 0 n s) s = true.
Proof.
  revert s. induction n as [|n IH]; intros [|c s]; simpl; try done.
  destruct (ascii_dec c c); [apply IH | done].
Qed.

(** [truncate] caps its argument. *)
Lemma truncate_capped (value : option string) (max : nat) :
  capped max (str_or_empty value) (truncate value max).
Proof.
  unfold capped, truncate.
  destruct (max <? String.length (str_or_empty value))%nat eqn:Hlen; [| done].
  apply Nat.ltb_lt in Hlen.
  assert (String.length (substring 0 max (str_or_empty value)) = max) as Hsub
    by (rewrite length_substring_0; lia).
  split_and!; [done | done | apply prefix_substring_0 |].
  rewrite length_append, Hsub. reflexivity.
Qed.

Lemma truncate_length (value : option string) (max : nat) :
  (String.length (truncate value max) <= max + 3)%nat.
Proof.
  pose proof (truncate_capped value max) as H. unfold capped in H.
  destruct (max <? String.length (str_or_empty value))%nat eqn:Hlen.
  - destruct H as (_ & _ & _ & ->). lia.
  - apply Nat.ltb_ge in Hlen. rewrite H. lia.
Qed.

(** Truncating again changes nothing. *)
Lemma truncate_idempotent (value : option string) (max : nat) :
  (3 <= max)%nat → 
  truncate (Some (truncate value max)) max = truncate value max.
Proof.
  intros Hmax. unfold truncate. simpl.
  destruct (max <? String.length (str_or_empty value))%nat eqn:Hlen;
    [| by rewrite Hlen].
  assert (String.length (substring 0 max (str_or_empty value)) = max) as Hsub.
  { apply Nat.ltb_lt in Hlen. rewrite length_substring_0. lia. }
  rewrite length_append, Hsub.
  replace (max <? max + String.length "...")%nat with true
    by (symmetry; apply Nat.ltb_lt; simpl; lia).
  f_equal. revert Hsub. generalize (substring 0 max (str_or_empty value)).
  clear. induction max as [|n IH]; intros [|c s]; simpl; try done.
  intros [= Hs]. by rewrite IH.
Qed.

End Truncation.

Section Prompt.
Import GradeProxy.
Context {J : Type}.
Variable JSON_parse : string → option J.
Variable destructure : J → option Request.
Variable has_evaluations : J → bool.

(** The loop over the candidates asks the models about one prompt only. *)
Lemma tryModels_ext (g1 g2 : string → string → ModelOutcome) (prompt : string)
    (candidates : list string) (lastError : option ModelError) :
  (∀ modelName, g1 modelName prompt = g2 modelName prompt) →
  tryModels g1 prompt candidates lastError
  = tryModels g2 prompt candidates lastError.
Proof.
  intros Hsame. revert lastError.
  induction candidates as [|modelName rest IH]; intros lastError; simpl.
  - done.
  - rewrite Hsame. destruct (g2 modelName prompt) as [text|e]; [done |].
    by destruct (isNotFound e).
Qed.

(** The handler reads of the upstream only its answers to the prompt that
    [buildPrompt] makes of the request. *)
Lemma handler_asks_about_prompt (g1 g2 : string → string → ModelOutcome)
    (env : Env) (event : Event) (data : J) (r : Request) (prompt : string) :
  JSON_parse (default "null" (body event)) = Some data →
  destructure data = Some r →
  buildPrompt r = Some prompt →
  (∀ modelName, g1 modelName prompt = g2 modelName prompt) →
  handler JSON_parse destructure has_evaluations g1 env event
  = handler JSON_parse destructure has_evaluations g2 env event.
Proof.
  intros Hparse Hfields Hprompt Hsame. unfold handler, grade.
  rewrite Hparse. simpl. rewrite Hfields. simpl. rewrite Hprompt. simpl.
  by rewrite (tryModels_ext g1 g2).
Qed.

End Prompt.

Section PromptClaim.
Import GradeProxy.

(** With an answers object in the request, the prompt is built. *)
Lemma buildPrompt_defined (r : Request) (studentAnswers : Answers) :
  req_studentAnswers r = Some studentAnswers → is_Some (buildPrompt r).
Proof.
  intros Hanswers. unfold buildPrompt.
  assert (is_Some (mapM (questionFields r) (safeQuestions r))) as [blocks ->].
  { apply mapM_is_Some, Forall_forall. intros q _.
    unfold compose, questionFields. rewrite Hanswers. by eexists. }
  done.
Qed.

(** C8: the prompt that goes upstream is the template around the capped
    fields of the request: the title capped to 200 characters, and for each of
    the first 20 questions, and for no other, its text and the student's
    answer capped to 1200 characters, a cut text being followed by the
    marker; and the handler asks the upstream about this prompt only. *)
Theorem prompt_fields_are_capped (r : Request) (prompt : string) :
  buildPrompt r = Some prompt →
  ∃ blocks,
    prompt = renderPrompt (truncate (req_quizTitle r) 200) blocks
    ∧ capped 200 (str_or_empty (req_quizTitle r)) (truncate (req_quizTitle r) 200)
    ∧ length blocks = Nat.min 20 (length (default [] (req_questions r)))
    ∧ (∀ i q, (i < 20)%nat → default [] (req_questions r) !! i = Some q →
         ∃ studentAnswers text answer,
           req_studentAnswers r = Some studentAnswers
           ∧ blocks !! i = Some (default "undefined" (q_id q), text, answer)
           ∧ capped 1200 (str_or_empty (q_text q)) text
           ∧ capped 1200
               (answerOf studentAnswers (default "undefined" (q_id q))) answer)
    ∧ ∀ (J : Type) (JSON_parse : string → option J)
        (destructure : J → option Request) (has_evaluations : J → bool)
        (g1 g2 : string → string → ModelOutcome) (env : Env) (event : Event)
        (data : J),
        JSON_parse (default "null" (body event)) = Some data →
        destructure data = Some r →
        (∀ modelName, g1 modelName prompt = g2 modelName prompt) →
        handler JSON_parse destructure has_evaluations g1 env event
        = handler JSON_parse destructure has_evaluations g2 env event.
Proof.
  intros Hprompt. pose proof Hprompt as Hbuild. unfold buildPrompt in Hprompt.
  destruct (mapM (questionFields r) (safeQuestions r)) as [blocks|] eqn:Hblocks;
    [| done].
  injection Hprompt as <-. apply mapM_Some in Hblocks.
  assert (safeQuestions r = take 20 (default [] (req_questions r))) as Hsafe.
  { unfold safeQuestions. by destruct (req_questions r). }
  rewrite Hsafe in Hblocks.
  exists blocks. split_and!.
  - done.
  - apply truncate_capped.
  - rewrite <- (Forall2_length _ _ _ Hblocks), length_take. lia.
  - intros i q Hi Hq.
    assert (take 20 (default [] (req_questions r)) !! i = Some q) as Htake
      by by rewrite lookup_take_lt.
    destruct (Forall2_lookup_l _ _ _ _ _ Hblocks Htake) as (block & Hblock & Hfields).
    unfold questionFields in Hfields.
    destruct (req_studentAnswers r) as [studentAnswers|]; [| done].
    injection Hfields as <-.
    exists studentAnswers, (truncate (q_text q) 1200),
      (truncate (Some (answerOf studentAnswers (default "undefined" (q_id q)))) 1200).
    split_and!; [done | done | apply truncate_capped |].
    apply (truncate_capped (Some _)).
  - intros J JSON_parse destructure has_evaluations g1 g2 env event data
      Hparse Hfields Hsame.
    by eapply handler_asks_about_prompt.
Qed.

End PromptClaim.

Section PromptWitness.
Import GradeProxy Samples.

Lemma prompt_fields_are_capped_witness :
  let r := long_request in
  let prompt := default EmptyString (buildPrompt long_request) in
  ∃ blocks,
    prompt = renderPrompt (truncate (req_quizTitle r) 200) blocks
    ∧ capped 200 (str_or_empty (req_quizTitle r)) (truncate (req_quizTitle r) 200)
    ∧ length blocks = Nat.min 20 (length (default [] (req_questions r)))
    ∧ (∀ i q, (i < 20)%nat → default [] (req_questions r) !! i = Some q →
         ∃ studentAnswers text answer,
           req_studentAnswers r = Some studentAnswers
           ∧ blocks !! i = Some (default "undefined" (q_id q), text, answer)
           ∧ capped 1200 (str_or_empty (q_text q)) text
           ∧ capped 1200
               (answerOf studentAnswers (default "undefined" (q_id q))) answer)
    ∧ ∀ (J : Type) (JSON_parse : string → option J)
        (destructure : J → option Request) (has_evaluations : J → bool)
        (g1 g2 : string → string → ModelOutcome) (env : Env) (event : Event)
        (data : J),
        JSON_parse (default "null" (body event)) = Some data →
        destructure data = Some r →
        (∀ modelName, g1 modelName prompt = g2 modelName prompt) →
        handler JSON_parse destructure has_evaluations g1 env event
        = handler JSON_parse destructure has_evaluations g2 env event.
Proof.
  destruct (buildPrompt_defined long_request _ eq_refl) as [prompt Hprompt].
  rewrite Hprompt. change (default EmptyString (Some prompt)) with prompt.
  apply (prompt_fields_are_capped long_request prompt Hprompt).
Defined.

(** A question text of 2000 characters goes upstream as its first 1200
    characters and the marker; a short text goes as it is. *)
Lemma truncate_long_text :
  truncate (Some long_text) 1200
  = string_of_list_ascii (replicate 1200 "a"%char) +:+ "..."
  ∧ String.length (truncate (Some long_text) 1200) = 1203%nat
  ∧ truncate (Some "Solve 2x + 5 = 15.") 1200 = "Solve 2x + 5 = 15."
  ∧ truncate None 200 = EmptyString
  ∧ length (safeQuestions long_request) = 20%nat.
Proof. split_and!; by vm_compute. Qed.

End PromptWitness.

Section Validation.
Import GradeProxy Samples.

(** C9, as stated, fails: a POST request whose body is not JSON is answered
    with status 500, not with a 4xx status; and without the API key a request
    with a wrong method is answered with 500 as well. *)
Lemma malformed_body_is_500 :
  host_parse malformed_body = None
  ∧ statusCode
      (handler host_parse host_destructure host_has_evaluations model_replies
         configured {| httpMethod := "POST"; body := Some malformed_body |})
    = 500
  ∧ statusCode
      (handler host_parse host_destructure host_has_evaluations model_replies
         unconfigured {| httpMethod := "GET"; body := None |})
    = 500
  ∧ ¬ is_4xx 500.
Proof.
  split_and!; [by vm_compute | by vm_compute | by vm_compute |].
  unfold is_4xx. lia.
Qed.

(** C9, amended: with the API key configured, a request whose method is not
    POST is answered with status 405, a 4xx status; a POST request whose body
    is not JSON is caught by the handler's general error path and answered
    with status 500.  Without the API key every request is answered with
    500. *)
Theorem validation_errors_status {J : Type} (JSON_parse : string → option J)
    (destructure : J → option Request) (has_evaluations : J → bool)
    (generateContent : string → string → ModelOutcome)
    (env : Env) (event : Event) :
  let response :=
    handler JSON_parse destructure has_evaluations generateContent env event in
  (str_truthy (GEMINI_API_KEY env) = true → httpMethod event ≠ "POST" →
   response = {| statusCode := 405; response_body := Plain "Method Not Allowed" |}
   ∧ is_4xx (statusCode response))
  ∧ (str_truthy (GEMINI_API_KEY env) = true → httpMethod event = "POST" →
     JSON_parse (default "null" (body event)) = None →
     response = {| statusCode := 500; response_body := ErrorObject SyntaxError |})
  ∧ (str_truthy (GEMINI_API_KEY env) = false →
     response
     = {| statusCode := 500;
          response_body := ErrorObject (Failure "Server Configuration Error") |}).
Proof.
  intros response. subst response. unfold handler. split_and!.
  - intros -> Hmethod. simpl.
    apply String.eqb_neq in Hmethod. rewrite Hmethod. simpl.
    split; [done |]. unfold is_4xx. lia.
  - intros -> -> Hparse. simpl. unfold grade. by rewrite Hparse.
  - intros ->. done.
Qed.

(** A well-formed request is answered with status 200 and the grade. *)
Lemma handler_success_example :
  handler host_parse host_destructure host_has_evaluations model_replies
    configured {| httpMethod := "POST"; body := Some small_body |}
  = {| statusCode := 200;
       response_body :=
         Stringified
           (GradeJson {[ "q1" := {| isCorrect := true; feedback := "Correct." |} ]}) |}.
Proof. by vm_compute. Qed.

End Validation.

(** * Further properties *)

(** ** Submitting: the attempt limit and the guards *)

Section SubmitFlow.
Import AiService Ledger StudentView StudentFlow.

(** The attempts that remain are positive exactly when the attempts used are
    below the maximum. *)
Lemma remaining_positive {A} (summary : gmap string (Summary A)) (quiz : Quiz)
    (m u : Z) :
  info_maxAttempts (getAttemptInfo summary quiz) = of_Z m →
  usedAttempts (getAttemptInfo summary quiz) = of_Z u →
  le (remainingAttempts (getAttemptInfo summary quiz)) (Fin 0) = false ↔ u < m.
Proof.
  intros Hm Hu.
  assert (remainingAttempts (getAttemptInfo summary quiz)
          = max (Fin 0) (sub (of_Z m) (of_Z u))) as ->.
  { rewrite <- Hm, <- Hu. reflexivity. }
  unfold le, of_Z. cbn [sub max].
  assert ((inject_Z m - inject_Z u == inject_Z (m - u))%Q) as Heq.
  { unfold Z.sub. rewrite inject_Z_plus, inject_Z_opp. reflexivity. }
  destruct (ge (Fin 0) (Fin (inject_Z m - inject_Z u))) eqn:Hge.
  - apply ge_Fin in Hge. rewrite Heq in Hge.
    change 0%Q with (inject_Z 0) in Hge. rewrite <- Zle_Qle in Hge.
    split; [by vm_compute | lia].
  - rewrite Hge. apply ge_Fin_false in Hge. rewrite Heq in Hge.
    change 0%Q with (inject_Z 0) in Hge. rewrite <- Zlt_Qlt in Hge.
    split; [lia | done].
Qed.

Lemma usedAttempts_count {A} (summary : gmap string (Summary A)) (quiz : Quiz) :
  usedAttempts (getAttemptInfo summary quiz)
  = of_Z (Z.of_nat (from_option count 0%nat (summary !! quiz_id quiz))).
Proof. simpl. by destruct (summary !! quiz_id quiz). Qed.

(** What one call of [submitQuiz] does to the store. *)
Lemma submitQuiz_outcome (user : User) (env : SubmitEnv)
    (w : World) :
  store (submitQuiz user env w) = store w
  ∨ ∃ quiz doc m u,
      activeQuiz (ui w) = Some quiz ∧ isSubmitting (ui w) = false
      ∧ storeAccepts env = true
      ∧ store (submitQuiz user env w) = store w ++ [doc]
      ∧ quizId doc = Some (quiz_id quiz)
      ∧ answers doc = Some (deref (heap w) (studentAnswers (ui w)))
      ∧ getMaxAttempts (Some quiz) = of_Z m
      ∧ usedAttempts (getAttemptInfo (submissionSummary (ui w)) quiz) = of_Z u
      ∧ 0 <= u ∧ u + 1 <= m
      ∧ same (attemptNum doc) (of_Z (u + 1))
      ∧ maxAttemptsAtSubmission doc = Num (of_Z m).
Proof.
  unfold submitQuiz.
  destruct (activeQuiz (ui w)) as [quiz|] eqn:Hactive; [| by left].
  destruct (isSubmitting (ui w)) eqn:Hidle; [by left |].
  destruct (le (remainingAttempts
                  (getAttemptInfo (submissionSummary (ui w)) quiz)) (Fin 0))
    eqn:Hremaining; [by left |].
  destruct (_ && negb (confirmed env)); [by left |].
  destruct (gradeSubmission (reply env)) as [gradingData raised].
  destruct (storeAccepts env) eqn:Hstore; [| by left].
  right.
  destruct (getMaxAttempts_natural (Some quiz)) as (m & Hm & Hmax).
  set (u := Z.of_nat (from_option count 0%nat
                        (submissionSummary (ui w) !! quiz_id quiz))).
  pose proof (usedAttempts_count (submissionSummary (ui w)) quiz) as Hused.
  fold u in Hused.
  assert (u < m) as Hlt
    by by apply (remaining_positive (submissionSummary (ui w)) quiz m u).
  eexists quiz, _, m, u. split_and!; try done.
  - subst u. lia.
  - lia.
  - unfold attemptNum. cbn [attemptNumber submissionDoc]. rewrite Hused.
    assert (truthy (Num (add (of_Z u) (Fin 1))) = true) as Htruthy.
    { unfold of_Z. cbn [add truthy]. apply negb_true_iff, not_true_iff_false.
      rewrite is_zero_spec. change 1%Q with (inject_Z 1).
      rewrite <- inject_Z_plus. change 0%Q with (inject_Z 0).
      rewrite inject_Z_injective. subst u. lia. }
    unfold or_else. rewrite Htruthy. cbn [Number].
    change (Fin 1) with (of_Z 1). apply add_of_Z.
  - cbn [maxAttemptsAtSubmission submissionDoc]. by rewrite <- Hmax.
Qed.

(** X1: one call of [submitQuiz] writes at most one document, and only when
    a quiz is active, no submission is under way and the store takes the
    write.  The document written is of the active quiz, carries the answers
    as they are in the answers object, and its attempt number is the number
    of attempts used plus one, which does not exceed the maximum. *)
Theorem submitQuiz_writes_within_limit (user : User) (env : SubmitEnv)
    (w : World) :
  (length (store (submitQuiz user env w)) <= length (store w) + 1)%nat
  ∧ (store (submitQuiz user env w) = store w
     ∨ ∃ quiz doc m u,
         activeQuiz (ui w) = Some quiz ∧ isSubmitting (ui w) = false
         ∧ storeAccepts env = true
         ∧ store (submitQuiz user env w) = store w ++ [doc]
         ∧ quizId doc = Some (quiz_id quiz)
         ∧ answers doc = Some (deref (heap w) (studentAnswers (ui w)))
         ∧ getMaxAttempts (Some quiz) = of_Z m
         ∧ usedAttempts (getAttemptInfo (submissionSummary (ui w)) quiz) = of_Z u
         ∧ 0 <= u ∧ u + 1 <= m
         ∧ same (attemptNum doc) (of_Z (u + 1))
         ∧ maxAttemptsAtSubmission doc = Num (of_Z m)).
Proof.
  pose proof (submitQuiz_outcome user env w) as Houtcome. split; [| done].
  destruct Houtcome as [-> | (quiz & doc & m & u & _ & _ & _ & -> & _)];
    [lia |].
  rewrite length_app. simpl. lia.
Qed.

(** X2: while the summary of the view counts the documents of the store,
    submitting never takes the number of the student's documents for the
    active quiz above the quiz's maximum of attempts (or above what it was,
    when it was already above). *)
Theorem submitQuiz_respects_limit (user : User) (env : SubmitEnv) (w : World)
    (quiz : Quiz) (m : Z) :
  in_sync w → activeQuiz (ui w) = Some quiz → quiz_id quiz ≠ EmptyString →
  getMaxAttempts (Some quiz) = of_Z m →
  Z.of_nat (occurrences (quiz_id quiz) (store (submitQuiz user env w)))
  <= Z.max m (Z.of_nat (occurrences (quiz_id quiz) (store w))).
Proof.
  intros Hsync Hactive Hid Hmax.
  destruct (submitQuiz_outcome user env w)
    as [-> | (quiz' & doc & m' & u & Hactive' & _ & _ & -> & Hdoc & _ & Hmax'
              & Hused & _ & Hle & _)]; [lia |].
  assert (quiz' = quiz) as -> by congruence.
  assert (m' = m) as ->.
  { rewrite Hmax in Hmax'. by injection Hmax'. }
  rewrite occurrences_app, occurrences_cons, decide_True by done.
  assert (u = Z.of_nat (occurrences (quiz_id quiz) (store w))) as ->.
  { rewrite usedAttempts_count in Hused. injection Hused as H.
    rewrite <- H. f_equal.
    specialize (Hsync (quiz_id quiz)). rewrite summary_lookup in Hsync by done.
    destruct (fold_count (quiz_id quiz) (store w) None) as [Hcount _].
    simpl in Hcount. rewrite <- Hcount.
    destruct (submissionSummary (ui w) !! quiz_id quiz),
             (foldl (step_of (quiz_id quiz)) None (store w));
      simpl in *; congruence. }
  unfold occurrences at 2. simpl. lia.
Qed.

End SubmitFlow.

Section SubmitFlowWitness.
Import AiService Ledger StudentView StudentFlow Samples.

Lemma submitQuiz_respects_limit_witness :
  Z.of_nat
    (occurrences "quiz-1"
       (store (submitQuiz student grading_times_out
                 (taking (quiz_with (lit 2)) {[ "q1" := "x = 5" ]}))))
  <= Z.max 2
       (Z.of_nat
          (occurrences "quiz-1"
             (store (taking (quiz_with (lit 2)) {[ "q1" := "x = 5" ]})))).
Proof.
  apply (submitQuiz_respects_limit student grading_times_out
           (taking (quiz_with (lit 2)) {[ "q1" := "x = 5" ]})
           (quiz_with (lit 2)) 2).
  - intros q. reflexivity.
  - reflexivity.
  - discriminate.
  - vm_compute. reflexivity.
Defined.

End SubmitFlowWitness.

Section SubmitRetry.
Import AiService StudentView.

(** [submitQuiz] reads of the world the store, the answers object, and of the
    view the active quiz, the submitting flag, the summary and the name of the
    selected class. *)
Lemma submitQuiz_store_ext (user : User) (env : SubmitEnv) (w1 w2 : World) :
  store w1 = store w2 → heap w1 = heap w2 →
  activeQuiz (ui w1) = activeQuiz (ui w2) →
  isSubmitting (ui w1) = isSubmitting (ui w2) →
  submissionSummary (ui w1) = submissionSummary (ui w2) →
  studentAnswers (ui w1) = studentAnswers (ui w2) →
  selectedClassName (ui w1) = selectedClassName (ui w2) →
  store (submitQuiz user env w1) = store (submitQuiz user env w2).
Proof.
  intros Hstore Hheap Hactive Hidle Hsummary Hanswers Hclass.
  unfold submitQuiz. rewrite Hactive, Hidle, Hsummary, Hanswers, Hheap.
  destruct (activeQuiz (ui w2)) as [quiz|]; [| done].
  destruct (isSubmitting (ui w2)); [done |].
  destruct (le _ _); [done |].
  destruct (_ && negb (confirmed env)); [done |].
  destruct (gradeSubmission (reply env)) as [gradingData raised].
  destruct (storeAccepts env); [| done].
  cbn [store]. rewrite Hstore. do 2 f_equal.
  unfold submissionDoc. by rewrite Hclass.
Qed.

(** X3: when the store does not take the write, nothing is lost: the store,
    the answers object and its contents, the active quiz and the summary are
    as before, the submitting flag is as before, and submitting again does to
    the store what it would have done the first time. *)
Theorem failed_save_can_be_retried (user : User) (env retry : SubmitEnv)
    (w : World) :
  storeAccepts env = false →
  let w1 := submitQuiz user env w in
  store w1 = store w ∧ heap w1 = heap w
  ∧ studentAnswers (ui w1) = studentAnswers (ui w)
  ∧ activeQuiz (ui w1) = activeQuiz (ui w)
  ∧ submissionSummary (ui w1) = submissionSummary (ui w)
  ∧ isSubmitting (ui w1) = isSubmitting (ui w)
  ∧ store (submitQuiz user retry w1) = store (submitQuiz user retry w).
Proof.
  intros Hstore w1.
  assert (store w1 = store w ∧ heap w1 = heap w
          ∧ studentAnswers (ui w1) = studentAnswers (ui w)
          ∧ activeQuiz (ui w1) = activeQuiz (ui w)
          ∧ submissionSummary (ui w1) = submissionSummary (ui w)
          ∧ isSubmitting (ui w1) = isSubmitting (ui w)
          ∧ selectedClassName (ui w1) = selectedClassName (ui w))
    as (H1 & H2 & H3 & H4 & H5 & H6 & H7).
  { subst w1. unfold submitQuiz.
    destruct (activeQuiz (ui w)) as [quiz|] eqn:Hactive; [| done].
    destruct (isSubmitting (ui w)) eqn:Hidle; [done |].
    destruct (le _ _); [done |].
    destruct (_ && negb (confirmed env)); [done |].
    destruct (gradeSubmission (reply env)) as [gradingData raised].
    rewrite Hstore. by cbn. }
  split_and!; try done. by apply submitQuiz_store_ext.
Qed.

End SubmitRetry.

Section SubmitRetryWitness.
Import AiService StudentView Samples.

Lemma failed_save_can_be_retried_witness :
  let env := {| confirmed := true; reply := NoReply; storeAccepts := false;
                now := "2024-03-02T10:00:00.000Z" |} in
  let w := taking (quiz_with (lit 2)) {[ "q1" := "x = 5" ]} in
  let w1 := submitQuiz student env w in
  store w1 = store w ∧ heap w1 = heap w
  ∧ studentAnswers (ui w1) = studentAnswers (ui w)
  ∧ activeQuiz (ui w1) = activeQuiz (ui w)
  ∧ submissionSummary (ui w1) = submissionSummary (ui w)
  ∧ isSubmitting (ui w1) = isSubmitting (ui w)
  ∧ store (submitQuiz student grading_succeeds w1)
    = store (submitQuiz student grading_succeeds w).
Proof.
  apply (failed_save_can_be_retried student
           {| confirmed := true; reply := NoReply; storeAccepts := false;
              now := "2024-03-02T10:00:00.000Z" |}
           grading_succeeds
           (taking (quiz_with (lit 2)) {[ "q1" := "x = 5" ]})).
  reflexivity.
Defined.

End SubmitRetryWitness.

(** ** Answering *)

Section Answering.
Import StudentView StudentFlow.

Lemma current_handleAnswerChange (q v : string) (w : World) :
  current (handleAnswerChange q v w) = <[q := v]> (current w).
Proof. by destruct (handleAnswerChange_spec q v w) as [H _]. Qed.

Lemma current_answerChanges (changes : list (string * string)) (w : World) :
  current (answerChanges changes w) = applyChanges changes (current w).
Proof.
  unfold answerChanges, applyChanges. revert w.
  induction changes as [|[q v] changes IH]; intros w; simpl; [done |].
  by rewrite IH, current_handleAnswerChange.
Qed.

(** X4: the answers of an attempt are the answers it started from, overridden
    by the student's changes in their order: after a run of changes, the
    answer to the question changed last is the value given last, and the
    answers to the other questions are as the earlier changes left them. *)
Theorem answer_changes_last_wins (changes : list (string * string))
    (q v : string) (w : World) :
  let before := answerChanges changes w in
  let after := answerChanges (changes ++ [(q, v)]) w in
  current after !! q = Some v
  ∧ (∀ q', q' ≠ q → current after !! q' = current before !! q')
  ∧ current after = applyChanges (changes ++ [(q, v)]) (current w)
  ∧ (∀ q', (∀ change, change ∈ changes ++ [(q, v)] → change.1 ≠ q') →
           current after !! q' = current w !! q').
Proof.
  intros before after.
  assert (current after = <[q := v]> (current before)) as Hafter.
  { subst after before. unfold answerChanges. rewrite foldl_app. simpl.
    apply current_handleAnswerChange. }
  split_and!.
  - by rewrite Hafter, lookup_insert_eq.
  - intros q' Hne. by rewrite Hafter, lookup_insert_ne.
  - apply current_answerChanges.
  - intros q' Hnone. subst after. rewrite current_answerChanges.
    generalize dependent (current w). clear -Hnone.
    induction (changes ++ [(q, v)]) as [|[k x] l IH]; intros a; [done |].
    unfold applyChanges in *. simpl. rewrite IH.
    + apply lookup_insert_ne. apply (Hnone (k, x)). by left.
    + intros change Hin. apply Hnone. by right.
Qed.

(** What one answer adds to the count of answered questions. *)
Lemma answeredCount_insert (q v : string) (a : Answers) :
  answeredCount (<[q := v]> a)
  = ((if is_blank v then 0 else 1) + answeredCount (delete q a))%nat.
Proof.
  unfold answeredCount.
  rewrite <- (insert_delete_eq a q v).
  rewrite (map_to_list_insert (delete q a) q v) by apply lookup_delete_eq.
  rewrite filter_cons.
  destruct (decide (is_blank (q, v).2 = false)) as [Hv | Hv]; simpl in Hv.
  - by rewrite Hv.
  - apply not_false_is_true in Hv. by rewrite Hv.
Qed.

(** X5: blank answers do not count as answered, and an incomplete
    submission needs the student's confirmation.  Setting the answer of a
    question to white space only leaves it out of the count of answered
    questions, and setting it to anything else counts it once; when fewer
    questions are answered than the active quiz has and the student declines
    to submit anyway, [submitQuiz] changes nothing: no document is written,
    no alert raised and the answers stay as they are. *)
Theorem unanswered_submission_needs_confirmation (user : User)
    (env : SubmitEnv) (w : World) (quiz : Quiz) :
  activeQuiz (ui w) = Some quiz →
  confirmed env = false →
  (answeredCount (current w) < length (default [] (questions quiz)))%nat →
  (submitQuiz user env w = w
   ∨ submitQuiz user env w = alert "Attempt limit reached for this quiz." w)
  ∧ store (submitQuiz user env w) = store w
  ∧ current (submitQuiz user env w) = current w
  ∧ ∀ q v,
      answeredCount (<[q := v]> (current w))
      = ((if is_blank v then 0 else 1)
         + answeredCount (delete q (current w)))%nat.
Proof.
  intros Hactive Hdeclined Hfew.
  assert (submitQuiz user env w = w
          ∨ submitQuiz user env w
            = alert "Attempt limit reached for this quiz." w) as Hcases.
  { unfold submitQuiz. rewrite Hactive.
    destruct (isSubmitting (ui w)); [by left |].
    destruct (le _ _); [by right |].
    apply Nat.ltb_lt in Hfew. unfold current in Hfew.
    rewrite Hfew, Hdeclined. by left. }
  split_and!; [done | | | intros q v; apply answeredCount_insert];
    by destruct Hcases as [-> | ->].
Qed.

End Answering.

Section AnsweringWitness.
Import AiService StudentView StudentFlow Samples.

Lemma unanswered_submission_needs_confirmation_witness :
  let env := {| confirmed := false; reply := NoReply; storeAccepts := true;
                now := "2024-03-02T10:00:00.000Z" |} in
  let w := taking (quiz_with (lit 2)) {[ "q1" := "   " ]} in
  answeredCount (current w) = 0%nat
  ∧ store (submitQuiz student env w) = store w.
Proof.
  split; [by vm_compute |].
  exact (proj1 (proj2
           (unanswered_submission_needs_confirmation student
              {| confirmed := false; reply := NoReply; storeAccepts := true;
                 now := "2024-03-02T10:00:00.000Z" |}
              (taking (quiz_with (lit 2)) {[ "q1" := "   " ]})
              (quiz_with (lit 2)) eq_refl eq_refl
              ltac:(apply Nat.ltb_lt; by vm_compute)))).
Defined.

End AnsweringWitness.

(** ** The grading proxy: the candidates and the model's answer *)

Section Candidates.
Import GradeProxy ProxyFlow.
Variable generateContent : string → string → ModelOutcome.
Variable prompt : string.

Lemma tryModels_skips (skipped rest : list string)
    (lastError : option ModelError) :
  Forall (not_found generateContent prompt) skipped →
  ∃ lastError',
    tryModels generateContent prompt (skipped ++ rest) lastError
    = tryModels generateContent prompt rest lastError'
    ∧ (skipped = [] → lastError' = lastError)
    ∧ (∀ modelName, last skipped = Some modelName →
         ∃ e, generateContent modelName prompt = Rejected e
              ∧ lastError' = Some e).
Proof.
  intros Hskipped. revert lastError.
  induction Hskipped as [|modelName skipped (e & He & Hnf) _ IH];
    intros lastError.
  - exists lastError. split_and!; [done | done |]. by intros ? [=].
  - destruct (IH (Some e)) as (lastError' & Heq & Hnil & Hlast).
    exists lastError'. simpl. rewrite He, Hnf. split_and!; [done | done |].
    intros modelName' Hl. destruct skipped as [|s skipped].
    + injection Hl as <-. exists e. split; [done |]. by apply Hnil.
    + apply Hlast. exact Hl.
Qed.

End Candidates.

Section CandidatesPolicy.
Import GradeProxy ProxyFlow.

(** X6: the loop over the model candidates moves on to the next candidate
    only past a candidate that is reported as not found.  The first candidate
    that generates a text ends the loop with that text; a candidate rejected
    for any other reason ends it with that rejection, whatever the later
    candidates would do; and when every candidate is not found the loop ends
    without a text and with the last rejection.  The candidates are the
    configured model and [gemini-2.0-flash], each once. *)
Theorem model_fallback_policy (generateContent : string → string → ModelOutcome)
    (prompt : string) (skipped later : list string) (modelName : string) :
  Forall (not_found generateContent prompt) skipped →
  (∀ text, generateContent modelName prompt = Generated text →
     ∃ lastError,
       tryModels generateContent prompt (skipped ++ modelName :: later) None
       = inr (text, modelName, lastError))
  ∧ (∀ e, generateContent modelName prompt = Rejected e →
          isNotFound e = false →
          ∀ other : string → string → ModelOutcome,
            (∀ n, n ∈ skipped ++ [modelName] →
                  other n prompt = generateContent n prompt) →
            tryModels other prompt (skipped ++ modelName :: later) None
            = inl (Upstream e))
  ∧ (∃ lastError,
       tryModels generateContent prompt skipped None
       = inr (EmptyString, EmptyString, lastError)
       ∧ ∀ n, last skipped = Some n →
              ∃ e, generateContent n prompt = Rejected e ∧ lastError = Some e)
  ∧ ∀ env,
      NoDup (modelCandidates env)
      ∧ last (modelCandidates env) = Some "gemini-2.0-flash"
      ∧ head (modelCandidates env)
        = Some (if str_truthy (GEMINI_MODEL env)
                then str_or_empty (GEMINI_MODEL env)
                else "gemini-2.0-flash-lite").
Proof.
  intros Hskipped. split_and!.
  - intros text Htext.
    destruct (tryModels_skips generateContent prompt skipped
                (modelName :: later) None Hskipped) as (lastError & -> & _).
    exists lastError. simpl. by rewrite Htext.
  - intros e He Hnf other Hother.
    assert (Forall (not_found other prompt) skipped) as Hskipped'.
    { rewrite Forall_forall in Hskipped |- *. intros n Hn.
      destruct (Hskipped n Hn) as (e' & He' & Hnf'). exists e'.
      split; [| done]. rewrite Hother; [done |]. apply elem_of_app. by left. }
    destruct (tryModels_skips other prompt skipped (modelName :: later) None
                Hskipped') as (lastError & -> & _).
    simpl. rewrite Hother by (apply elem_of_app; right; by left).
    by rewrite He, Hnf.
  - destruct (tryModels_skips generateContent prompt skipped [] None Hskipped)
      as (lastError & Heq & _ & Hlast).
    exists lastError. rewrite app_nil_r in Heq. by rewrite Heq.
  - intros env. unfold modelCandidates.
    destruct (String.eqb_spec
                (if str_truthy (GEMINI_MODEL env)
                 then str_or_empty (GEMINI_MODEL env)
                 else "gemini-2.0-flash-lite") "gemini-2.0-flash") as [-> | Hne].
    + split_and!; [| done | done]. apply NoDup_singleton.
    + split_and!; [| done | done].
      apply NoDup_cons. split; [| apply NoDup_singleton].
      intros Hin. by apply list_elem_of_singleton in Hin.
Qed.

End CandidatesPolicy.

Section CandidatesWitness.
Import GradeProxy ProxyFlow Scenarios.

Lemma model_fallback_policy_witness :
  Forall (not_found lite_is_gone "p") ["gemini-2.0-flash-lite"]
  ∧ ∃ lastError,
      tryModels lite_is_gone "p" (modelCandidates Samples.configured) None
      = inr (Samples.model_answer, "gemini-2.0-flash", lastError).
Proof.
  assert (Forall (not_found lite_is_gone "p") ["gemini-2.0-flash-lite"])
    as Hgone.
  { constructor; [| constructor].
    eexists. split; [reflexivity | reflexivity]. }
  split; [exact Hgone |].
  exact (proj1 (model_fallback_policy lite_is_gone "p"
                  ["gemini-2.0-flash-lite"] [] "gemini-2.0-flash" Hgone)
           Samples.model_answer eq_refl).
Defined.

End CandidatesWitness.

(** ** The grading proxy: what a success response carries *)

Section Outcome.
Import GradeProxy.
Context {J : Type}.
Variable JSON_parse : string → option J.
Variable destructure : J → option Request.
Variable has_evaluations : J → bool.
Variable generateContent : string → string → ModelOutcome.

Lemma tryModels_generated (prompt : string) (candidates : list string)
    (lastError lastError' : option ModelError) (text usedModel : string) :
  tryModels generateContent prompt candidates lastError
  = inr (text, usedModel, lastError') →
  text ≠ EmptyString →
  usedModel ∈ candidates ∧ generateContent usedModel prompt = Generated text.
Proof.
  revert lastError. induction candidates as [|modelName rest IH];
    intros lastError Hrun Htext; simpl in Hrun.
  - injection Hrun as <- _ _. done.
  - destruct (generateContent modelName prompt) as [text'|e] eqn:Hcall.
    + injection Hrun as -> -> _. split; [by left | done].
    + destruct (isNotFound e); [| done].
      destruct (IH _ Hrun Htext) as [Hin Hgen]. split; [by right | done].
Qed.

(** Refutes a success that the run of the [try] block at hand excludes. *)
Ltac refute_success Hrequest Hprompt Hrun :=
  let Hr := fresh in
  let Hp := fresh in
  let Ht := fresh in
  let Hrun' := fresh in
  let Hc := fresh in
  let Hs := fresh in
  intros (_ & _ & ? & ? & ? & ? & ? & ? & [= <-] & Hr & Hp & _ & _ & Ht
          & [? Hrun'] & Hc & Hs & _);
  rewrite Hrequest in Hr; injection Hr as <-;
  rewrite Hprompt in Hp; injection Hp as <-;
  rewrite Hrun in Hrun'; injection Hrun' as <- <- _;
  congruence.

(** X7: the handler answers with status 200, 405 or 500 and nothing else, and
    with 200 exactly when the API key is configured, the method is POST, the
    body parses to a request with a prompt, one of the model candidates
    generated a non-empty text for that prompt, and the object cut out of
    that text parses to a value with evaluations; the body of the response is
    then that value. *)
Theorem success_carries_model_evaluations (env : Env) (event : Event) :
  let response :=
    handler JSON_parse destructure has_evaluations generateContent env event in
  (statusCode response = 200 ∨ statusCode response = 405
   ∨ statusCode response = 500)
  ∧ (statusCode response = 200 ↔
     str_truthy (GEMINI_API_KEY env) = true
     ∧ httpMethod event = "POST"
     ∧ ∃ data request prompt usedModel text parsedData,
         JSON_parse (default "null" (body event)) = Some data
         ∧ destructure data = Some request
         ∧ buildPrompt request = Some prompt
         ∧ usedModel ∈ modelCandidates env
         ∧ generateContent usedModel prompt = Generated text
         ∧ text ≠ EmptyString
         ∧ (∃ lastError,
              tryModels generateContent prompt (modelCandidates env) None
              = inr (text, usedModel, lastError))
         ∧ cleanJson JSON_parse text = inr (Some parsedData)
         ∧ has_evaluations parsedData = true
         ∧ response_body response = Stringified parsedData).
Proof.
  intros response. subst response. unfold handler.
  destruct (str_truthy (GEMINI_API_KEY env)) eqn:Hkey; simpl;
    [| split; [tauto | split; [done | by intros [? _]]]].
  destruct (String.eqb_spec (httpMethod event) "POST") as [Hpost | Hpost];
    simpl; [| split; [tauto | split; [done | tauto]]].
  split; [destruct (grade _ _ _ _ env event); simpl; tauto |].
  unfold grade.
  destruct (JSON_parse (default "null" (body event))) as [data|] eqn:Hparse;
    simpl;
    [| split; [done | by intros (_ & _ & ? & ? & ? & ? & ? & ? & ? & _)]].
  destruct (destructure data) as [request|] eqn:Hrequest; simpl;
    [| split; [done |];
       intros (_ & _ & ? & ? & ? & ? & ? & ? & [= <-] & Hr & _); congruence].
  destruct (buildPrompt request) as [prompt|] eqn:Hprompt; simpl.
  2: { split; [done |].
       intros (_ & _ & ? & ? & ? & ? & ? & ? & [= <-] & Hr & Hp & _).
       congruence. }
  destruct (tryModels generateContent prompt (modelCandidates env) None)
    as [e | [[text usedModel] lastError]] eqn:Hrun; simpl.
  { split; [done |].
    intros (_ & _ & ? & ? & ? & ? & ? & ? & [= <-] & Hr & Hp & _ & _ & _
            & [? Hrun'] & _).
    congruence. }
  destruct (String.eqb_spec text EmptyString) as [Hempty | Hfull]; simpl.
  { split; [done |]. refute_success Hrequest Hprompt Hrun. }
  destruct (tryModels_generated _ _ _ _ _ _ Hrun Hfull) as [Hin Hgen].
  destruct (cleanJson JSON_parse text) as [e | [parsedData|]] eqn:Hclean;
    simpl.
  - split; [done |]. refute_success Hrequest Hprompt Hrun.
  - destruct (has_evaluations parsedData) eqn:Hshape; simpl.
    + split; [| done]. intros _. split_and!; [done | done |].
      exists data, request, prompt, usedModel, text, parsedData.
      split_and!; try done. by exists lastError.
    + split; [done |]. refute_success Hrequest Hprompt Hrun.
  - split; [done |]. refute_success Hrequest Hprompt Hrun.
Qed.

End Outcome.

(** ** The grading proxy: cutting the object out of the model's text *)

Section CleanJson.
Import GradeProxy.
Context {J : Type}.
Variable JSON_parse : string → option J.

Lemma strip_fences_plain (s rest : list ascii) :
  "`"%char ∉ s → strip_fences 0 (s ++ rest) = s ++ strip_fences 0 rest.
Proof.
  induction s as [|c s IH]; intros Hs; [done |].
  apply not_elem_of_cons in Hs as [Hc Hs].
  assert (Ascii.eqb "`" c = false) as Hne by (apply Ascii.eqb_neq; congruence).
  change (strip_fences 0 ((c :: s) ++ rest))
    with (if starts_with ("`"%char :: list_ascii_of_string "``json")
               (c :: s ++ rest)
          then strip_fences 6 (s ++ rest)
          else if starts_with ("`"%char :: list_ascii_of_string "``")
                    (c :: s ++ rest)
               then strip_fences 2 (s ++ rest)
               else c :: strip_fences 0 (s ++ rest)).
  change (starts_with ("`"%char :: ?p) (c :: ?x))
    with (Ascii.eqb "`" c && starts_with p x).
  rewrite Hne. simpl. by rewrite IH.
Qed.

Lemma strip_fences_sub (skip : nat) (s : list ascii) (c : ascii) :
  c ∈ strip_fences skip s → c ∈ s.
Proof.
  revert skip. induction s as [|d s IH]; intros skip; [done |].
  cbn -[starts_with list_ascii_of_string]. destruct skip as [|k].
  - destruct (starts_with _ _); [intros ?%IH; by right |].
    destruct (starts_with _ _); [intros ?%IH; by right |].
    intros [-> | ?%IH]%elem_of_cons; [by left | by right].
  - intros ?%IH. by right.
Qed.

Lemma indexOf_None (c : ascii) (s : list ascii) : c ∉ s → indexOf c s = None.
Proof.
  induction s as [|d s IH]; [done |].
  intros [Hd Hs]%not_elem_of_cons. simpl.
  apply Ascii.eqb_neq in Hd. rewrite Hd. by rewrite IH.
Qed.

Lemma indexOf_first (c : ascii) (s rest : list ascii) :
  c ∉ s → indexOf c (s ++ c :: rest) = Some (length s).
Proof.
  induction s as [|d s IH]; simpl.
  - intros _. by rewrite Ascii.eqb_refl.
  - intros [Hd Hs]%not_elem_of_cons.
    apply Ascii.eqb_neq in Hd. rewrite Hd. by rewrite IH.
Qed.

Lemma lastIndexOf_last (c : ascii) (s rest : list ascii) :
  c ∉ rest → lastIndexOf c (s ++ c :: rest) = Some (length s).
Proof.
  intros Hrest. unfold lastIndexOf.
  rewrite rev_app_distr. simpl. rewrite <- app_assoc. simpl.
  rewrite indexOf_first
    by (intros Hin; apply Hrest; by apply list_elem_of_In, in_rev, list_elem_of_In).
  simpl. f_equal. rewrite length_rev, length_app. simpl. lia.
Qed.

(** X8: a model text that holds one object, alone or inside a json fence, is
    read as that object: the fence is dropped, what precedes the first
    opening brace and follows the last closing brace is cut away, and the
    rest is handed to the JSON parser.  A text without an opening brace is
    read as null without consulting the parser. *)
Theorem cleanJson_unwraps (fenced : bool) (before mid after : list ascii) :
  "`"%char ∉ before ++ mid ++ after →
  "{"%char ∉ before →
  "}"%char ∉ after →
  let object := "{"%char :: mid ++ ["}"%char] in
  let answer := before ++ object ++ after in
  let text :=
    if fenced
    then list_ascii_of_string "```json" ++ answer ++ list_ascii_of_string "```"
    else answer in
  cleanJson JSON_parse (string_of_list_ascii text)
  = (data ← orThrow SyntaxError (JSON_parse (string_of_list_ascii object));
     mret (Some data))
  ∧ cleanJson JSON_parse (string_of_list_ascii before) = inr None.
Proof.
  intros Htick Hopen Hclose object answer text. split.
  - assert (strip_fences 0 text = answer) as Hstrip.
    { assert ("`"%char ∉ answer) as Hanswer.
      { subst answer object. rewrite !not_elem_of_app in Htick.
        destruct Htick as (? & ? & ?).
        rewrite !not_elem_of_app, !not_elem_of_cons, !not_elem_of_app.
        rewrite not_elem_of_cons. split_and!; try done. apply not_elem_of_nil. }
      subst text. destruct fenced.
      - change (strip_fences 0 (list_ascii_of_string "```json" ++ ?s))
          with (strip_fences 0 s).
        rewrite strip_fences_plain by done. apply app_nil_r.
      - rewrite <- (app_nil_r answer) at 1.
        rewrite strip_fences_plain by done. apply app_nil_r. }
    unfold cleanJson. rewrite list_ascii_of_string_of_list_ascii, Hstrip.
    assert (answer = before ++ "{"%char :: (mid ++ "}"%char :: after))
      as Hfirst by (subst answer object; simpl; by rewrite <- app_assoc).
    assert (answer = (before ++ "{"%char :: mid) ++ "}"%char :: after)
      as Hlast by (rewrite Hfirst; by rewrite <- app_assoc).
    rewrite Hfirst at 1. rewrite indexOf_first by done.
    rewrite Hlast at 1. rewrite lastIndexOf_last by done.
    replace (substring_between (length before)
               (length (before ++ "{"%char :: mid) + 1) answer)
      with object; [done |].
    unfold substring_between. rewrite length_app. simpl.
    rewrite Nat.min_l, Nat.max_r by lia.
    subst answer. rewrite drop_app_length.
    replace (length before + S (length mid) + 1 - length before)%nat
      with (length object)
      by (subst object; simpl; rewrite length_app; simpl; lia).
    by rewrite take_app_length.
  - unfold cleanJson. rewrite list_ascii_of_string_of_list_ascii.
    rewrite indexOf_None; [done |].
    intros Hin%strip_fences_sub. done.
Qed.

End CleanJson.

Section CleanJsonWitness.
Import GradeProxy Samples Scenarios.

Lemma cleanJson_unwraps_witness :
  ("`"%char ∉ [" "%char] ++ answer_inside ++ [" "%char])
  ∧ cleanJson host_parse
      (string_of_list_ascii
         (list_ascii_of_string "```json"
          ++ ([" "%char] ++ ("{"%char :: answer_inside ++ ["}"%char])
              ++ [" "%char])
          ++ list_ascii_of_string "```"))
    = inr (Some (GradeJson
                   {[ "q1" := {| isCorrect := true; feedback := "Correct." |} ]})).
Proof.
  assert ("`"%char ∉ [" "%char] ++ answer_inside ++ [" "%char]) as Htick
    by (apply (bool_decide_unpack _); vm_compute; exact I).
  assert ("{"%char ∉ [" "%char]) as Hopen
    by (apply (bool_decide_unpack _); vm_compute; exact I).
  assert ("}"%char ∉ [" "%char]) as Hclose
    by (apply (bool_decide_unpack _); vm_compute; exact I).
  split; [exact Htick |].
  rewrite (proj1 (cleanJson_unwraps host_parse true [" "%char] answer_inside
                    [" "%char] Htick Hopen Hclose)).
  by vm_compute.
Defined.

End CleanJsonWitness.

(** ** Teacher access *)

Section Emails.
Import TeacherAccess.

Lemma toLowerCase_idempotent (c : ascii) :
  toLowerCase (toLowerCase c) = toLowerCase c.
Proof. by destruct c as [[] [] [] [] [] [] [] []]. Qed.

Lemma is_space_toLowerCase (c : ascii) : is_space (toLowerCase c) = is_space c.
Proof. by destruct c as [[] [] [] [] [] [] [] []]. Qed.

Lemma trim_left_black (s : list ascii) : starts_black (trim_left s).
Proof.
  induction s as [|c s IH]; [done |]. simpl.
  destruct (is_space c) eqn:Hc; [done | exact Hc].
Qed.

Lemma trim_left_fixed (s : list ascii) : starts_black s → trim_left s = s.
Proof. destruct s as [|c s]; [done |]. simpl. by intros ->. Qed.

Lemma trim_left_suffix (s : list ascii) : ∃ p, s = p ++ trim_left s.
Proof.
  induction s as [|c s [p IH]]; [by exists [] |]. simpl.
  destruct (is_space c); [| by exists []].
  exists (c :: p). simpl. by rewrite <- IH.
Qed.

Lemma trim_idempotent (s : list ascii) : trim (trim s) = trim s.
Proof.
  unfold trim at 2 3.
  pose proof (trim_left_black s) as Hblack.
  destruct (trim_left_suffix (rev (trim_left s))) as [p Hp].
  set (u := trim_left (rev (trim_left s))) in *.
  assert (starts_black (rev u)) as Hu.
  { assert (trim_left s = rev u ++ rev p) as Ht
      by (by rewrite <- rev_app_distr, <- Hp, rev_involutive).
    rewrite Ht in Hblack. by destruct (rev u). }
  unfold trim. rewrite (trim_left_fixed (rev u)) by done.
  rewrite rev_involutive. subst u.
  by rewrite (trim_left_fixed (trim_left _)) by apply trim_left_black.
Qed.

Lemma fmap_rev {A B} (f : A → B) (l : list A) : f <$> rev l = rev (f <$> l).
Proof.
  induction l as [|x l IH]; [done |]. simpl. by rewrite fmap_app, IH.
Qed.

Lemma trim_left_toLowerCase (s : list ascii) :
  trim_left (toLowerCase <$> s) = toLowerCase <$> trim_left s.
Proof.
  induction s as [|c s IH]; [done |]. simpl.
  rewrite is_space_toLowerCase. by destruct (is_space c).
Qed.

Lemma trim_toLowerCase (s : list ascii) :
  trim (toLowerCase <$> s) = toLowerCase <$> trim s.
Proof.
  unfold trim. by rewrite trim_left_toLowerCase, <- fmap_rev,
    trim_left_toLowerCase, <- fmap_rev.
Qed.

Lemma normalizeEmail_fixed (email : option string) :
  normalizeEmail (Some (normalizeEmail email)) = normalizeEmail email.
Proof.
  unfold normalizeEmail. simpl.
  rewrite list_ascii_of_string_of_list_ascii.
  rewrite trim_toLowerCase, trim_idempotent. f_equal.
  rewrite <- list_fmap_compose. apply list_fmap_ext.
  intros _ c _. apply toLowerCase_idempotent.
Qed.

(** X9: a normalized email is in normal form: it neither begins nor ends
    with white space, lower-casing leaves each of its characters as it is,
    and normalizing it again gives it back, so an address that was stored
    normalized is found again under the same key. *)
Theorem normalizeEmail_normal_form (email : option string) :
  let normalized := list_ascii_of_string (normalizeEmail email) in
  trim normalized = normalized
  ∧ starts_black normalized
  ∧ starts_black (rev normalized)
  ∧ (∀ c, c ∈ normalized → toLowerCase c = c)
  ∧ normalizeEmail (Some (normalizeEmail email)) = normalizeEmail email.
Proof.
  intros normalized. subst normalized. unfold normalizeEmail at 1 2 3 4 5.
  rewrite list_ascii_of_string_of_list_ascii.
  rewrite <- trim_toLowerCase.
  set (s := toLowerCase <$> list_ascii_of_string (str_or_empty email)).
  split_and!.
  - apply trim_idempotent.
  - rewrite <- trim_idempotent. unfold trim at 1.
    destruct (trim_left_suffix (rev (trim_left (trim s)))) as [p Hp].
    pose proof (trim_left_black (trim s)) as Hblack.
    assert (trim_left (trim s)
            = rev (trim_left (rev (trim_left (trim s)))) ++ rev p) as Ht
      by (by rewrite <- rev_app_distr, <- Hp, rev_involutive).
    rewrite Ht in Hblack.
    by destruct (rev (trim_left (rev (trim_left (trim s))))).
  - unfold trim. rewrite rev_involutive. apply trim_left_black.
  - subst s. rewrite trim_toLowerCase.
    intros c (d & -> & _)%list_elem_of_fmap.
    apply toLowerCase_idempotent.
  - apply normalizeEmail_fixed.
Qed.

End Emails.

Section TeacherList.
Import TeacherAccess.

Lemma dedupe_fold (xs seen : list string) :
  let result :=
    foldl (λ seen x, if bool_decide (x ∈ seen) then seen else seen ++ [x])
      seen xs in
  (NoDup seen → NoDup result) ∧ ∀ x, x ∈ result ↔ x ∈ seen ∨ x ∈ xs.
Proof.
  revert seen. induction xs as [|y xs IH]; intros seen; simpl.
  - split; [done |]. intros x. rewrite elem_of_nil. tauto.
  - destruct (IH (if bool_decide (y ∈ seen) then seen else seen ++ [y]))
      as [Hnodup Hin].
    split.
    + intros Hseen. apply Hnodup. case_bool_decide as Hy; [done |].
      apply NoDup_app. split_and!; [done | | apply NoDup_singleton].
      intros x Hx ->%list_elem_of_singleton. done.
    + intros x. rewrite Hin, elem_of_cons. case_bool_decide as Hy.
      * split; [tauto |]. intros [? | [-> | ?]]; tauto.
      * rewrite elem_of_app, list_elem_of_singleton. tauto.
Qed.

Lemma parsedTeacherEmails_elem (cfg : Config) (e : string) :
  e ∈ parsedTeacherEmails cfg ↔
  e ≠ EmptyString
  ∧ (e = PRIMARY_TEACHER_EMAIL cfg
     ∨ ∃ piece,
         piece ∈ split "," (list_ascii_of_string
                              (str_or_empty (VITE_TEACHER_EMAILS cfg)))
         ∧ normalizeEmail (Some (string_of_list_ascii piece)) = e).
Proof.
  unfold parsedTeacherEmails, dedupe.
  rewrite (proj2 (dedupe_fold _ [])), elem_of_nil.
  destruct (String.eqb_spec (PRIMARY_TEACHER_EMAIL cfg) EmptyString)
    as [Hnone | Hsome].
  - rewrite list_elem_of_filter, list_elem_of_fmap. split.
    + intros [? | [? (piece & -> & ?)]]; [done |]. split; [done |]. eauto.
    + intros [? [-> | (piece & ? & <-)]]; [congruence |]. right. eauto.
  - rewrite elem_of_app, list_elem_of_filter, list_elem_of_fmap,
      list_elem_of_singleton.
    split.
    + intros [? | [[? (piece & -> & ?)] | ->]]; [done | | tauto].
      split; [done |]. eauto.
    + intros [? [-> | (piece & ? & <-)]]; [tauto |]. right. left. eauto.
Qed.

(** X10: the configured teacher list holds each address once, holds no empty
    address, holds the primary teacher's address whenever one is configured,
    and otherwise exactly the normalized non-empty pieces of the
    comma-separated list; every address in it is in normal form. *)
Theorem parsedTeacherEmails_spec (cfg : Config) :
  NoDup (parsedTeacherEmails cfg)
  ∧ (∀ e, e ∈ parsedTeacherEmails cfg ↔
          e ≠ EmptyString
          ∧ (e = PRIMARY_TEACHER_EMAIL cfg
             ∨ ∃ piece,
                 piece ∈ split "," (list_ascii_of_string
                                      (str_or_empty (VITE_TEACHER_EMAILS cfg)))
                 ∧ normalizeEmail (Some (string_of_list_ascii piece)) = e))
  ∧ (∀ e, e ∈ parsedTeacherEmails cfg → normalizeEmail (Some e) = e)
  ∧ (PRIMARY_TEACHER_EMAIL cfg ≠ EmptyString →
     PRIMARY_TEACHER_EMAIL cfg ∈ parsedTeacherEmails cfg).
Proof.
  split_and!.
  - unfold parsedTeacherEmails, dedupe.
    apply (proj1 (dedupe_fold _ [])), NoDup_nil_2.
  - apply parsedTeacherEmails_elem.
  - intros e [_ [-> | (piece & _ & <-)]]%parsedTeacherEmails_elem;
      apply normalizeEmail_fixed.
  - intros Hprimary. apply parsedTeacherEmails_elem. tauto.
Qed.

End TeacherList.

Section Roles.
Import StudentView TeacherAccess.

Lemma configured_not_empty (cfg : Config) :
  configured_has cfg EmptyString = false.
Proof.
  unfold configured_has. apply bool_decide_eq_false.
  intros [? _]%parsedTeacherEmails_elem. done.
Qed.

Lemma statusAfter_invariant (cfg : Config) (db : bool)
    (history : list (option User * Delivery)) :
  status_email (statusAfter cfg db history) = EmptyString →
  status_isTeacher (statusAfter cfg db history) = false.
Proof.
  unfold statusAfter.
  assert (status_email initialStatus = EmptyString →
          status_isTeacher initialStatus = false) as Hinit by done.
  revert Hinit. generalize initialStatus.
  induction history as [|[user d] history IH]; intros s Hs; [done |].
  simpl. apply IH. unfold deliver.
  destruct (subscribes cfg db user) eqn:Hsub; [| done].
  simpl. intros Hempty. unfold subscribes in Hsub.
  rewrite Hempty in Hsub. simpl in Hsub.
  by rewrite andb_false_r in Hsub.
Qed.

(** X11: whatever sign-ins and allowlist answers came before, the role is
    decided for the email of the user at hand.  A user without an email is
    no teacher and is not waited for; the primary teacher is a teacher at
    once; while the answer for this email is awaited the user is no teacher;
    and an answer that was given for another email counts for nothing. *)
Theorem role_follows_current_email (cfg : Config) (db : bool)
    (history : list (option User * Delivery)) (user : option User) :
  let status := statusAfter cfg db history in
  let role := useTeacherRole cfg user status in
  let normalizedEmail := normalizeEmail (user ≫= email) in
  (normalizedEmail = EmptyString →
   isTeacher role = false ∧ isPrimaryTeacher role = false
   ∧ loading role = false)
  ∧ (isPrimaryTeacher role = true →
     isTeacher role = true ∧ loading role = false)
  ∧ (loading role = true → isTeacher role = false)
  ∧ (status_email status ≠ normalizedEmail →
     isTeacher role = configured_has cfg normalizedEmail).
Proof.
  intros status role normalizedEmail. subst role. unfold useTeacherRole.
  fold normalizedEmail. simpl. split_and!.
  - intros Hempty. rewrite Hempty, configured_not_empty. simpl.
    rewrite ?andb_false_r. split_and!; try done.
    destruct (String.eqb_spec (status_email status) EmptyString)
      as [Hs | Hs]; [| done].
    simpl. by apply statusAfter_invariant.
  - intros [Hne Hprimary]%andb_prop.
    apply String.eqb_eq in Hprimary.
    apply negb_true_iff, String.eqb_neq in Hne.
    assert (configured_has cfg normalizedEmail = true) as ->.
    { apply bool_decide_eq_true, parsedTeacherEmails_elem. tauto. }
    simpl. by rewrite andb_false_r.
  - intros [[_ Hconf]%andb_prop Hother]%andb_prop.
    apply negb_true_iff in Hconf, Hother. by rewrite Hconf, Hother.
  - intros Hother. apply String.eqb_neq in Hother. rewrite Hother.
    simpl. apply orb_false_r.
Qed.

(** X12: granting and withdrawing teacher access work on the normalized
    address.  Once the dashboard has stored an address that normalizes to a
    non-empty text with an at sign, a signed-in user whose email normalizes
    to the same text is a teacher as soon as the listener has seen the
    collection, however either address was spelled; and once any spelling of
    it has been removed, that user is a teacher only through the configured
    list. *)
Theorem granted_access_round_trip (cfg : Config) (teacher student : User)
    (now typed : string) (spelling : option string)
    (teacherEmails : TeacherEmails) (prior : AllowlistStatus) :
  let normalized := normalizeEmail (Some typed) in
  normalized ≠ EmptyString →
  GradeProxy.includes (list_ascii_of_string "@")
    (list_ascii_of_string normalized) = true →
  uid student ≠ EmptyString →
  normalizeEmail (email student) = normalized →
  normalizeEmail spelling = normalized →
  let granted := (addTeacherEmail teacher true now typed teacherEmails).1.1 in
  let withdrawn := (removeTeacherEmail true true spelling granted).1 in
  let role_in collection :=
    useTeacherRole cfg (Some student)
      (deliver cfg true (Some student) (snapshotOf collection (Some student))
         prior) in
  isTeacher (role_in granted) = true
  ∧ loading (role_in granted) = false
  ∧ isTeacher (role_in withdrawn) = configured_has cfg normalized
  ∧ loading (role_in withdrawn) = false.
Proof.
  intros normalized Hne Hat Huid Hstudent Hspelling granted withdrawn role_in.
  assert (granted
          = <[normalized := {| doc_email := normalized; addedAt := now;
                               addedBy := uid teacher |}]> teacherEmails)
    as Hgranted.
  { subst granted. unfold addTeacherEmail. fold normalized.
    apply String.eqb_neq in Hne. by rewrite Hne, Hat. }
  assert (withdrawn = delete normalized teacherEmails) as Hwithdrawn.
  { subst withdrawn. unfold removeTeacherEmail. simpl.
    rewrite Hspelling, Hgranted. by rewrite delete_insert_eq. }
  subst role_in. cbv beta. unfold useTeacherRole, deliver, subscribes, snapshotOf.
  simpl. rewrite Hstudent.
  apply String.eqb_neq in Hne, Huid. rewrite Hne, Huid. simpl.
  destruct (configured_has cfg normalized) eqn:Hconf; simpl.
  - done.
  - rewrite String.eqb_refl. simpl.
    rewrite Hgranted, Hwithdrawn, lookup_insert_eq, lookup_delete_eq.
    by split_and!.
Qed.

End Roles.

Section RolesWitness.
Import StudentView TeacherAccess.

Lemma granted_access_round_trip_witness :
  let cfg := {| VITE_TEACHER_EMAIL := Some "Head@School.org";
                VITE_TEACHER_EMAILS := None |} in
  let student := {| uid := "u2"; email := Some "BOB@school.org";
                    displayName := None |} in
  let granted :=
    (addTeacherEmail Samples.student true "2024-05-01T10:00:00.000Z"
       "  Bob@School.org " ∅).1.1 in
  let withdrawn :=
    (removeTeacherEmail true true (Some "bob@school.org") granted).1 in
  let role_in collection :=
    useTeacherRole cfg (Some student)
      (deliver cfg true (Some student) (snapshotOf collection (Some student))
         initialStatus) in
  isTeacher (role_in granted) = true
  ∧ loading (role_in granted) = false
  ∧ isTeacher (role_in withdrawn) = false
  ∧ loading (role_in withdrawn) = false.
Proof.
  refine (granted_access_round_trip
            {| VITE_TEACHER_EMAIL := Some "Head@School.org";
               VITE_TEACHER_EMAILS := None |}
            Samples.student
            {| uid := "u2"; email := Some "BOB@school.org";
               displayName := None |}
            "2024-05-01T10:00:00.000Z" "  Bob@School.org "
            (Some "bob@school.org") ∅ initialStatus _ _ _ _ _).
  - by vm_compute.
  - by vm_compute.
  - by vm_compute.
  - by vm_compute.
  - by vm_compute.
Defined.

End RolesWitness.

(** ** The dashboard: deleting an attempt *)

Section GiveBack.
Import Ledger StudentView Dashboard.







End GiveBack.

Section GiveBackWitness.
Import Ledger StudentView Dashboard Samples Scenarios.


End GiveBackWitness.

(** ** The dashboard: the feed of submissions *)

Section FeedFacts.
Import History Dashboard.
Variable Date_parse : string → num.

Lemma timed_inv (a : Row) :
  timed Date_parse a → ∃ t, getTime Date_parse a.2 = Fin t.
Proof.
  unfold timed. destruct (getTime Date_parse a.2) as [| | |t]; try done.
  by exists t.
Qed.

Lemma byTime_keep (a b : Row) :
  timed Date_parse a → timed Date_parse b →
  gt (byTime Date_parse a b) (Fin 0) = false → newer Date_parse a b.
Proof.
  intros [ta Ha]%timed_inv [tb Hb]%timed_inv. unfold byTime, newer.
  rewrite Ha, Hb. cbn [sub]. rewrite gt_Fin_false, ge_Fin. lra.
Qed.

Lemma byTime_swap (a b : Row) :
  timed Date_parse a → timed Date_parse b →
  gt (byTime Date_parse a b) (Fin 0) = true → newer Date_parse b a.
Proof.
  intros [ta Ha]%timed_inv [tb Hb]%timed_inv. unfold byTime, newer.
  rewrite Ha, Hb. cbn [sub]. rewrite gt_Fin, ge_Fin. lra.
Qed.

Lemma newer_trans (a b c : Row) :
  timed Date_parse a → timed Date_parse b → timed Date_parse c →
  newer Date_parse a b → newer Date_parse b c → newer Date_parse a c.
Proof.
  intros [ta Ha]%timed_inv [tb Hb]%timed_inv [tc Hc]%timed_inv.
  unfold newer. rewrite Ha, Hb, Hc, !ge_Fin. lra.
Qed.

Lemma map_set_keys {V} (key : string) (value : V) (m : list (string * V)) :
  (map_set key value m).*1
  = if bool_decide (key ∈ m.*1) then m.*1 else m.*1 ++ [key].
Proof.
  induction m as [|[k v] m IH]; [done |]. cbn [map_set].
  destruct (String.eqb_spec k key) as [-> | Hne]; rewrite !fmap_cons;
    cbn [fst].
  - rewrite bool_decide_eq_true_2; [done | by left].
  - rewrite IH. case_bool_decide as Hin.
    + rewrite bool_decide_eq_true_2; [done | by right].
    + rewrite bool_decide_eq_false_2; [done |].
      intros [? | ?]%elem_of_cons; congruence.
Qed.

Lemma map_set_values {V} (key : string) (value : V) (m : list (string * V)) :
  NoDup m.*1 →
  (map_set key value m).*2 ≡ₚ value :: (filter (λ kv, kv.1 ≠ key) m).*2.
Proof.
  induction m as [|[k v] m IH]; [done |].
  rewrite fmap_cons, NoDup_cons. intros [Hk Hm]. cbn [map_set].
  destruct (String.eqb_spec k key) as [-> | Hne]; rewrite !fmap_cons;
    cbn [fst snd] in *.
  - rewrite filter_cons_False by (simpl; tauto).
    assert (filter (λ kv : string * V, kv.1 ≠ key) m = m) as ->; [| done].
    clear IH Hm. induction m as [|[k' v'] m IH]; [done |].
    rewrite fmap_cons, not_elem_of_cons in Hk. destruct Hk as [Hk' Hk].
    rewrite filter_cons_True by (simpl in *; congruence). by rewrite IH.
  - rewrite filter_cons_True by done. rewrite fmap_cons, IH by done.
    apply Permutation_swap.
Qed.

(** X14: the feed of the dashboard.  When the listener of a quiz delivers
    its rows, they replace what the map held for that quiz and nothing else
    changes; the feed then holds every row of every quiz exactly once, and,
    the times being numbers, newest first. *)
Theorem feed_is_merged_newest_first (quizId : string) (rows : list Row)
    (submissionsByQuiz : list (string * list Row)) :
  NoDup submissionsByQuiz.*1 →
  let next := (onSubmissions Date_parse quizId rows submissionsByQuiz).1 in
  let merged := (onSubmissions Date_parse quizId rows submissionsByQuiz).2 in
  NoDup next.*1
  ∧ merged
    ≡ₚ rows ++ concat (filter (λ kv, kv.1 ≠ quizId) submissionsByQuiz).*2
  ∧ (Forall (timed Date_parse) merged →
     StronglySorted (newer Date_parse) merged).
Proof.
  intros Hkeys next merged. subst next merged. unfold onSubmissions. simpl.
  assert (emitMergedSubmissions Date_parse
            (map_set quizId rows submissionsByQuiz)
          ≡ₚ concat (map_set quizId rows submissionsByQuiz).*2) as Hperm
    by apply sort_perm.
  split_and!.
  - rewrite map_set_keys. case_bool_decide as Hin; [done |].
    apply NoDup_app. split_and!; [done | | apply NoDup_singleton].
    intros k Hk ->%list_elem_of_singleton. done.
  - rewrite Hperm, map_set_values by done. done.
  - intros Htimed. apply sort_sorted with (ok := timed Date_parse).
    + apply byTime_keep.
    + apply byTime_swap.
    + apply newer_trans.
    + by rewrite <- Hperm.
Qed.

End FeedFacts.

Section FeedWitness.
Import History Dashboard Samples.

Lemma feed_is_merged_newest_first_witness :
  let rows := [("s1", first_try); ("s2", second_try_a)] in
  let held := [("quiz-1", [("s1", first_try)]); ("quiz-2", [("s3", legacy_a)])] in
  let merged := (onSubmissions clock "quiz-1" rows held).2 in
  merged = [("s2", second_try_a); ("s1", first_try); ("s3", legacy_a)]
  ∧ StronglySorted (newer clock) merged.
Proof.
  assert (NoDup [("quiz-1", [("s1", first_try)]);
                 ("quiz-2", [("s3", legacy_a)])].*1) as Hkeys
    by (apply (bool_decide_unpack _); vm_compute; exact I).
  split; [by vm_compute |].
  apply (feed_is_merged_newest_first clock "quiz-1"
           [("s1", first_try); ("s2", second_try_a)] _ Hkeys).
  repeat constructor.
Defined.

End FeedWitness.

(** ** The dashboard: the saved quiz *)

Section SavedQuiz.
Import StudentView Dashboard.

Lemma or_str_truthy (a : option string) (b : string) :
  b ≠ EmptyString → str_truthy (Some (or_str a b)) = true.
Proof.
  intros Hb. unfold or_str. destruct a as [a|]; simpl.
  - destruct (String.eqb_spec a EmptyString) as [-> | Ha]; simpl.
    + by apply negb_true_iff, String.eqb_neq.
    + by apply negb_true_iff, String.eqb_neq.
  - by apply negb_true_iff, String.eqb_neq.
Qed.

Lemma or_str_fixed (a : string) (b : string) :
  str_truthy (Some a) = true → or_str (Some a) b = a.
Proof. unfold or_str. by intros ->. Qed.

Lemma payload_question (clock : nat → Z) (now : string) (quiz : Draft)
    (user : User) (i : nat) (q : Question) :
  p_questions (buildQuizPayload clock now quiz user) !! i = Some q →
  ∃ q0, default [] (questions (draft_quiz quiz)) !! i = Some q0
        ∧ q_id q = Some (or_str (q_id q0) (generatedId (clock i) i))
        ∧ str_truthy (q_id q) = true
        ∧ q_text q = Some (str_or_empty (q_text q0))
        ∧ showFeedback q = showFeedback q0.
Proof.
  unfold buildQuizPayload. cbn [p_questions].
  destruct (questions (draft_quiz quiz)) as [qs|]; [| done].
  rewrite list_lookup_imap. simpl.
  destruct (qs !! i) as [q0|]; [| done]. simpl. intros [= <-].
  exists q0. split_and!; try done. simpl. by apply or_str_truthy.
Qed.

(** X15: what the dashboard saves.  The payload keeps the questions of the
    editor in their order, each under a non-empty id (its own id, or a
    generated one when it has none) and with a text, so the fallback
    evaluations of the student view cover every question of a quiz saved
    this way; and saving the stored quiz again unchanged reproduces the
    payload, but for the time of the update and for a stored maximum of
    attempts that is not positive, which becomes 1. *)
Theorem saved_quiz_is_normalized (clock clock' : nat → Z) (now now' : string)
    (quiz : Draft) (user : User) (id : string) :
  let p := buildQuizPayload clock now quiz user in
  let saved := draft_quiz (stored id p) in
  length (p_questions p) = length (default [] (questions (draft_quiz quiz)))
  ∧ (∀ i q, p_questions p !! i = Some q →
       ∃ q0, default [] (questions (draft_quiz quiz)) !! i = Some q0
             ∧ str_truthy (q_id q) = true
             ∧ (str_truthy (q_id q0) = true → q_id q = q_id q0)
             ∧ (str_truthy (q_id q0) = false →
                q_id q = Some (generatedId (clock i) i))
             ∧ q_text q = Some (str_or_empty (q_text q0))
             ∧ showFeedback q = showFeedback q0)
  ∧ covers_every_question saved (buildFallbackEvaluations (Some saved))
  ∧ buildQuizPayload clock' now' (stored id p) user
    = {| p_title := p_title p;
         p_description := p_description p;
         p_isLocked := p_isLocked p;
         p_maxAttempts :=
           if gt (p_maxAttempts p) (Fin 0) then p_maxAttempts p else Fin 1;
         p_prefillFromLastAttempt := p_prefillFromLastAttempt p;
         p_questions := p_questions p;
         p_allowShuffle := p_allowShuffle p;
         p_allowReview := p_allowReview p;
         p_teacherId := p_teacherId p;
         p_teacherName := p_teacherName p;
         p_updatedAt := now' |}.
Proof.
  intros p saved. split_and!.
  - subst p. unfold buildQuizPayload. cbn [p_questions].
    destruct (questions (draft_quiz quiz)); [apply length_imap | done].
  - intros i q (q0 & Hq0 & Hid & Htruthy & Htext & Hshow)%payload_question.
    exists q0. split_and!; try done.
    + intros Hgiven. rewrite Hid. unfold or_str. rewrite Hgiven.
      destruct (q_id q0); [done | done].
    + intros Hmissing. rewrite Hid. unfold or_str. by rewrite Hmissing.
  - intros question Hin. rewrite buildFallbackEvaluations_lookup.
    subst saved. cbn [stored draft_quiz questions] in *.
    change (question ∈ p_questions p) in Hin.
    change (default [] (Some (p_questions p))) with (p_questions p).
    pose proof Hin as Hin'. apply list_elem_of_lookup in Hin' as [i Hi].
    apply (payload_question clock now quiz user) in Hi
      as (_ & _ & _ & Htruthy & _).
    destruct (q_id question) as [key|] eqn:Hkey; [| done]. simpl.
    rewrite decide_True; [done |]. split.
    + simpl in Htruthy. by apply negb_true_iff, String.eqb_neq in Htruthy.
    + apply Exists_exists. by exists question.
  - destruct (getMaxAttempts_natural (Some (draft_quiz quiz)))
      as (m & Hm & Hmax).
    assert (p_maxAttempts p = of_Z m) as Hp by exact Hmax.
    unfold buildQuizPayload at 1. f_equal.
    + cbn [stored draft_quiz quiz_title]. apply or_str_fixed.
      subst p. cbn [buildQuizPayload p_title]. by apply or_str_truthy.
    + cbn [stored draft_quiz maxAttempts].
      unfold TeacherDashboard.buildQuizPayload_maxAttempts.
      cbn [maxAttempts nullish Number]. rewrite Hp.
      unfold of_Z. cbn [isFinite andb floor]. by rewrite Qfloor_Z.
    + cbn [stored draft_quiz questions].
      apply list_eq. intros i. rewrite list_lookup_imap.
      destruct (p_questions p !! i) as [q|] eqn:Hq; [| done]. simpl.
      apply (payload_question clock now quiz user) in Hq
        as (q0 & _ & _ & Htruthy & Htext & _).
      destruct q as [qid qtext qshow]. simpl in *. f_equal. f_equal.
      * destruct qid as [qid|]; [| done]. f_equal. by apply or_str_fixed.
      * by rewrite Htext.
    + cbn [stored allowReview]. by destruct (p_allowReview p).
Qed.

End SavedQuiz.

(** ** The student view: reviewing and the closed door *)

Section Review.
Import History StudentView Dashboard StudentPages.
Variable Date_parse : string → num.




End Review.

Section ReviewWitness.
Import History StudentView Dashboard StudentPages Samples Scenarios.


End ReviewWitness.

Section Doors.
Import AiService StudentView.

(** X17: the attempt limit closes both doors.  With [m] the maximum of
    attempts of a quiz and [u] the attempts the summary counts for it: when
    [u] has reached [m], [startQuiz] does nothing but raise its alert, and
    [submitQuiz] on that quiz does nothing but raise its own, whatever the
    grading function and the store would answer; when [u] is below [m],
    [startQuiz] opens the quiz on the quiz view with no result shown, no
    history attempt selected and the questions in the given or the shuffled
    order, and leaves the store and the alerts alone. *)
Theorem limit_closes_both_doors (shuffle : list Question → list Question)
    (user : User) (env : SubmitEnv) (quiz : Quiz) (w : World) :
  ∃ m : Z,
    getMaxAttempts (Some quiz) = of_Z m
    ∧ let u := Z.of_nat (from_option count 0%nat
                           (submissionSummary (ui w) !! quiz_id quiz)) in
      (m <= u →
       startQuiz shuffle quiz w
       = alert "No attempts remaining for this quiz." w
       ∧ (activeQuiz (ui w) = Some quiz → isSubmitting (ui w) = false →
          submitQuiz user env w
          = alert "Attempt limit reached for this quiz." w))
      ∧ (u < m →
         let w' := startQuiz shuffle quiz w in
         view (ui w') = "quiz"
         ∧ activeQuiz (ui w') = Some quiz
         ∧ gradingResult (ui w') = None
         ∧ viewingResult (ui w') = false
         ∧ activeHistoryAttempt (ui w') = None
         ∧ shuffledQuestions (ui w')
           = (if allowShuffle quiz then shuffle (default [] (questions quiz))
              else default [] (questions quiz))
         ∧ submissionSummary (ui w') = submissionSummary (ui w)
         ∧ store w' = store w ∧ alerts w' = alerts w).
Proof.
  destruct (getMaxAttempts_natural (Some quiz)) as (m & _ & Hm).
  exists m. split; [done |]. intros u.
  pose proof (remaining_positive (submissionSummary (ui w)) quiz m u Hm
                (usedAttempts_count (submissionSummary (ui w)) quiz))
    as Hremaining.
  split.
  - intros Hfull.
    assert (le (remainingAttempts
                  (getAttemptInfo (submissionSummary (ui w)) quiz)) (Fin 0)
            = true) as Hclosed.
    { apply not_false_iff_true. rewrite Hremaining. lia. }
    split.
    + unfold startQuiz. by rewrite Hclosed.
    + intros Hactive Hidle. unfold submitQuiz.
      by rewrite Hactive, Hidle, Hclosed.
  - intros Hleft. apply Hremaining in Hleft.
    intros w'. subst w'. unfold startQuiz. rewrite Hleft.
    destruct (submissionSummary (ui w) !! quiz_id quiz) as [entry|];
      destruct (prefillFromLastAttempt quiz); by cbn.
Qed.

End Doors.

(** ** The student view: classes and the quiz list *)

Section Classes.
Import History Dashboard StudentPages.

Lemma map_set_elem {V} (key : string) (value : V) (m : list (string * V))
    (k : string) (v : V) :
  NoDup m.*1 →
  (k, v) ∈ map_set key value m
  ↔ (k = key ∧ v = value) ∨ (k ≠ key ∧ (k, v) ∈ m).
Proof.
  induction m as [|[k0 v0] m IH].
  - intros _. simpl. rewrite list_elem_of_singleton, elem_of_nil.
    split; [intros [= -> ->]; tauto | intros [[-> ->] | [_ []]]; done].
  - rewrite fmap_cons, NoDup_cons. cbn [fst]. intros [Hk0 Hm].
    cbn [map_set]. destruct (String.eqb_spec k0 key) as [-> | Hne].
    + rewrite !elem_of_cons. split.
      * intros [[= -> ->] | Hin]; [tauto |]. right. split; [| tauto].
        intros ->. apply Hk0. apply list_elem_of_fmap. by exists (key, v).
      * intros [[-> ->] | [Hkey [[= -> ->] | Hin]]]; tauto.
    + rewrite !elem_of_cons, IH by done. split.
      * intros [[= -> ->] | [? | [? ?]]]; tauto.
      * intros [? | [? [? | ?]]]; tauto.
Qed.

Lemma map_set_keyed (row : ClassRow) (byId : list (string * ClassRow)) :
  keyed byId → keyed (map_set (class_id row) row byId).
Proof.
  intros [Hnodup Hids]. split.
  - rewrite map_set_keys. case_bool_decide as Hin; [done |].
    apply NoDup_app. split_and!; [done | | apply NoDup_singleton].
    intros k Hk ->%list_elem_of_singleton. done.
  - intros k v [[-> ->] | [_ Hin]]%map_set_elem; [done | by apply Hids | done].
Qed.

Lemma setAll_spec (rows : list ClassRow) (byId : list (string * ClassRow)) :
  keyed byId →
  keyed (setAll rows byId)
  ∧ ∀ k v, (k, v) ∈ setAll rows byId →
           v ∈ rows ∨ ((k, v) ∈ byId ∧ k ∉ class_id <$> rows).
Proof.
  revert byId. induction rows as [|row rows IH]; intros byId Hkeyed.
  - split; [done |]. intros k v Hin. right. split; [done | apply not_elem_of_nil].
  - destruct (IH (map_set (class_id row) row byId)) as [Hk Hin];
      [by apply map_set_keyed |].
    split; [exact Hk |]. intros k v Hkv.
    apply Hin in Hkv as [Hrows | [Hset Hnot]]; [left; by right |].
    apply map_set_elem in Hset as [[-> ->] | [Hne Hold]]; [| | apply Hkeyed].
    + left. by left.
    + right. split; [done |]. rewrite fmap_cons, not_elem_of_cons. done.
Qed.

Lemma keyed_values (byId : list (string * ClassRow)) :
  keyed byId → class_id <$> byId.*2 = byId.*1.
Proof.
  intros [_ Hids]. induction byId as [|[k v] byId IH]; [done |].
  rewrite !fmap_cons. cbn [fst snd]. f_equal.
  - apply Hids. by left.
  - apply IH. intros k' v' Hin. apply Hids. by right.
Qed.

End Classes.

Section ClassSelection.
Import History Dashboard StudentPages.
Variable localeCompare : string → string → num.

Lemma merged_byId (isTeacherPreview : bool)
    (enrolledClasses teacherOwnedClasses : list ClassRow) :
  ∃ byId,
    keyed byId
    ∧ mergedClasses localeCompare isTeacherPreview enrolledClasses
        teacherOwnedClasses
      ≡ₚ filter (λ row, isArchived row = false) byId.*2
    ∧ ∀ k v, (k, v) ∈ byId →
        if isTeacherPreview
        then v ∈ teacherOwnedClasses
             ∨ (v ∈ enrolledClasses ∧ k ∉ class_id <$> teacherOwnedClasses)
        else v ∈ enrolledClasses.
Proof.
  assert (keyed []) as Hempty.
  { split; [apply NoDup_nil_2 | by intros k v ?%elem_of_nil]. }
  destruct (setAll_spec enrolledClasses [] Hempty) as [Hk1 Hin1].
  unfold mergedClasses. destruct isTeacherPreview.
  - destruct (setAll_spec teacherOwnedClasses (setAll enrolledClasses []) Hk1)
      as [Hk2 Hin2].
    eexists. split_and!; [exact Hk2 | apply sort_perm |].
    intros k v [? | [[? | [[]%elem_of_nil _]]%Hin1 ?]]%Hin2; tauto.
  - eexists. split_and!; [exact Hk1 | apply sort_perm |].
    intros k v [? | [[]%elem_of_nil _]]%Hin1. done.
Qed.

(** X18: the student's classes, the selection and the quiz list.  The merged
    classes are classes of the student (or, in the teacher preview, of the
    teacher), none of them archived and no id twice, and in the preview the
    teacher's row stands for an id both lists hold.  After the selection
    effect the selected id is empty when there is no class (and the view is
    the list), and the id of one of the merged classes otherwise; running
    the effect again changes nothing.  The quiz list holds exactly the
    unlocked quizzes of the selected class. *)
Theorem selection_stays_among_classes (isTeacherPreview : bool)
    (enrolledClasses teacherOwnedClasses : list ClassRow)
    (selectedClassId view : string) (allClassQuizzes : list Draft) :
  let merged :=
    mergedClasses localeCompare isTeacherPreview enrolledClasses
      teacherOwnedClasses in
  let selected := (selectClass merged selectedClassId view).1 in
  let view' := (selectClass merged selectedClassId view).2 in
  (∀ row, row ∈ merged →
     isArchived row = false
     ∧ (row ∈ enrolledClasses
        ∨ (isTeacherPreview = true ∧ row ∈ teacherOwnedClasses))
     ∧ (isTeacherPreview = true →
        class_id row ∈ class_id <$> teacherOwnedClasses →
        row ∈ teacherOwnedClasses))
  ∧ NoDup (class_id <$> merged)
  ∧ (merged = [] → selected = EmptyString ∧ view' = "list")
  ∧ (merged ≠ [] → selected ∈ class_id <$> merged ∧ view' = view)
  ∧ ((selectedClassId ∈ class_id <$> merged ∧ selectedClassId ≠ EmptyString) →
     selected = selectedClassId)
  ∧ selectClass merged selected view' = (selected, view')
  ∧ ∀ quiz, quiz ∈ quizzes localeCompare selected allClassQuizzes
            ↔ selected ≠ EmptyString ∧ quiz ∈ allClassQuizzes
              ∧ quiz_classId (draft_quiz quiz) = Some selected
              ∧ isLocked quiz = false.
Proof.
  intros merged selected view'.
  destruct (merged_byId isTeacherPreview enrolledClasses teacherOwnedClasses)
    as (byId & Hkeyed & Hperm & Hfrom).
  fold merged in Hperm.
  assert (∀ s, existsb (λ row, String.eqb (class_id row) s) merged = true
               ↔ s ∈ class_id <$> merged) as Hfound.
  { intros s. rewrite existsb_exists, list_elem_of_fmap. split.
    - intros (row & Hin%list_elem_of_In & <-%String.eqb_eq). eauto.
    - intros (row & -> & Hin%list_elem_of_In). exists row.
      by rewrite String.eqb_refl. }
  split_and!.
  - intros row Hrow. rewrite Hperm in Hrow.
    apply list_elem_of_filter in Hrow as [Hlive Hrow].
    apply list_elem_of_fmap in Hrow as ([k v] & -> & Hkv). cbn [snd] in *.
    pose proof (Hfrom k v Hkv) as Hv.
    assert (class_id v = k) as Hk by (by apply Hkeyed).
    split; [done |]. destruct isTeacherPreview.
    + split; [tauto |]. intros _ Hteacher. rewrite Hk in Hteacher. tauto.
    + split; [tauto | done].
  - rewrite Hperm. apply sublist_NoDup with (class_id <$> byId.*2).
    + rewrite keyed_values by done. apply Hkeyed.
    + apply fmap_sublist, sublist_filter.
  - subst selected view'. by intros ->.
  - subst selected view'. intros Hsome.
    destruct merged as [|first rest] eqn:Hmerged; [done |]. cbn [selectClass].
    destruct (String.eqb_spec selectedClassId EmptyString) as [-> | Hne];
      cbn [orb].
    + split; [| done]. rewrite fmap_cons. by left.
    + destruct (existsb _ (first :: rest)) eqn:Hex; cbn [negb fst snd].
      * split; [| done]. by apply Hfound.
      * split; [| done]. rewrite fmap_cons. by left.
  - subst selected. intros [Hin Hne].
    destruct merged as [|first rest] eqn:Hmerged;
      [by apply elem_of_nil in Hin |].
    cbn [selectClass]. apply String.eqb_neq in Hne. rewrite Hne.
    apply Hfound in Hin. by rewrite Hin.
  - subst selected view'.
    destruct merged as [|first rest] eqn:Hmerged; [done |]. cbn [selectClass].
    destruct (String.eqb selectedClassId EmptyString
              || negb (existsb (λ row, String.eqb (class_id row) selectedClassId)
                         (first :: rest))) eqn:Hmove; cbn [fst snd].
    + destruct (String.eqb_spec (class_id first) EmptyString) as [-> | Hne];
        [done |].
      cbn [orb existsb]. by rewrite String.eqb_refl.
    + by rewrite Hmove.
  - intros quiz. unfold quizzes. rewrite sort_perm.
    destruct (String.eqb_spec selected EmptyString) as [-> | Hne].
    + rewrite filter_nil, elem_of_nil. tauto.
    + rewrite !list_elem_of_filter. tauto.
Qed.

End ClassSelection.

(** ** The editors *)

Section Toolbar.
Import GradeProxy Editor.

(** X19: a toolbar button wraps the selection and keeps it selected.  For a
    selection inside the text, the new text is the text before the
    selection, the opening tag, the selected text (or the word text when
    nothing is selected), the closing tag and the text after the selection;
    and the range that is selected afterwards is exactly the wrapped text. *)
Theorem wrapped_text_stays_selected (startTag endTag : list ascii)
    (start end_ : nat) (text : list ascii) :
  (start <= end_)%nat → (end_ <= length text)%nat →
  let inserted := (handleInsert startTag endTag start end_ text).1 in
  let range := (handleInsert startTag endTag start end_ text).2 in
  let wrapped :=
    if decide (start = end_) then list_ascii_of_string "text"
    else take (end_ - start) (drop start text) in
  inserted = take start text ++ startTag ++ wrapped ++ endTag ++ drop end_ text
  ∧ substring_between range.1 range.2 inserted = wrapped
  ∧ take range.1 inserted = take start text ++ startTag
  ∧ drop range.2 inserted = endTag ++ drop end_ text.
Proof.
  intros Hstart Hend inserted range wrapped.
  assert (substring_between 0 start text = take start text) as Hbefore.
  { unfold substring_between. rewrite Nat.min_0_l, Nat.max_0_l.
    by rewrite Nat.sub_0_r. }
  assert (substring_between start end_ text
          = take (end_ - start) (drop start text)) as Hselection.
  { unfold substring_between. by rewrite Nat.min_l, Nat.max_r by lia. }
  assert (length (take (end_ - start) (drop start text)) = (end_ - start)%nat)
    as Hlen by (rewrite length_take, length_drop; lia).
  assert (match take (end_ - start) (drop start text) with
          | [] => list_ascii_of_string "text"
          | _ => take (end_ - start) (drop start text)
          end = wrapped
          ∧ (end_ + length startTag
             + match take (end_ - start) (drop start text) with
               | [] => 4
               | _ => 0
               end)%nat
            = (start + length startTag + length wrapped)%nat)
    as [Hshown Hrange].
  { subst wrapped. destruct (decide (start = end_)) as [-> | Hne].
    - rewrite Nat.sub_diag. simpl. split; [done | lia].
    - destruct (take (end_ - start) (drop start text)) eqn:Htake;
        simpl in Hlen; [lia |]. split; [done |]. simpl. lia. }
  assert (inserted
          = take start text ++ startTag ++ wrapped ++ endTag ++ drop end_ text)
    as Hinserted.
  { subst inserted. unfold handleInsert. cbn [fst].
    by rewrite Hbefore, Hselection, Hshown. }
  assert (range = ((start + length startTag)%nat,
                   (start + length startTag + length wrapped)%nat))
    as Hr.
  { subst range. unfold handleInsert. cbn [snd].
    by rewrite Hselection, Hrange. }
  assert (length (take start text ++ startTag) = (start + length startTag)%nat)
    as Hprefix by (rewrite length_app, length_take; lia).
  rewrite Hr, Hinserted. cbn [fst snd]. split_and!.
  - done.
  - unfold substring_between. rewrite Nat.min_l, Nat.max_r by lia.
    rewrite (app_assoc (take start text)), <- Hprefix, drop_app_length.
    replace (length (take start text ++ startTag) + length wrapped
             - length (take start text ++ startTag))%nat
      with (length wrapped) by lia.
    by rewrite take_app_length.
  - rewrite (app_assoc (take start text)), <- Hprefix.
    by rewrite take_app_length.
  - rewrite (app_assoc (take start text)), (app_assoc _ wrapped).
    rewrite <- Hprefix, <- length_app. by rewrite drop_app_length.
Qed.

Lemma wrapped_text_stays_selected_witness :
  let text := list_ascii_of_string "solve x+1=2 now" in
  let dollar := list_ascii_of_string "$" in
  handleInsert dollar dollar 6 11 text
  = (list_ascii_of_string "solve $x+1=2$ now", (7, 12)%nat)
  ∧ substring_between 7 12 (list_ascii_of_string "solve $x+1=2$ now")
    = list_ascii_of_string "x+1=2".
Proof.
  split; [by vm_compute |].
  exact (proj1 (proj2
           (wrapped_text_stays_selected (list_ascii_of_string "$")
              (list_ascii_of_string "$") 6 11
              (list_ascii_of_string "solve x+1=2 now")
              ltac:(lia) ltac:(simpl; lia)))).
Defined.

End Toolbar.

(** ** The dashboard: saving a quiz *)

Section Saving.
Import StudentView Dashboard QuizEditor.

(** X20: saving never takes over another teacher's quiz.  Whatever
    [saveQuiz] changes in the [quizzes] collection is one document, written
    with the payload of the active quiz and so with the user as its teacher:
    under the new id when the view is the new-quiz view, and otherwise under
    the id of the active quiz, without a time of creation.  In the edit view
    a quiz that names another teacher as its owner is not written at all:
    the collection, the active quiz and the view stay as they are and the
    alert says that only own quizzes can be edited; a quiz that names no
    owner is written and thereby becomes the user's. *)
Theorem saveQuiz_writes_only_own (db : bool) (clock : nat → Z)
    (now created newId : string) (outcome : WriteOutcome) (user : User)
    (e : Editor) :
  let e' := saveQuiz db clock now created newId outcome user e in
  (∀ id, quizStore e' !! id ≠ quizStore e !! id →
     ∃ active stored,
       ed_activeQuiz e = Some active ∧ db = true ∧ outcome = Written
       ∧ quizStore e' !! id = Some stored
       ∧ saved_data stored = buildQuizPayload clock now active user
       ∧ p_teacherId (saved_data stored) = uid user
       ∧ (ed_view e = "new" ∧ id = newId ∧ createdAt stored = Some created
          ∨ ed_view e ≠ "new" ∧ id = quiz_id (draft_quiz active)
            ∧ createdAt stored = None)
       ∧ (ed_view e = "edit" →
          teacherId active = None ∨ teacherId active = Some EmptyString
          ∨ teacherId active = Some (uid user)))
  ∧ (∀ active owner,
       ed_activeQuiz e = Some active → db = true → ed_view e = "edit" →
       teacherId active = Some owner → owner ≠ EmptyString →
       owner ≠ uid user →
       quizStore e' = quizStore e ∧ ed_activeQuiz e' = ed_activeQuiz e
       ∧ ed_view e' = ed_view e
       ∧ ed_alerts e'
         = ed_alerts e ++ ["Failed to save quiz: You can only edit quizzes you own."])
  ∧ (∀ active,
       ed_activeQuiz e = Some active → db = true → outcome = Written →
       ed_view e = "edit" →
       teacherId active = None ∨ teacherId active = Some EmptyString →
       quizStore e' !! quiz_id (draft_quiz active)
       = Some {| saved_data := buildQuizPayload clock now active user;
                 createdAt := None |}).
Proof.
  intros e'. subst e'. unfold saveQuiz. split_and!.
  - intros id. destruct (ed_activeQuiz e) as [active|]; [| done].
    destruct db; [| done]. cbn [negb].
    destruct (String.eqb_spec (ed_view e) "edit") as [Hedit | Hedit];
      cbn [andb].
    + destruct (str_truthy (teacherId active)) eqn:Howned; cbn [andb].
      * destruct (String.eqb_spec (str_or_empty (teacherId active)) (uid user))
          as [Hmine | Hother]; cbn [negb]; [| done].
        destruct outcome as [|code message]; [| done].
        rewrite Hedit. cbn [String.eqb Ascii.eqb Bool.eqb quizStore].
        intros Hchanged. eexists active, _.
        destruct (decide (id = quiz_id (draft_quiz active))) as [-> | Hne];
          [| by rewrite lookup_insert_ne in Hchanged].
        rewrite lookup_insert_eq. split_and!; try done.
        -- right. done.
        -- intros _. right. right.
           destruct (teacherId active) as [owner|]; [| done].
           simpl in Hmine. by rewrite Hmine.
      * destruct outcome as [|code message]; [| done].
        rewrite Hedit. cbn [String.eqb Ascii.eqb Bool.eqb quizStore].
        intros Hchanged. eexists active, _.
        destruct (decide (id = quiz_id (draft_quiz active))) as [-> | Hne];
          [| by rewrite lookup_insert_ne in Hchanged].
        rewrite lookup_insert_eq. split_and!; try done.
        -- right. done.
        -- intros _. destruct (teacherId active) as [owner|]; [| by left].
           right. left. simpl in Howned.
           apply negb_false_iff, String.eqb_eq in Howned. by rewrite Howned.
    + destruct outcome as [|code message]; [| done]. cbn [quizStore].
      destruct (String.eqb_spec (ed_view e) "new") as [Hnew | Hnew].
      * intros Hchanged. eexists active, _.
        destruct (decide (id = newId)) as [-> | Hne];
          [| by rewrite lookup_insert_ne in Hchanged].
        rewrite lookup_insert_eq. split_and!; try done. left. done.
      * intros Hchanged. eexists active, _.
        destruct (decide (id = quiz_id (draft_quiz active))) as [-> | Hne];
          [| by rewrite lookup_insert_ne in Hchanged].
        rewrite lookup_insert_eq. split_and!; try done. right. done.
  - intros active owner Hactive -> Hedit Howner Hne Hother.
    rewrite Hactive, Hedit, Howner.
    cbn [negb String.eqb Ascii.eqb Bool.eqb str_truthy str_or_empty default
      from_option id andb].
    apply String.eqb_neq in Hne, Hother. rewrite Hne, Hother.
    cbn [negb andb]. unfold caught.
    cbn [quizStore ed_activeQuiz ed_view ed_alerts].
    by split_and!.
  - intros active -> -> -> -> Howner. cbn [negb].
    cbn [String.eqb Ascii.eqb Bool.eqb andb].
    assert (str_truthy (teacherId active) = false) as ->
      by (by destruct Howner as [-> | ->]).
    cbn [andb quizStore]. by rewrite lookup_insert_eq.
Qed.

End Saving.
